(** * Stock-alert backend: monitoring-and-alerting engine

    A shallow embedding of the core of [backend/main.py] and of the
    fallback composer of [quote_sources/__init__.py]:

    - the run-status record and its recovery paths,
    - the alert evaluator with cooldown and date-keyed suppression,
    - the snapshot write,
    - the bulk routine [check_alerts] and the two ways it is started,
    - the primary/secondary provider composition,
    - the selection of the provider, two helpers of the Gemini adapter,
      the migration of the snapshot table, the on-demand update of one
      symbol and the deletion of a symbol.

    The relational store is a record of tables; the outside (clock,
    providers, webhook) is a record of oracles indexed by the number of
    calls made so far.  Python exceptions are the [Raise] results of a
    state-and-error monad.  Values are typed as the code annotates and
    documents them: epochs and ids are ints, the numbers of a quote are
    floats (binary64, as in Python), text is a string of bytes. *)

From Stdlib Require Import ZArith Floats Ascii.
From stdpp Require Import gmap strings list fin_maps pretty.

Open Scope Z_scope.

(* ===================================================================== *)
(** ** Python values, exceptions and the state-and-error monad *)
(* ===================================================================== *)

Module Py.

(** A raised exception, by class name. *)
Inductive exn : Type := Exc (cls : string).

Inductive res (A : Type) : Type :=
| Ok (a : A)
| Raise (e : exn).
Arguments Ok {A} a.
Arguments Raise {A} e.

(** A computation over a state [S] that returns or raises.  The state
    reached when an exception is raised is kept: Python does not roll
    anything back. *)
Definition M (S A : Type) : Type := S -> res A * S.

Definition ret {S A} (a : A) : M S A := fun s => (Ok a, s).

Definition bind {S A B} (m : M S A) (k : A -> M S B) : M S B :=
  fun s => match m s with
           | (Ok a, s') => k a s'
           | (Raise e, s') => (Raise e, s')
           end.

Definition raise {S A} (e : exn) : M S A := fun s => (Raise e, s).

Definition gets {S A} (f : S -> A) : M S A := fun s => (Ok (f s), s).

Definition modify {S} (f : S -> S) : M S unit := fun s => (Ok tt, f s).

(** A step that touches no state: it answers [r], or raises as [r]
    does. *)
Definition pure {S A} (r : res A) : M S A := fun s => (r, s).

(** [try: m except Exception: h] *)
Definition try_except {S A} (m : M S A) (h : exn -> M S A) : M S A :=
  fun s => match m s with
           | (Ok a, s') => (Ok a, s')
           | (Raise e, s') => h e s'
           end.

(** [try: m finally: fin].  The outcome of [m] is the outcome of the
    whole statement unless [fin] itself raises. *)
Definition try_finally {S A} (m : M S A) (fin : M S unit) : M S A :=
  fun s => match m s with
           | (r, s') =>
               match fin s' with
               | (Ok _, s'') => (r, s'')
               | (Raise e, s'') => (Raise e, s'')
               end
           end.

(** Truthiness of an [Optional[str]]. *)
Definition truthy (o : option string) : bool :=
  match o with
  | None => false
  | Some s => negb (String.eqb s "")
  end.

(** [s[:n]] on a string.  Bytes are counted, which is what Python counts
    on ASCII text. *)
Definition prefix (n : nat) (s : string) : string := String.substring 0 n s.

(** [x or ""] on an [Optional[str]]. *)
Definition or_empty (o : option string) : string :=
  match o with
  | Some s => s
  | None => ""
  end.

(** The line feed of an f-string. *)
Definition nl : string := String (Ascii.ascii_of_nat 10) EmptyString.

(** [s.upper()] on the ASCII letters. *)
Definition upper_char (c : Ascii.ascii) : Ascii.ascii :=
  let n := Ascii.nat_of_ascii c in
  if (97 <=? n)%nat && (n <=? 122)%nat then Ascii.ascii_of_nat (n - 32) else c.

Fixpoint upper (s : string) : string :=
  match s with
  | EmptyString => EmptyString
  | String c r => String (upper_char c) (upper r)
  end.

(** [s.strip()]: the ASCII white space Python strips. *)
Definition is_space (c : Ascii.ascii) : bool :=
  let n := Ascii.nat_of_ascii c in
  ((9 <=? n)%nat && (n <=? 13)%nat) || ((28 <=? n)%nat && (n <=? 32)%nat).

Fixpoint lstrip (s : string) : string :=
  match s with
  | EmptyString => EmptyString
  | String c r => if is_space c then lstrip r else s
  end.

Fixpoint rstrip (s : string) : string :=
  match s with
  | EmptyString => EmptyString
  | String c r =>
      match rstrip r with
      | EmptyString => if is_space c then EmptyString else String c EmptyString
      | r' => String c r'
      end
  end.

Definition strip (s : string) : string := rstrip (lstrip s).

(** [s.split(sep)] for a one-character separator. *)
Fixpoint split (sep : Ascii.ascii) (s : string) : list string :=
  match s with
  | EmptyString => [EmptyString]
  | String c r =>
      if Ascii.eqb c sep then EmptyString :: split sep r
      else match split sep r with
           | [] => [String c EmptyString]
           | h :: t => String c h :: t
           end
  end.

(** [int(x)] on a float: truncation toward zero; ValueError on NaN,
    OverflowError on an infinity. *)
Definition int_of_float (f : float) : res Z :=
  match Prim2SF f with
  | S754_zero _ => Ok 0
  | S754_finite s m e =>
      let v := if 0 <=? e then Z.pos m * 2 ^ e else Z.pos m / 2 ^ (- e) in
      Ok (if s then - v else v)
  | S754_infinity _ => Raise (Exc "OverflowError")
  | S754_nan => Raise (Exc "ValueError")
  end.

(** [f"{x:.Nf}"]: the exact value of the float, rounded half to even
    at [digits] decimals; the sign is kept, also on a result of zero. *)
Definition round_half_even (num den : Z) : Z :=
  let q := num / den in
  let r := num mod den in
  if 2 * r <? den then q
  else if den <? 2 * r then q + 1
  else if Z.even q then q else q + 1.

Fixpoint zero_pad (width : nat) (s : string) : string :=
  match width with
  | O => s
  | S k => if (String.length s <? width)%nat
           then zero_pad k ("0" +:+ s) else s
  end.

Definition format_fixed (digits : nat) (negative : bool) (scaled : Z)
  : string :=
  let unit_ := 10 ^ Z.of_nat digits in
  (if negative then "-" else "") +:+ pretty (scaled / unit_)
  +:+ match digits with
      | O => ""
      | S _ => "." +:+ zero_pad digits (pretty (scaled mod unit_))
      end.

Definition format_f (digits : nat) (f : float) : string :=
  match Prim2SF f with
  | S754_nan => "nan"
  | S754_infinity s => if s then "-inf" else "inf"
  | S754_zero s => format_fixed digits s 0
  | S754_finite s m e =>
      let unit_ := 10 ^ Z.of_nat digits in
      let scaled :=
        if 0 <=? e then Z.pos m * 2 ^ e * unit_
        else round_half_even (Z.pos m * unit_) (2 ^ (- e)) in
      format_fixed digits s scaled
  end.

End Py.

Import Py.

#[global] Instance M_ret {S} : MRet (M S) := fun A a => ret a.
#[global] Instance M_bind {S} : MBind (M S) := fun A B k m => bind m k.

(* ===================================================================== *)
(** ** Data model: the tables of the store *)
(* ===================================================================== *)

(** The single row of table [run_status] (id = 1).  Every column but the
    key is nullable. *)
Record RunStatus : Type := {
  phase : option string;
  started_epoch : option Z;
  finished_epoch : option Z;
  status_code : option string;
  message : option string;
  ok_count : option Z;
  err_count : option Z
}.

(** The row seeded by [init_db]. *)
Definition seed_run_status : RunStatus :=
  {| phase := Some "idle"; started_epoch := None; finished_epoch := None;
     status_code := None; message := Some "No runs yet";
     ok_count := Some 0; err_count := Some 0 |}.


(** A row of table [alerts]: [id], [symbol_id], [type], [value]
    (a REAL column, read back as a float). *)
Record AlertRow : Type := {
  alert_id : Z;
  alert_symbol : Z;
  a_type : string;
  a_val : float
}.

(** A row of table [alert_state], keyed by [alert_id]. *)
Record AlertState : Type := {
  last_sent_epoch : option Z;
  last_sent_key : option string
}.

(** A value stored in a column of [symbol_state]. *)
Inductive sqlval : Type :=
| SqlNull
| SqlInt (z : Z)
| SqlReal (f : float)
| SqlText (s : string).

#[global] Instance sqlval_inhabited : Inhabited sqlval := populate SqlNull.

Definition sql_int (o : option Z) : sqlval :=
  match o with Some z => SqlInt z | None => SqlNull end.

Definition sql_real (o : option float) : sqlval :=
  match o with Some f => SqlReal f | None => SqlNull end.

Definition sql_text (o : option string) : sqlval :=
  match o with Some s => SqlText s | None => SqlNull end.

(** The unified quote payload of [quote_sources/base.py], with the types
    its docstring gives: the adapters coerce numbers with [float] and
    [int].  A Python dict read only through [.get]: a missing key and a
    key bound to [None] are both [None] here, and so the empty dict is
    the record of [None]s.  The last three fields are the keys outside
    the schema that [main.py] also consults for the earnings date. *)
Module Quote.

Record t : Type := {
  symbol : option string;
  price : option float;
  prev_close : option float;
  open_ : option float;
  high : option float;
  low : option float;
  volume : option Z;
  latest_trading_day : option string;
  change : option float;
  change_percent : option string;
  market_cap : option Z;
  pe_ratio : option float;
  dividend_yield_percent : option float;
  fifty_two_week_high : option float;
  fifty_two_week_low : option float;
  quarterly_dividend_amount : option float;
  next_earning_day : option string;
  description : option string;
  source : option string;
  error : option string;
  next_earnings_day : option string;
  earnings_date : option string;
  nextEarningsDate : option string
}.

(** The dict with every key [None] except [symbol], [source] and
    [error]. *)
Definition blank (sym src err : option string) : t :=
  {| symbol := sym; price := None; prev_close := None; open_ := None;
     high := None; low := None; volume := None;
     latest_trading_day := None; change := None; change_percent := None;
     market_cap := None; pe_ratio := None; dividend_yield_percent := None;
     fifty_two_week_high := None; fifty_two_week_low := None;
     quarterly_dividend_amount := None; next_earning_day := None;
     description := None; source := src; error := err;
     next_earnings_day := None; earnings_date := None;
     nextEarningsDate := None |}.

(** [(d or {}).get("error")] *)
Definition get_error (d : option t) : option string := d ≫= error.

(** The first truthy value among the four earnings-date keys, in the
    order [main.py] tries them. *)
Definition earnings_keys : list (t -> option string) :=
  [next_earning_day; next_earnings_day; earnings_date; nextEarningsDate].

Fixpoint first_truthy (keys : list (t -> option string)) (d : t)
  : option string :=
  match keys with
  | [] => None
  | k :: rest => if truthy (k d) then k d else first_truthy rest d
  end.

End Quote.

(** A reading of [datetime.now(ZoneInfo(MARKET_TZ))]. *)
Record datetime : Type := {
  weekday : Z;
  hour : Z;
  minute : Z;
  second : Z;
  microsecond : Z;
  ordinal : Z;
  stamp : string
}.

(** What [requests.post] to the webhook does. *)
Inductive post_outcome : Type :=
| Response (status_code : Z)
| PostRaises (e : exn).

(** Process configuration (environment variables). *)
Record Config : Type := {
  DISCORD_WEBHOOK : string;
  COOLDOWN_MINUTES : Z;
  ALERT_FIRE_TIMES : list string;
  RUN_TIMEOUT_SECONDS : Z
}.

Definition default_config : Config :=
  {| DISCORD_WEBHOOK := ""; COOLDOWN_MINUTES := 15;
     ALERT_FIRE_TIMES := ["09:35"; "12:00"; "15:55"];
     RUN_TIMEOUT_SECONDS := 600 |}.

(** The outside world.  Each oracle answers the n-th call of its kind;
    library functions whose text is not part of the repository are
    fields too. *)
Record Env : Type := {
  (** [int(time.time())] *)
  clock : nat -> Z;
  (** [datetime.now(ZoneInfo(MARKET_TZ))] *)
  local_clock : nat -> datetime;
  (** [datetime.strptime(d, "%Y-%m-%d").date().toordinal()];
      [None] when it raises *)
  strptime_ymd : string -> option Z;
  (** [int(s)] on a string; [None] when it raises *)
  int_of_str : string -> option Z;
  (** [requests.post(DISCORD_WEBHOOK, json={"content": c}, timeout=10)] *)
  http_post : nat -> string -> post_outcome;
  (** [PROVIDER.get_full(ticker)] *)
  provider_get_full : nat -> string -> res (option Quote.t);
  (** [SELECT id, ticker FROM symbols WHERE group_id=WATCH_ID ORDER BY ticker] *)
  select_watchlist : nat -> res (list (Z * string));
  (** whether [threading.Thread(...).start()] succeeds *)
  thread_start : nat -> res unit
}.

(** The store, and the record of what has been exchanged with the
    outside so far.  The fields after [symbol_state] are ghost: no
    code reads them. *)
Record World : Type := {
  run_status : option RunStatus;
  alerts : list AlertRow;
  alert_state : gmap Z AlertState;
  symbol_state : gmap Z (gmap string sqlval);
  (** number of clock readings made *)
  time_reads : nat;
  local_reads : nat;
  (** every post to the webhook, oldest first *)
  posts : list (string * post_outcome);
  (** every provider call, oldest first *)
  fetches : list (string * res (option Quote.t));
  (** the rule ids counted by [sent += 1], oldest first *)
  notified : list Z;
  (** every write to the phase of the run-status row: old and new *)
  transitions : list (option string * option string);
  watch_reads : nat;
  (** every attempt to start a worker thread on [check_alerts]: whether
      it started *)
  workers : list bool
}.

Definition with_run_status (v : option RunStatus) (w : World) : World :=
  {| run_status := v; alerts := alerts w; alert_state := alert_state w;
     symbol_state := symbol_state w; time_reads := time_reads w;
     local_reads := local_reads w; posts := posts w; fetches := fetches w;
     notified := notified w; transitions := transitions w;
     watch_reads := watch_reads w; workers := workers w |}.

Definition with_alert_state (v : gmap Z AlertState) (w : World) : World :=
  {| run_status := run_status w; alerts := alerts w; alert_state := v;
     symbol_state := symbol_state w; time_reads := time_reads w;
     local_reads := local_reads w; posts := posts w; fetches := fetches w;
     notified := notified w; transitions := transitions w;
     watch_reads := watch_reads w; workers := workers w |}.

Definition with_symbol_state (v : gmap Z (gmap string sqlval)) (w : World)
  : World :=
  {| run_status := run_status w; alerts := alerts w;
     alert_state := alert_state w; symbol_state := v;
     time_reads := time_reads w; local_reads := local_reads w;
     posts := posts w; fetches := fetches w; notified := notified w;
     transitions := transitions w; watch_reads := watch_reads w;
     workers := workers w |}.

Definition with_time_reads (v : nat) (w : World) : World :=
  {| run_status := run_status w; alerts := alerts w;
     alert_state := alert_state w; symbol_state := symbol_state w;
     time_reads := v; local_reads := local_reads w; posts := posts w;
     fetches := fetches w; notified := notified w;
     transitions := transitions w; watch_reads := watch_reads w;
     workers := workers w |}.

Definition with_local_reads (v : nat) (w : World) : World :=
  {| run_status := run_status w; alerts := alerts w;
     alert_state := alert_state w; symbol_state := symbol_state w;
     time_reads := time_reads w; local_reads := v; posts := posts w;
     fetches := fetches w; notified := notified w;
     transitions := transitions w; watch_reads := watch_reads w;
     workers := workers w |}.

Definition with_posts (v : list (string * post_outcome)) (w : World) : World :=
  {| run_status := run_status w; alerts := alerts w;
     alert_state := alert_state w; symbol_state := symbol_state w;
     time_reads := time_reads w; local_reads := local_reads w; posts := v;
     fetches := fetches w; notified := notified w;
     transitions := transitions w; watch_reads := watch_reads w;
     workers := workers w |}.

Definition with_fetches (v : list (string * res (option Quote.t))) (w : World)
  : World :=
  {| run_status := run_status w; alerts := alerts w;
     alert_state := alert_state w; symbol_state := symbol_state w;
     time_reads := time_reads w; local_reads := local_reads w;
     posts := posts w; fetches := v; notified := notified w;
     transitions := transitions w; watch_reads := watch_reads w;
     workers := workers w |}.

Definition with_notified (v : list Z) (w : World) : World :=
  {| run_status := run_status w; alerts := alerts w;
     alert_state := alert_state w; symbol_state := symbol_state w;
     time_reads := time_reads w; local_reads := local_reads w;
     posts := posts w; fetches := fetches w; notified := v;
     transitions := transitions w; watch_reads := watch_reads w;
     workers := workers w |}.

Definition with_transitions (v : list (option string * option string))
  (w : World) : World :=
  {| run_status := run_status w; alerts := alerts w;
     alert_state := alert_state w; symbol_state := symbol_state w;
     time_reads := time_reads w; local_reads := local_reads w;
     posts := posts w; fetches := fetches w; notified := notified w;
     transitions := v; watch_reads := watch_reads w; workers := workers w |}.

Definition with_watch_reads (v : nat) (w : World) : World :=
  {| run_status := run_status w; alerts := alerts w;
     alert_state := alert_state w; symbol_state := symbol_state w;
     time_reads := time_reads w; local_reads := local_reads w;
     posts := posts w; fetches := fetches w; notified := notified w;
     transitions := transitions w; watch_reads := v; workers := workers w |}.

Definition with_workers (v : list bool) (w : World) : World :=
  {| run_status := run_status w; alerts := alerts w;
     alert_state := alert_state w; symbol_state := symbol_state w;
     time_reads := time_reads w; local_reads := local_reads w;
     posts := posts w; fetches := fetches w; notified := notified w;
     transitions := transitions w; watch_reads := watch_reads w;
     workers := v |}.

(* ===================================================================== *)
(** ** The operations of [backend/main.py] *)
(* ===================================================================== *)

Section Backend.

Variable cfg : Config.
Variable env : Env.

(** [int(time.time())] *)
Definition time_time : M World Z :=
  fun w => (Ok (clock env (time_reads w)), with_time_reads (S (time_reads w)) w).

(** [now_et()] *)
Definition now_et : M World datetime :=
  fun w => (Ok (local_clock env (local_reads w)),
            with_local_reads (S (local_reads w)) w).

(** A practical notify window: Monday to Friday, 08:30 to 17:00. *)
Definition time_of_day (d : datetime) : Z :=
  ((hour d * 60 + minute d) * 60 + second d) * 1000000 + microsecond d.

Definition is_trading_window (now_eastern : datetime) : bool :=
  if 5 <=? weekday now_eastern then false
  else
    let start := ((8 * 60 + 30) * 60) * 1000000 in
    let end_ := ((17 * 60 + 0) * 60) * 1000000 in
    (start <=? time_of_day now_eastern) && (time_of_day now_eastern <=? end_).

(** *** Run-status helpers *)

(** An UPDATE of the run-status row: nothing happens when the row is
    absent; the change of phase is logged. *)
Definition update_run_status (f : RunStatus -> RunStatus) : M World unit :=
  fun w =>
    match run_status w with
    | None => (Ok tt, w)
    | Some rs =>
        (Ok tt,
         with_transitions (transitions w ++ [(phase rs, phase (f rs))])
           (with_run_status (Some (f rs)) w))
    end.

Definition set_run_status (phase_ : string)
  (started finished : option Z) (status_code_ message_ : option string)
  (ok_count_ err_count_ : option Z) : M World unit :=
  update_run_status (fun rs =>
    {| phase := Some phase_;
       started_epoch :=
         match started with Some v => Some v | None => started_epoch rs end;
       finished_epoch :=
         match finished with Some v => Some v | None => finished_epoch rs end;
       status_code :=
         match status_code_ with
         | Some v => Some v
         | None => status_code rs
         end;
       message :=
         match message_ with
         | Some v => Some (prefix 400 v)
         | None => message rs
         end;
       ok_count :=
         match ok_count_ with Some v => Some v | None => ok_count rs end;
       err_count :=
         match err_count_ with Some v => Some v | None => err_count rs end |}).

Definition get_run_status : M World (option RunStatus) := gets run_status.

Definition _force_finish_run_status (status_code_ message_ : string)
  : M World unit :=
  now ← time_time;
  set_run_status "finished" None (Some now) (Some status_code_)
    (Some message_) None None.

(** If phase is running but [started_epoch] is too old, force-finish as
    interrupted.  [started_epoch] is an INTEGER column: an int or NULL. *)
Definition is_running (rs : RunStatus) : bool :=
  match phase rs with
  | Some p => String.eqb p "running"
  | None => false
  end.

Definition _auto_recover_run_status : M World unit :=
  row ← gets run_status;
  match row with
  | None => mret tt
  | Some rs =>
      match is_running rs, started_epoch rs with
      | true, Some started =>
          t ← time_time;
          let age := t - started in
          if RUN_TIMEOUT_SECONDS cfg <=? age then
            t' ← time_time;
            update_run_status (fun rs =>
              {| phase := Some "finished";
                 started_epoch := started_epoch rs;
                 finished_epoch := Some t';
                 status_code := Some "interrupted_timeout";
                 message := Some "Auto-recovered: run exceeded timeout";
                 ok_count := ok_count rs;
                 err_count := err_count rs |})
          else mret tt
      | _, _ => mret tt
      end
  end.

(** On startup mark any lingering running phase as interrupted. *)
Definition _recover_stuck_run_status : M World unit :=
  row ← gets run_status;
  match row with
  | None => mret tt
  | Some rs =>
      if is_running rs then
        now ← time_time;
        update_run_status (fun rs =>
          {| phase := Some "finished";
             started_epoch := started_epoch rs;
             finished_epoch := Some now;
             status_code := Some "interrupted";
             message :=
               Some "Previous run did not finish (server restarted).";
             ok_count := ok_count rs;
             err_count := err_count rs |})
      else mret tt
  end.

(** [get_run_status] answers a default dict of phase idle when the row
    is absent: [None] here. *)
Definition _is_run_already_running : M World bool :=
  st ← get_run_status;
  mret (match st with
        | Some rs => is_running rs
        | None => false
        end).
(** *** Notifier *)

(** Send a message to the webhook if configured.  True only on a 2xx
    answer. *)
Definition _notify_discord (content : string) : M World bool :=
  if String.eqb (DISCORD_WEBHOOK cfg) "" then mret false
  else
    fun w =>
      let r := http_post env (length (posts w)) content in
      let w' := with_posts (posts w ++ [(content, r)]) w in
      match r with
      | Response code => (Ok (code / 100 =? 2), w')
      | PostRaises _ => (Ok false, w')
      end.

(** *** Snapshot persistence *)

(** The columns written by [upsert_symbol_state_full] from the payload,
    in the order of the INSERT. *)
Definition quote_columns (data : option Quote.t) (next_day : option string)
  : list (string * sqlval) :=
  let v {A} (key : Quote.t -> option A) : option A := data ≫= key in
  [ ("price", sql_real (v Quote.price));
    ("prev_close", sql_real (v Quote.prev_close));
    ("open", sql_real (v Quote.open_));
    ("high", sql_real (v Quote.high));
    ("low", sql_real (v Quote.low));
    ("volume", sql_int (v Quote.volume));
    ("latest_trading_day", sql_text (v Quote.latest_trading_day));
    ("change", sql_real (v Quote.change));
    ("change_percent", sql_text (v Quote.change_percent));
    ("market_cap", sql_int (v Quote.market_cap));
    ("pe_ratio", sql_real (v Quote.pe_ratio));
    ("dividend_yield_percent", sql_real (v Quote.dividend_yield_percent));
    ("fifty_two_week_high", sql_real (v Quote.fifty_two_week_high));
    ("fifty_two_week_low", sql_real (v Quote.fifty_two_week_low));
    ("quarterly_dividend_amount",
       sql_real (v Quote.quarterly_dividend_amount));
    ("source", sql_text (v Quote.source));
    ("description", sql_text (v Quote.description));
    ("next_earning_day", sql_text next_day) ]%string.

(** The earnings date as stored: the first truthy key, cut to ten
    characters when it has at least ten. *)
Definition normalize_next_day (data : option Quote.t) : option string :=
  match data with
  | None => None
  | Some d =>
      match Quote.first_truthy Quote.earnings_keys d with
      | Some s =>
          if (10 <=? String.length s)%nat then Some (prefix 10 s) else Some s
      | None => None
      end
  end.

(** INSERT ... ON CONFLICT(symbol_id) DO UPDATE SET: the listed columns
    take the new values, the other columns of an existing row stay. *)
Definition upsert_row (cols : list (string * sqlval))
  (old : option (gmap string sqlval)) : gmap string sqlval :=
  foldr (fun kv row => <[kv.1 := kv.2]> row) (default ∅ old) cols.

Definition upsert_symbol_state_full (symbol_id : Z) (window_open : bool)
  (note : string) (data : option Quote.t) : M World unit :=
  let next_day := normalize_next_day data in
  now ← time_time;
  modify (fun w =>
    let cols :=
      [ ("last_check_epoch", SqlInt now);
        ("last_check_note", SqlText (prefix 300 note));
        ("window_open", SqlInt (if window_open then 1 else 0)) ]%string
      ++ quote_columns data next_day in
    with_symbol_state
      (<[symbol_id := upsert_row cols (symbol_state w !! symbol_id)]>
         (symbol_state w)) w).

(** *** Alerts: suppression state *)

Definition _cooldown_ok (last_sent_epoch_ : option Z) (now_epoch : Z) : bool :=
  match last_sent_epoch_ with
  | None => true
  | Some last => COOLDOWN_MINUTES cfg * 60 <=? now_epoch - last
  end.

Definition get_last_sent_epoch (alert_id_ : Z) : M World (option Z) :=
  gets (fun w => alert_state w !! alert_id_ ≫= last_sent_epoch).

Definition get_last_sent_key (alert_id_ : Z) : M World (option string) :=
  gets (fun w => alert_state w !! alert_id_ ≫= last_sent_key).

(** INSERT ... ON CONFLICT(alert_id) DO UPDATE SET last_sent_epoch: the
    key of an existing row stays. *)
Definition set_last_sent_epoch (alert_id_ : Z) (epoch : Z) : M World unit :=
  modify (fun w =>
    let key := alert_state w !! alert_id_ ≫= last_sent_key in
    with_alert_state
      (<[alert_id_ := {| last_sent_epoch := Some epoch;
                         last_sent_key := key |}]> (alert_state w)) w).

Definition set_last_sent (alert_id_ : Z) (epoch : Z) (key : option string)
  : M World unit :=
  match key with
  | None => set_last_sent_epoch alert_id_ epoch
  | Some k =>
      modify (fun w =>
        with_alert_state
          (<[alert_id_ := {| last_sent_epoch := Some epoch;
                             last_sent_key := Some k |}]> (alert_state w)) w)
  end.

(** *** Alerts: evaluation *)

Definition _fmt_pct (val : option float) : string :=
  match val with
  | None => "—"
  | Some v => format_f 2 v +:+ "%"
  end.

Definition _build_alert_msg (ticker : string) (price open_ : option float)
  (pct_from_open : option float) (trigger : string) : string :=
  let pr := match price with None => "—" | Some p => format_f 2 p end in
  let op := match open_ with None => "—" | Some o => format_f 2 o end in
  let pf := _fmt_pct pct_from_open in
  "**" +:+ ticker +:+ "** " +:+ trigger +:+ nl +:+
  "Price: " +:+ pr +:+ " | Open: " +:+ op +:+ " | From open: " +:+ pf.

(** Days from today, in the market time zone, to the earnings date.
    The clock is read after the date has parsed. *)
Definition _days_until_earnings (next_earning_day : option string)
  : M World (option Z) :=
  if negb (truthy next_earning_day) then mret None
  else
    match strptime_ymd env (prefix 10 (or_empty next_earning_day)) with
    | None => mret None
    | Some earn_date =>
        now_local ← now_et;
        mret (Some (earn_date - ordinal now_local))
    end.

(** [(price - open_) / open_ * 100.0], when both are known and
    [open_ != 0]. *)
Definition pct_from_open_of (price open_ : option float) : option float :=
  match open_, price with
  | Some o, Some p =>
      if PrimFloat.eqb o 0 then None else Some ((p - o) / o * 100)%float
  | _, _ => None
  end.

(** The trigger text of a price or percent rule, [None] when the rule
    does not fire. *)
Definition trigger_of (a_type_ : string) (a_val_ : float)
  (price pct_from_open : option float) : option string :=
  if String.eqb a_type_ "above"
     && match price with Some p => PrimFloat.leb a_val_ p | None => false end
  then Some ("crossed **above " +:+ format_f 2 a_val_ +:+ "**")
  else if String.eqb a_type_ "below"
     && match price with Some p => PrimFloat.leb p a_val_ | None => false end
  then Some ("fell **below " +:+ format_f 2 a_val_ +:+ "**")
  else if String.eqb a_type_ "pct_drop"
     && match pct_from_open with
        | Some pf => PrimFloat.leb pf (- abs a_val_)%float
        | None => false
        end
  then Some ("**" +:+ format_f 0 (abs a_val_) +:+ "% drop** from open")
  else if String.eqb a_type_ "pct_jump"
     && match pct_from_open with
        | Some pf => PrimFloat.leb (abs a_val_) pf
        | None => false
        end
  then Some ("**" +:+ format_f 0 (abs a_val_) +:+ "% jump** from open")
  else None.

(** The body of the loop over the rules of a symbol, inside its [try].
    Answers the increment of [sent]. *)
Definition eval_alert_body (ticker : string) (price open_ : option float)
  (pct_from_open : option float) (next_earn : option string)
  (now_epoch : Z) (a : AlertRow) : M World Z :=
  if String.eqb (a_type a) "earnings_days" then
    days_left ← _days_until_earnings next_earn;
    match days_left with
    | None => mret 0
    | Some days =>
        value ← pure (int_of_float (a_val a));
        if days =? value then
          last_key ← get_last_sent_key (alert_id a);
          if negb (bool_decide (last_key = Some (or_empty next_earn)))
          then
            let msg := "🔔 **" +:+ ticker +:+ "** **earnings in "
                       +:+ pretty value +:+ " day(s)** on `"
                       +:+ or_empty next_earn +:+ "`" in
            sent_ok ← _notify_discord msg;
            if (sent_ok : bool) then
              set_last_sent (alert_id a) now_epoch
                (Some (or_empty next_earn));;
              modify (fun w => with_notified (notified w ++ [alert_id a]) w);;
              mret 1
            else mret 0
          else mret 0
        else mret 0
    end
  else
    last_sent ← get_last_sent_epoch (alert_id a);
    if negb (_cooldown_ok last_sent now_epoch) then mret 0
    else
      let trigger := trigger_of (a_type a) (a_val a) price pct_from_open in
      if truthy trigger then
        let msg := _build_alert_msg ticker price open_ pct_from_open
                     (or_empty trigger) in
        sent_ok ← _notify_discord msg;
        if (sent_ok : bool) then
          set_last_sent_epoch (alert_id a) now_epoch;;
          modify (fun w => with_notified (notified w ++ [alert_id a]) w);;
          mret 1
        else mret 0
      else mret 0.

(** One turn of the loop: a failure of the rule is logged and the rule
    counts for nothing. *)
Definition eval_alert (ticker : string) (price open_ : option float)
  (pct_from_open : option float) (next_earn : option string)
  (now_epoch : Z) (a : AlertRow) : M World Z :=
  try_except
    (eval_alert_body ticker price open_ pct_from_open next_earn now_epoch a)
    (fun _ => mret 0).

Fixpoint eval_alerts (ticker : string) (price open_ : option float)
  (pct_from_open : option float) (next_earn : option string)
  (now_epoch : Z) (rows : list AlertRow) (sent : Z) : M World Z :=
  match rows with
  | [] => mret sent
  | a :: rest =>
      n ← eval_alert ticker price open_ pct_from_open next_earn now_epoch a;
      eval_alerts ticker price open_ pct_from_open next_earn now_epoch rest
        (sent + n)
  end.

(** [SELECT id, type, value FROM alerts WHERE symbol_id=?] *)
Definition select_alerts (symbol_id : Z) (w : World) : list AlertRow :=
  filter (fun a => alert_symbol a = symbol_id) (alerts w).

(** The earnings date of a payload as the evaluator reads it. *)
Definition next_earn_of (quote : Quote.t) : option string :=
  match Quote.first_truthy Quote.earnings_keys quote with
  | Some s => Some (prefix 10 s)
  | None => None
  end.

(** Returns the number of notifications sent for this symbol.  A
    payload that is [None] has no [.get]: with rules to evaluate the
    call raises. *)
Definition _evaluate_and_notify (symbol_id : Z) (ticker : string)
  (quote : option Quote.t) (now_epoch : Z) : M World Z :=
  rows ← gets (select_alerts symbol_id);
  match rows with
  | [] => mret 0
  | _ :: _ =>
      match quote with
      | None => raise (Exc "AttributeError")
      | Some q =>
          let price := Quote.price q in
          let open_ := Quote.open_ q in
          let pct_from_open := pct_from_open_of price open_ in
          let next_earn := next_earn_of q in
          eval_alerts ticker price open_ pct_from_open next_earn now_epoch
            rows 0
      end
  end.

(** *** Bulk update *)

(** The local variables of [check_alerts] that outlive an exception
    raised in its [try]. *)
Record Locals : Type := {
  l_ok_count : Z;
  l_err_count : Z;
  l_rate_limited_seen : bool;
  l_total_notified : Z
}.

Definition Frame : Type := Locals * World.

Definition lift {A} (m : M World A) : M Frame A :=
  fun s => match m s.2 with (r, w') => (r, (s.1, w')) end.

Definition with_locals {A} (l : Locals) (m : M Frame A) : M World A :=
  fun w => match m (l, w) with (r, s') => (r, s'.2) end.

Definition update_locals (f : Locals -> Locals) : M Frame unit :=
  modify (fun s => (f s.1, s.2)).

Definition provider_call (ticker : string) : M World (option Quote.t) :=
  fun w =>
    let r := provider_get_full env (length (fetches w)) ticker in
    (r, with_fetches (fetches w ++ [(ticker, r)]) w).

Definition read_watchlist : M World (list (Z * string)) :=
  fun w => (select_watchlist env (watch_reads w),
            with_watch_reads (S (watch_reads w)) w).

(** The dict [{"error": "network_error"}]. *)
Definition network_error_dict : Quote.t :=
  Quote.blank None None (Some "network_error"%string).

(** One turn of the loop over the watchlist. *)
Definition bulk_symbol (et_now : datetime) (window_ok : bool)
  (row : Z * string) : M Frame unit :=
  let symbol_id := row.1 in
  let ticker := row.2 in
  let prefix_ := stamp et_now +:+ " | Window: "
                 +:+ (if window_ok then "OPEN" else "CLOSED") in
  full ← try_except (lift (provider_call ticker))
           (fun _ => mret (Some network_error_dict));
  let err := Quote.get_error full in
  if truthy err then
    (if String.eqb (or_empty err) "rate_limited" then
       update_locals (fun l =>
         {| l_ok_count := l_ok_count l; l_err_count := l_err_count l;
            l_rate_limited_seen := true;
            l_total_notified := l_total_notified l |})
     else mret tt);;
    update_locals (fun l =>
      {| l_ok_count := l_ok_count l; l_err_count := l_err_count l + 1;
         l_rate_limited_seen := l_rate_limited_seen l;
         l_total_notified := l_total_notified l |});;
    lift (upsert_symbol_state_full symbol_id window_ok
            (prefix_ +:+ " | " +:+ or_empty err) None)
  else
    update_locals (fun l =>
      {| l_ok_count := l_ok_count l + 1; l_err_count := l_err_count l;
         l_rate_limited_seen := l_rate_limited_seen l;
         l_total_notified := l_total_notified l |});;
    lift (upsert_symbol_state_full symbol_id window_ok
            (prefix_ +:+ " | Price check ok") full);;
    now ← lift time_time;
    n ← lift (_evaluate_and_notify symbol_id ticker full now);
    update_locals (fun l =>
      {| l_ok_count := l_ok_count l; l_err_count := l_err_count l;
         l_rate_limited_seen := l_rate_limited_seen l;
         l_total_notified := l_total_notified l + n |}).

Fixpoint bulk_loop (et_now : datetime) (window_ok : bool)
  (rows : list (Z * string)) : M Frame unit :=
  match rows with
  | [] => mret tt
  | row :: rest =>
      bulk_symbol et_now window_ok row;;
      bulk_loop et_now window_ok rest
  end.

(** The [try] block of [check_alerts]. *)
Definition check_alerts_try : M Frame unit :=
  all_symbols ← lift read_watchlist;
  match all_symbols with
  | [] =>
      finished ← lift time_time;
      lift (set_run_status "finished" None (Some finished) (Some "ok")
              (Some "No symbols in watchlist") (Some 0) (Some 0))
  | _ :: _ =>
      et_now ← lift now_et;
      let window_ok := is_trading_window et_now in
      bulk_loop et_now window_ok all_symbols
  end.

Definition final_status_code (l : Locals) : string :=
  if negb (l_err_count l =? 0) && l_rate_limited_seen l then "rate_limited"
  else if negb (l_err_count l =? 0) then "partial"
  else "ok".

(** The [finally] block of [check_alerts]. *)
Definition check_alerts_finally : M Frame unit :=
  finished ← lift time_time;
  l ← gets fst;
  let status_code_ := final_status_code l in
  let msg := "Updated " +:+ pretty (l_ok_count l) +:+ " symbol(s), "
             +:+ pretty (l_err_count l) +:+ " error(s); notified "
             +:+ pretty (l_total_notified l) in
  lift (set_run_status "finished" None (Some finished) (Some status_code_)
          (Some msg) (Some (l_ok_count l)) (Some (l_err_count l))).

Definition check_alerts : M World unit :=
  started ← time_time;
  set_run_status "running" (Some started) None None
    (Some "Updating quotes…") (Some 0) (Some 0);;
  with_locals
    {| l_ok_count := 0; l_err_count := 0; l_rate_limited_seen := false;
       l_total_notified := 0 |}
    (try_finally
       (try_except check_alerts_try (fun _ => mret tt))
       check_alerts_finally).

(** *** Scheduling and the on-demand trigger *)

Definition _parse_fire_time (hhmm : string) : option (Z * Z) :=
  match split ":"%char hhmm with
  | [hh; mm] =>
      match int_of_str env hh, int_of_str env mm with
      | Some h, Some m => Some (h, m)
      | _, _ => None
      end
  | _ => None
  end.

(** A job registered with the scheduler: a cron trigger and the
    callable it runs. *)
Record Job : Type := {
  job_name : string;
  job_hour : Z;
  job_minute : Z;
  job_func : M World unit
}.

(** The jobs [schedule_jobs] registers: one per well-formed entry of
    ALERT_FIRE_TIMES, each running [check_alerts].  A malformed entry is
    logged and skipped. *)
Definition schedule_jobs : list Job :=
  omap (fun t =>
          match _parse_fire_time t with
          | Some (hh, mm) =>
              Some {| job_name := "check_alerts@" +:+ t; job_hour := hh;
                      job_minute := mm; job_func := check_alerts |}
          | None => None
          end)
       (ALERT_FIRE_TIMES cfg).

(** [threading.Thread(target=check_alerts, daemon=True).start()]: the
    worker runs [check_alerts] on its own; here only the start is
    recorded. *)
Definition start_worker : M World unit :=
  fun w =>
    match thread_start env (length (workers w)) with
    | Ok _ => (Ok tt, with_workers (workers w ++ [true]) w)
    | Raise e => (Raise e, with_workers (workers w ++ [false]) w)
    end.

(** POST /api/update_all: the status field of the answer. *)
Definition api_update_all : M World string :=
  _auto_recover_run_status;;
  running ← _is_run_already_running;
  if (running : bool) then mret "already_running"%string
  else
    try_except (start_worker;; mret "started"%string)
      (fun _ => mret "error"%string).

(** GET /api/run_status: the record read after the recovery. *)
Definition api_run_status : M World (option RunStatus) :=
  _auto_recover_run_status;;
  get_run_status.

(** POST /api/run_status/reset *)
Definition api_run_status_reset : M World string :=
  _force_finish_run_status "manual_reset" "Manually reset by user";;
  mret "ok"%string.

End Backend.

(* ===================================================================== *)
(** ** The fallback composer of [quote_sources/__init__.py] *)
(* ===================================================================== *)

Module Fallback.

(** The [QuoteProvider] protocol.  A method answers or raises; [name]
    is [None] for an object without the attribute. *)
Record QuoteProvider : Type := {
  name : option string;
  is_ready : res bool;
  get_price_prev_close :
    string -> res (option float * option float * option string);
  get_full : string -> res (option Quote.t)
}.

(** Which of the two wrapped providers a call went to. *)
Inductive role : Type := Primary | Secondary.

(** [getattr(p, "name", dflt)] *)
Definition getattr_name (p : QuoteProvider) (dflt : string) : string :=
  match name p with Some n => n | None => dflt end.

(** [bool(d and (d.get("price") is not None or d.get("prev_close") is
    not None))] *)
Definition has_data (d : option Quote.t) : bool :=
  match d with
  | Some q => bool_decide (Quote.price q ≠ None)
              || bool_decide (Quote.prev_close q ≠ None)
  | None => false
  end.

(** The payload synthesized when a wrapped provider raises. *)
Definition raised_payload (p : QuoteProvider) (dflt symbol : string)
  : Quote.t :=
  Quote.blank (Some (strip (upper symbol))) (Some (getattr_name p dflt))
    (Some "network_error"%string).

Section Composite.

Variables primary secondary : QuoteProvider.

Definition fallback_name : string :=
  getattr_name primary "primary" +:+ "_then_"
  +:+ getattr_name secondary "secondary".

Definition fallback_is_ready : bool :=
  let p_ready := match is_ready primary with Ok b => b | Raise _ => false end in
  let s_ready :=
    match is_ready secondary with Ok b => b | Raise _ => false end in
  p_ready || s_ready.

(** Each method of the composite answers with the calls it made to the
    wrapped providers, in order. *)
Definition fallback_get_price_prev_close (symbol : string)
  : (option float * option float * option string) * list role :=
  let r1 :=
    match get_price_prev_close primary symbol with
    | Ok r => r
    | Raise _ => (None, None, Some "network_error"%string)
    end in
  let '(price, prev_close, err) := r1 in
  if truthy err || (bool_decide (price = None)
                    && bool_decide (prev_close = None))
  then
    let r2 :=
      match get_price_prev_close secondary symbol with
      | Ok r => r
      | Raise _ => (None, None, Some "network_error"%string)
      end in
    let '(price2, prev2, err2) := r2 in
    if (bool_decide (price2 ≠ None) || bool_decide (prev2 ≠ None))
       || (negb (truthy err) && truthy err2)
    then (r2, [Primary; Secondary])
    else (r1, [Primary; Secondary])
  else (r1, [Primary]).

Definition fallback_get_full (symbol : string)
  : option Quote.t * list role :=
  let d :=
    match get_full primary symbol with
    | Ok d => d
    | Raise _ => Some (raised_payload primary "primary" symbol)
    end in
  let primary_err := Quote.get_error d in
  let primary_has_data := has_data d in
  if negb (truthy primary_err) && primary_has_data then (d, [Primary])
  else
    let d2 :=
      match get_full secondary symbol with
      | Ok d2 => d2
      | Raise _ => Some (raised_payload secondary "secondary" symbol)
      end in
    let secondary_err := Quote.get_error d2 in
    let secondary_has_data := has_data d2 in
    if secondary_has_data && negb primary_has_data
    then (d2, [Primary; Secondary])
    else if primary_has_data && negb secondary_has_data
    then (d, [Primary; Secondary])
    else if negb (truthy primary_err) && truthy secondary_err
    then (d, [Primary; Secondary])
    else (d2, [Primary; Secondary]).

(** The object [_fallback_provider] returns. *)
Definition _fallback_provider : QuoteProvider :=
  {| name := Some fallback_name;
     is_ready := Ok fallback_is_ready;
     get_price_prev_close := fun symbol =>
       Ok (fallback_get_price_prev_close symbol).1;
     get_full := fun symbol => Ok (fallback_get_full symbol).1 |}.

End Composite.

End Fallback.

(* ===================================================================== *)
(** ** Provider selection of [quote_sources/__init__.py] *)
(* ===================================================================== *)

(** [s.lower()] on the ASCII letters. *)
Definition lower_char (c : Ascii.ascii) : Ascii.ascii :=
  let n := Ascii.nat_of_ascii c in
  if (65 <=? n)%nat && (n <=? 90)%nat then Ascii.ascii_of_nat (n + 32) else c.

Fixpoint lower (s : string) : string :=
  match s with
  | EmptyString => EmptyString
  | String c r => String (lower_char c) (lower r)
  end.

(** [sub in s] on strings. *)
Fixpoint contains (sub s : string) : bool :=
  String.prefix sub s
  || match s with
     | EmptyString => false
     | String _ r => contains sub r
     end.

Module QuoteSources.

Import Fallback.

(** The class [_Dummy]: the provider of a name that selects nothing. *)
Definition _Dummy (provider_name : string) : QuoteProvider :=
  let name_ :=
    if String.eqb provider_name "" then "unconfigured"%string
    else provider_name in
  {| name := Some name_;
     is_ready := Ok false;
     get_price_prev_close := fun _ =>
       Ok (None, None, Some "unconfigured"%string);
     get_full := fun symbol =>
       Ok (Some (Quote.blank (Some (strip (upper symbol))) (Some name_)
                   (Some "unconfigured"%string))) |}.

(** [(os.getenv("QUOTE_PROVIDER") or "alpha_vantage").lower().strip()] *)
Definition provider_name (QUOTE_PROVIDER : option string) : string :=
  strip (lower (if truthy QUOTE_PROVIDER then or_empty QUOTE_PROVIDER
                else "alpha_vantage")).

(** [get_provider()].  The three adapters are the objects their
    constructors build: [alpha] from ALPHA_VANTAGE_KEY, [gemini] and
    [openai] from their own keys. *)
Definition get_provider (QUOTE_PROVIDER : option string)
  (alpha gemini openai : QuoteProvider) : res QuoteProvider :=
  let name_ := provider_name QUOTE_PROVIDER in
  if String.eqb name_ "alpha_vantage" then Ok alpha
  else if bool_decide (name_ ∈ ["gemini"; "google"; "gemini_search"]%string)
  then
    match is_ready alpha with
    | Ok ready =>
        Ok (if ready then _fallback_provider gemini alpha else gemini)
    | Raise e => Raise e
    end
  else if bool_decide (name_ ∈ ["chatgpt"; "openai"]%string)
  then
    match is_ready alpha with
    | Ok ready =>
        Ok (if ready then _fallback_provider openai alpha else openai)
    | Raise e => Raise e
    end
  else Ok (_Dummy name_).

End QuoteSources.

(* ===================================================================== *)
(** ** Helpers of [quote_sources/gemini_search_provider.py] *)
(* ===================================================================== *)

Module Gemini.

(** The error codes of the model's answer, folded into the standard
    ones.  Text is lowered on its ASCII letters. *)
Definition _normalize_err (e : option string) : option string :=
  if negb (truthy e) then None
  else
    let e := lower (or_empty e) in
    if contains "rate" e && contains "limit" e then Some "rate_limited"%string
    else if contains "api key" e || contains "unauth" e
            || contains "key_missing" e
    then Some "key_missing"%string
    else if contains "invalid_symbol" e then Some "invalid_symbol"%string
    else if contains "parse" e then Some "parse_error"%string
    else if contains "empty" e || contains "not found" e
    then Some "empty_quote"%string
    else Some e.

(** The double quote. *)
Definition dquote : Ascii.ascii := Ascii.ascii_of_nat 34.

(** The [while] loop of [_first_json_object], from index [i] on: [s] is
    the text from [i], the answer the text from [i] to the closing
    brace. *)
Fixpoint scan_object (s : string) (depth : Z) (in_str esc : bool)
  : option string :=
  match s with
  | EmptyString => None
  | String ch r =>
      let keep := option_map (String ch) in
      if in_str then
        if esc then keep (scan_object r depth in_str false)
        else if Ascii.eqb ch "\" then keep (scan_object r depth in_str true)
        else if Ascii.eqb ch dquote then keep (scan_object r depth false esc)
        else keep (scan_object r depth in_str esc)
      else
        if Ascii.eqb ch dquote then keep (scan_object r depth true esc)
        else if Ascii.eqb ch "{"
        then keep (scan_object r (depth + 1) in_str esc)
        else if Ascii.eqb ch "}" then
          if depth - 1 =? 0 then Some (String ch EmptyString)
          else keep (scan_object r (depth - 1) in_str esc)
        else keep (scan_object r depth in_str esc)
  end.

(** The first complete JSON object of [s]: the scan starts at the first
    opening brace, [None] without one. *)
Fixpoint _first_json_object (s : string) : option string :=
  match s with
  | EmptyString => None
  | String c r =>
      if Ascii.eqb c "{" then scan_object s 0 false false
      else _first_json_object r
  end.

End Gemini.

(* ===================================================================== *)
(** ** More of [backend/main.py]: schema, single update, deletion *)
(* ===================================================================== *)


(** The table [symbol_state] as [init_db] creates it: column names and
    types, in order. *)
Definition symbol_state_created : list (string * string) :=
  [ ("symbol_id", "INTEGER"); ("last_check_epoch", "INTEGER");
    ("window_open", "INTEGER"); ("note", "TEXT"); ("last_price", "REAL");
    ("last_prev_close", "REAL") ]%string.


(** A row of table [symbols], keyed by [id]. *)
Record SymbolRow : Type := {
  sym_ticker : string;
  sym_group : option Z;
  sym_note : option string;
  sym_rating : Z;
  sym_last_edit : option Z
}.

Definition Symbols : Type := gmap Z SymbolRow.

(** The whole database: the table of symbols and the rest. *)
Definition Db : Type := Symbols * World.

Definition with_alerts (v : list AlertRow) (w : World) : World :=
  {| run_status := run_status w; alerts := v; alert_state := alert_state w;
     symbol_state := symbol_state w; time_reads := time_reads w;
     local_reads := local_reads w; posts := posts w; fetches := fetches w;
     notified := notified w; transitions := transitions w;
     watch_reads := watch_reads w; workers := workers w |}.

(** The answers of POST /api/update_symbol. *)
Inductive update_symbol_answer : Type :=
| NotFound
| UpdateError (error : string)
| UpdateOk (notified_ : Z).

Section Routes.

Variable cfg : Config.
Variable env : Env.

(** POST /api/update_symbol/{symbol_id}: update a single symbol on
    demand.  The table of symbols is only read. *)
Definition api_update_symbol (symbols : Symbols) (symbol_id : Z)
  : M World update_symbol_answer :=
  _auto_recover_run_status cfg env;;
  match symbols !! symbol_id with
  | None => mret NotFound
  | Some row =>
      let ticker := sym_ticker row in
      et_now ← now_et env;
      let window_ok := is_trading_window et_now in
      let note_prefix := stamp et_now +:+ " | Window: "
                         +:+ (if window_ok then "OPEN" else "CLOSED") in
      full ← try_except (provider_call env ticker)
                (fun _ => mret (Some network_error_dict));
      let err := Quote.get_error full in
      if truthy err then
        upsert_symbol_state_full env symbol_id window_ok
          (note_prefix +:+ " | " +:+ or_empty err) None;;
        mret (UpdateError (or_empty err))
      else
        upsert_symbol_state_full env symbol_id window_ok
          (note_prefix +:+ " | Price check ok") full;;
        now ← time_time env;
        notified_ ← _evaluate_and_notify cfg env symbol_id ticker full now;
        mret (UpdateOk notified_)
  end.

(** DELETE /api/symbols/{symbol_id}: four DELETE statements in one
    transaction. *)
Definition delete_symbol (symbol_id : Z) : M Db string :=
  modify (fun db : Db =>
    let rule_ids := map alert_id (select_alerts symbol_id db.2) in
    (db.1,
     with_alert_state
       (filter (fun kv => kv.1 ∉ rule_ids) (alert_state db.2)) db.2));;
  modify (fun db : Db =>
    (db.1,
     with_alerts
       (filter (fun a => alert_symbol a ≠ symbol_id) (alerts db.2)) db.2));;
  modify (fun db : Db =>
    (db.1, with_symbol_state (delete symbol_id (symbol_state db.2)) db.2));;
  modify (fun db : Db => (delete symbol_id db.1, db.2));;
  mret "deleted"%string.

End Routes.

(* ===================================================================== *)
(** ** Reference instances used by the examples *)
(* ===================================================================== *)

Module Demo.

Definition digit (c : ascii) : option Z :=
  let n := nat_of_ascii c in
  if (48 <=? n)%nat && (n <=? 57)%nat then Some (Z.of_nat n - 48) else None.

Definition is_leap (y : Z) : bool :=
  (y mod 4 =? 0) && (negb (y mod 100 =? 0) || (y mod 400 =? 0)).

Definition days_in_month (y m : Z) : Z :=
  if m =? 2 then (if is_leap y then 29 else 28)
  else if (m =? 4) || (m =? 6) || (m =? 9) || (m =? 11) then 30
  else 31.

Fixpoint days_before_month (y : Z) (m : nat) : Z :=
  match m with
  | O => 0
  | S k => days_before_month y k + days_in_month y (Z.of_nat (S k))
  end.

(** The proleptic Gregorian ordinal of a date, day 1 being 0001-01-01. *)
Definition to_ordinal (y m d : Z) : Z :=
  let p := y - 1 in
  p * 365 + p / 4 - p / 100 + p / 400
  + days_before_month y (Z.to_nat (m - 1)) + d.

(** A strict reading of [strptime(s, "%Y-%m-%d")]: four, two and two
    digits, a real calendar date. *)
Definition iso_ordinal (s : string) : option Z :=
  match String.list_ascii_of_string s with
  | [y1; y2; y3; y4; "-"%char; m1; m2; "-"%char; d1; d2] =>
      match digit y1, digit y2, digit y3, digit y4,
            digit m1, digit m2, digit d1, digit d2 with
      | Some a, Some b, Some c, Some e, Some f, Some g, Some h, Some i =>
          let y := ((a * 10 + b) * 10 + c) * 10 + e in
          let m := f * 10 + g in
          let d := h * 10 + i in
          if (1 <=? y) && (1 <=? m) && (m <=? 12) && (1 <=? d)
             && (d <=? days_in_month y m)
          then Some (to_ordinal y m d) else None
      | _, _, _, _, _, _, _, _ => None
      end
  | _ => None
  end.

(** Monday 2025-10-27, 09:35:00 in the market time zone. *)
Definition monday_morning : datetime :=
  {| weekday := 0; hour := 9; minute := 35; second := 0; microsecond := 0;
     ordinal := to_ordinal 2025 10 27; stamp := "2025-10-27 09:35:00 EDT" |}.

Definition config : Config :=
  {| DISCORD_WEBHOOK := "https://discord.example/api/webhooks/1/x";
     COOLDOWN_MINUTES := 15;
     ALERT_FIRE_TIMES := ["09:35"; "12:00"; "15:55"];
     RUN_TIMEOUT_SECONDS := 600 |}.

Definition two_digits (s : string) : option Z :=
  match String.list_ascii_of_string s with
  | [a; b] =>
      match digit a, digit b with
      | Some x, Some y => Some (x * 10 + y)
      | _, _ => None
      end
  | _ => None
  end.

Definition ok_quote (sym : string) (p o : float) : Quote.t :=
  {| Quote.symbol := Some sym; Quote.price := Some p;
     Quote.prev_close := Some o; Quote.open_ := Some o;
     Quote.high := None; Quote.low := None; Quote.volume := Some 1000;
     Quote.latest_trading_day := Some "2025-10-27"%string;
     Quote.change := None; Quote.change_percent := None;
     Quote.market_cap := None; Quote.pe_ratio := None;
     Quote.dividend_yield_percent := None;
     Quote.fifty_two_week_high := None; Quote.fifty_two_week_low := None;
     Quote.quarterly_dividend_amount := None;
     Quote.next_earning_day := Some "2025-10-30"%string;
     Quote.description := None; Quote.source := Some "gemini_search"%string;
     Quote.error := None; Quote.next_earnings_day := None;
     Quote.earnings_date := None; Quote.nextEarningsDate := None |}.

(** Ticker A answers a quote, B raises, C is rate limited. *)
Definition abc_provider (ticker : string) : res (option Quote.t) :=
  if String.eqb ticker "A" then Ok (Some (ok_quote "A" 101 100))
  else if String.eqb ticker "B" then Raise (Exc "ConnectionError")
  else Ok (Some (Quote.blank (Some ticker) (Some "alpha_vantage"%string)
                   (Some "rate_limited"%string))).

(** The clock starts at 1761572100 and gains a second per reading; the
    webhook answers 204. *)
Definition env : Env :=
  {| clock := fun n => 1761572100 + Z.of_nat n;
     local_clock := fun _ => monday_morning;
     strptime_ymd := iso_ordinal;
     int_of_str := two_digits;
     http_post := fun _ _ => Response 204;
     provider_get_full := fun _ ticker => abc_provider ticker;
     select_watchlist := fun _ =>
       Ok [(1, "A"%string); (2, "B"%string); (3, "C"%string)];
     thread_start := fun _ => Ok tt |}.

(** The store after [init_db], with no symbol and no rule. *)
Definition world : World :=
  {| run_status := Some seed_run_status; alerts := []; alert_state := ∅;
     symbol_state := ∅; time_reads := 0; local_reads := 0; posts := [];
     fetches := []; notified := []; transitions := []; watch_reads := 0;
     workers := [] |}.

End Demo.

(* ===================================================================== *)
(** ** Definitions used in the statements *)
(* ===================================================================== *)



(** *** Worlds and providers of the examples *)

(** The store of the examples with a bulk run in progress, started at
    [started]. *)
Definition running_since (started : Z) : World :=
  with_run_status
    (Some {| phase := Some "running"%string; started_epoch := Some started;
             finished_epoch := None; status_code := None;
             message := Some "Updating quotes…"%string;
             ok_count := Some 0; err_count := Some 0 |})
    Demo.world.

(** A secondary that raises on every call and has no name. *)
Definition loud_secondary : Fallback.QuoteProvider :=
  {| Fallback.name := None;
     Fallback.is_ready := Raise (Exc "AssertionError");
     Fallback.get_price_prev_close := fun _ => Raise (Exc "AssertionError");
     Fallback.get_full := fun _ => Raise (Exc "AssertionError") |}.

(** A provider that answers the same thing to every call of
    [get_full]. *)
Definition constant_provider (n : string) (r : res (option Quote.t))
  : Fallback.QuoteProvider :=
  {| Fallback.name := Some n;
     Fallback.is_ready := Ok true;
     Fallback.get_price_prev_close := fun _ => Raise (Exc "NotImplementedError");
     Fallback.get_full := fun _ => r |}.

(** A rule on symbol 1: price at or above 100. *)
Definition above_rule : AlertRow :=
  {| alert_id := 7; alert_symbol := 1; a_type := "above"; a_val := 100 |}.

(** *** The fetches of a bulk run *)

(** The error a fetch is classified with: the one the payload carries,
    or network_error when the provider raised. *)
Definition fetch_error (r : res (option Quote.t)) : option string :=
  match r with
  | Ok d => Quote.get_error d
  | Raise _ => Some "network_error"%string
  end.

Definition fetch_failed (f : string * res (option Quote.t)) : bool :=
  truthy (fetch_error f.2).

Definition fetch_succeeded (f : string * res (option Quote.t)) : bool :=
  negb (fetch_failed f).

Definition fetch_rate_limited (f : string * res (option Quote.t)) : bool :=
  fetch_failed f && String.eqb (or_empty (fetch_error f.2)) "rate_limited".

Fixpoint count_where {A} (p : A -> bool) (l : list A) : Z :=
  match l with
  | [] => 0
  | x :: rest => (if p x then 1 else 0) + count_where p rest
  end.

(** The status code of a run, from the fetches it made. *)
Definition bulk_status_code (new : list (string * res (option Quote.t)))
  : string :=
  if count_where fetch_failed new =? 0 then "ok"
  else if existsb fetch_rate_limited new then "rate_limited"
  else "partial".

(** The summary a run leaves in the message column. *)
Definition bulk_message (ok err notified_ : Z) : string :=
  "Updated " +:+ pretty ok +:+ " symbol(s), " +:+ pretty err
  +:+ " error(s); notified " +:+ pretty notified_.

(** The payload [check_alerts] goes on with after a fetch. *)
Definition fetched_payload (r : res (option Quote.t)) : option Quote.t :=
  match r with
  | Ok d => d
  | Raise _ => Some network_error_dict
  end.

(** The note and the data of the snapshot write that follows a fetch. *)
Definition snapshot_note (et_now : datetime) (window_ok : bool)
  (r : res (option Quote.t)) : string :=
  (stamp et_now +:+ " | Window: "
   +:+ (if window_ok then "OPEN" else "CLOSED"))
  +:+ (if truthy (fetch_error r) then " | " +:+ or_empty (fetch_error r)
       else " | Price check ok").

Definition snapshot_data (r : res (option Quote.t)) : option Quote.t :=
  if truthy (fetch_error r) then None else fetched_payload r.

(** The three bookkeeping columns of a snapshot write. *)
Definition bookkeeping_columns (now : Z) (note : string) (window_open : bool)
  : list (string * sqlval) :=
  [ ("last_check_epoch", SqlInt now);
    ("last_check_note", SqlText (prefix 300 note));
    ("window_open", SqlInt (if window_open then 1 else 0)) ]%string.

(** *** Frames *)

(** A computation keeps a relation between the state before and the
    state after, whether it returns or raises. *)
Definition preserves {S A} (R : S -> S -> Prop) (m : M S A) : Prop :=
  forall s, R s (m s).2.

(** A computation never raises. *)
Definition total {S A} (m : M S A) : Prop :=
  forall s, exists a, (m s).1 = Ok a.

(** What the alert evaluator leaves alone. *)
Definition eval_frame (w w' : World) : Prop :=
  run_status w' = run_status w
  /\ alerts w' = alerts w
  /\ symbol_state w' = symbol_state w
  /\ fetches w' = fetches w
  /\ transitions w' = transitions w
  /\ watch_reads w' = watch_reads w
  /\ workers w' = workers w
  /\ time_reads w' = time_reads w.

(** The fetches [new] made from a store whose log was [before] are the
    answers of the provider, and the counters moved from [l] to [l']
    by what they were. *)
Definition accounts_for (env : Env)
  (before : list (string * res (option Quote.t))) (l l' : Locals)
  (new : list (string * res (option Quote.t))) : Prop :=
  (forall i f, new !! i = Some f ->
     f.2 = provider_get_full env (length before + i) f.1)
  /\ l_ok_count l' = l_ok_count l + count_where fetch_succeeded new
  /\ l_err_count l' = l_err_count l + count_where fetch_failed new
  /\ l_rate_limited_seen l'
     = l_rate_limited_seen l || existsb fetch_rate_limited new.

(** The tickers fetched are the first of the watchlist, in its order;
    all of it when no provider answer is [None]; none when the
    watchlist could not be read. *)
Definition covers (env : Env) (watchlist : res (list (Z * string)))
  (new : list (string * res (option Quote.t))) : Prop :=
  match watchlist with
  | Ok rows =>
      (exists k, map fst new = take k (map snd rows))
      /\ ((forall n t, provider_get_full env n t <> Ok None) ->
          map fst new = map snd rows)
  | Raise _ => new = []
  end.


(** An environment whose watchlist cannot be read. *)
Definition unreadable_env : Env :=
  {| clock := clock Demo.env; local_clock := local_clock Demo.env;
     strptime_ymd := strptime_ymd Demo.env;
     int_of_str := int_of_str Demo.env; http_post := http_post Demo.env;
     provider_get_full := provider_get_full Demo.env;
     select_watchlist := fun _ => Raise (Exc "OperationalError");
     thread_start := thread_start Demo.env |}.

(** An environment whose provider answers [None]; and a store with a
    rule on symbol 1, so that the evaluator raises on that answer. *)
Definition none_env : Env :=
  {| clock := clock Demo.env; local_clock := local_clock Demo.env;
     strptime_ymd := strptime_ymd Demo.env;
     int_of_str := int_of_str Demo.env; http_post := http_post Demo.env;
     provider_get_full := fun _ _ => Ok None;
     select_watchlist := select_watchlist Demo.env;
     thread_start := thread_start Demo.env |}.

Definition world_with_rule : World :=
  {| run_status := Some seed_run_status; alerts := [above_rule];
     alert_state := ∅; symbol_state := ∅; time_reads := 0; local_reads := 0;
     posts := []; fetches := []; notified := []; transitions := [];
     watch_reads := 0; workers := [] |}.

(** *** The ways a bulk run is started *)

(** On demand, through [api_update_all]; or by the scheduler, which
    calls the callable of a registered job. *)
Inductive bulk_start : Type :=
| OnDemand
| Scheduled (j : Job).

(** A start, with the run of the worker taken right after the start of
    its thread. *)
Definition start_bulk (cfg : Config) (env : Env) (s : bulk_start)
  : M World unit :=
  match s with
  | OnDemand =>
      status ← api_update_all cfg env;
      if String.eqb status "started" then check_alerts cfg env else mret tt
  | Scheduled j => job_func j
  end.

(** The start is one the program offers. *)
Definition offered (cfg : Config) (env : Env) (s : bulk_start) : Prop :=
  match s with
  | OnDemand => True
  | Scheduled j => j ∈ schedule_jobs cfg env
  end.

(** No write to the run-status row went from running to running. *)
Definition no_running_to_running (w : World) : Prop :=
  (Some "running"%string, Some "running"%string) ∉ transitions w.

(** The single-flight guard as a property of every start. *)
Definition single_flight_on_every_start : Prop :=
  forall cfg env s w,
    offered cfg env s ->
    no_running_to_running w ->
    no_running_to_running (start_bulk cfg env s w).2.

(** The job registered for 09:35. *)
Definition morning_job : Job :=
  {| job_name := "check_alerts@09:35"; job_hour := 9; job_minute := 35;
     job_func := check_alerts Demo.config Demo.env |}.

(** *** Suppression *)

(** The kinds of rule that are suppressed by the cooldown. *)
Definition cooldown_kind (kind : string) : Prop :=
  kind ∈ ["above"; "below"; "pct_drop"; "pct_jump"]%string.

(** The stored suppression state of a rule. *)
Definition stored_epoch (w : World) (id : Z) : option Z :=
  alert_state w !! id ≫= last_sent_epoch.

Definition stored_key (w : World) (id : Z) : option string :=
  alert_state w !! id ≫= last_sent_key.

(** The webhook accepted the last post: it answered 2xx. *)
Definition last_post_accepted (w : World) : Prop :=
  exists content code,
    last (posts w) = Some (content, Response code) /\ code / 100 = 2.

(** The text of an earnings reminder. *)
Definition earnings_msg (ticker : string) (value : Z) (next_earn : string)
  : string :=
  "🔔 **" +:+ ticker +:+ "** **earnings in " +:+ pretty value
  +:+ " day(s)** on `" +:+ next_earn +:+ "`".

(** The day of the market calendar an evaluation from [w] reads. *)
Definition today_of (env : Env) (w : World) : Z :=
  ordinal (local_clock env (local_reads w)).

(** A rule on symbol 1: earnings in three days. *)
Definition earnings_rule : AlertRow :=
  {| alert_id := 8; alert_symbol := 1; a_type := "earnings_days";
     a_val := 3 |}.

(** *** Histories of an earnings rule *)

(** One evaluation of the rule: the store it starts from and what the
    evaluator hands to the loop. *)
Record visit : Type := {
  v_world : World;
  v_ticker : string;
  v_price : option float;
  v_open : option float;
  v_pct : option float;
  v_next : option string;
  v_now : Z
}.

Definition visit_out (cfg : Config) (env : Env) (a : AlertRow) (v : visit)
  : res Z * World :=
  eval_alert cfg env (v_ticker v) (v_price v) (v_open v) (v_pct v)
    (v_next v) (v_now v) a (v_world v).




(** Two evaluations of the earnings rule of the examples on the same
    day, for the date 2025-10-30; the second starts from what the first
    left. *)
Definition first_visit : visit :=
  {| v_world := Demo.world; v_ticker := "A"; v_price := Some 101%float;
     v_open := Some 100%float; v_pct := Some 1%float;
     v_next := Some "2025-10-30"%string; v_now := 1761572100 |}.


(* ===================================================================== *)
(** ** Definitions used in the further properties *)
(* ===================================================================== *)

(** A relation on stores, read on the frames of [check_alerts]: the
    local variables are free. *)
Definition on_world (R : World -> World -> Prop) : Frame -> Frame -> Prop :=
  fun s s' => R s.2 s'.2.

(** Nothing was posted, no rule was stamped and no notification was
    counted between two stores. *)
Definition quiet (w w' : World) : Prop :=
  posts w' = posts w
  /\ alert_state w' = alert_state w
  /\ notified w' = notified w.

(** The snapshots of the symbols outside [ids] are the same in two
    stores. *)
Definition same_outside (ids : Z -> Prop) (w w' : World) : Prop :=
  forall id, ~ ids id -> symbol_state w' !! id = symbol_state w !! id.

(** The kinds of rule the evaluator knows. *)
Definition known_kinds : list string :=
  ["above"; "below"; "pct_drop"; "pct_jump"; "earnings_days"]%string.

(** Between two frames of [check_alerts] the running total of
    notifications grew by the number of notifications counted. *)
Definition tallies (s s' : Frame) : Prop :=
  exists new,
    notified s'.2 = notified s.2 ++ new
    /\ l_total_notified s'.1
       = l_total_notified s.1 + Z.of_nat (length new).

(** Every suppression row belongs to a rule of the table. *)
Definition no_orphan_state (w : World) : Prop :=
  forall id, is_Some (alert_state w !! id) -> id ∈ map alert_id (alerts w).

(** From [w] to [w'] the rules are the same, and a suppression row of
    [w'] was there in [w] or belongs to a rule. *)
Definition within_rules (w w' : World) : Prop :=
  alerts w' = alerts w
  /\ forall id, is_Some (alert_state w' !! id) ->
       is_Some (alert_state w !! id) \/ id ∈ map alert_id (alerts w).

(** The store of the examples with its rule stamped once. *)
Definition world_with_stamp : World :=
  with_alert_state
    {[ 7 := {| last_sent_epoch := Some 1761572100; last_sent_key := None |} ]}
    world_with_rule.

(** A table of symbols with the symbol of the examples. *)
Definition symbols_with_a : Symbols :=
  {[ 1 := {| sym_ticker := "A"; sym_group := Some 1; sym_note := None;
             sym_rating := 0; sym_last_edit := None |} ]}.

(** What the composer takes from a wrapped provider: its answer, or the
    network_error payload or triple it makes up when the call raises. *)
Definition payload_of (p : Fallback.QuoteProvider) (dflt symbol : string)
  : option Quote.t :=
  match Fallback.get_full p symbol with
  | Ok d => d
  | Raise _ => Some (Fallback.raised_payload p dflt symbol)
  end.

Definition triple_of (p : Fallback.QuoteProvider) (symbol : string)
  : option float * option float * option string :=
  match Fallback.get_price_prev_close p symbol with
  | Ok r => r
  | Raise _ => (None, None, Some "network_error"%string)
  end.

(** A price or a previous close is there. *)
Definition triple_has_data (r : option float * option float * option string)
  : bool :=
  bool_decide (r.1.1 ≠ None) || bool_decide (r.1.2 ≠ None).

(** The secondary was consulted. *)
Definition consulted (calls : list Fallback.role) : bool :=
  existsb (fun r => match r with
                    | Fallback.Secondary => true
                    | Fallback.Primary => false
                    end) calls.

(** The names [get_provider] knows. *)
Definition provider_names : list string :=
  ["alpha_vantage"; "gemini"; "google"; "gemini_search"; "chatgpt";
   "openai"]%string.

(** What the provider of an unknown name answers for a ticker. *)
Definition unconfigured_answer (provider_name_ ticker : string)
  : res (option Quote.t) :=
  Ok (Some (Quote.blank (Some (strip (upper ticker)))
              (Some (if String.eqb provider_name_ "" then "unconfigured"
                     else provider_name_))
              (Some "unconfigured"))).

(** The environment of the examples with QUOTE_PROVIDER set to a name
    that selects nothing. *)
Definition yahoo_env : Env :=
  {| clock := clock Demo.env; local_clock := local_clock Demo.env;
     strptime_ymd := strptime_ymd Demo.env;
     int_of_str := int_of_str Demo.env; http_post := http_post Demo.env;
     provider_get_full := fun _ t =>
       Fallback.get_full (QuoteSources._Dummy "yahoo") t;
     select_watchlist := select_watchlist Demo.env;
     thread_start := thread_start Demo.env |}.

(** The message of the run-status row has at most 400 characters. *)
Definition message_bounded (w : World) : Prop :=
  forall rs m, run_status w = Some rs -> message rs = Some m ->
               (String.length m <= 400)%nat.

Definition keeps_bound (w w' : World) : Prop :=
  message_bounded w -> message_bounded w'.

(** The webhook does not accept the post numbered [n], whatever its
    content: it answers outside 2xx, or the request raises. *)
Definition post_refused (env : Env) (n : nat) : Prop :=
  forall content,
    match http_post env n content with
    | Response code => code / 100 <> 2
    | PostRaises _ => True
    end.

(** The environment of the examples with a webhook that answers 500. *)
Definition refusing_env : Env :=
  {| clock := clock Demo.env; local_clock := local_clock Demo.env;
     strptime_ymd := strptime_ymd Demo.env;
     int_of_str := int_of_str Demo.env;
     http_post := fun _ _ => Response 500;
     provider_get_full := provider_get_full Demo.env;
     select_watchlist := select_watchlist Demo.env;
     thread_start := thread_start Demo.env |}.
(* ===================================================================== *)
(** ** Properties *)
(* ===================================================================== *)

(** Unfolding of the monad, for proofs by evaluation. *)
Ltac unfold_m :=
  unfold mbind, mret, M_bind, M_ret, bind, ret, gets, modify, raise, pure,
    try_except in *.


(** *** Run-status recovery *)

Lemma is_running_true (rs : RunStatus) :
  is_running rs = true <-> phase rs = Some "running"%string.
Proof.
  unfold is_running. destruct (phase rs) as [p|]; [|split; discriminate].
  rewrite String.eqb_eq. split; congruence.
Qed.

Lemma is_running_false (rs : RunStatus) :
  is_running rs = false <-> phase rs <> Some "running"%string.
Proof.
  rewrite <- is_running_true. destruct (is_running rs); split; congruence.
Qed.

(** A record that is not running is left alone by the recovery, and no
    clock is read. *)
Lemma auto_recover_not_running (cfg : Config) (env : Env) (w : World) :
  (forall rs, run_status w = Some rs -> phase rs <> Some "running"%string) ->
  _auto_recover_run_status cfg env w = (Ok tt, w).
Proof.
  intros Hnot. unfold _auto_recover_run_status. unfold_m.
  destruct (run_status w) as [rs|] eqn:Hrow; [|reflexivity].
  specialize (Hnot rs eq_refl). apply is_running_false in Hnot.
  rewrite Hnot. reflexivity.
Qed.

(** C6. A running record whose integer [started_epoch] is at least the
    configured timeout old is moved by the status-read recovery to phase
    finished with status code interrupted_timeout; the other columns
    keep their values.  Recovery applied again to the result, or to any
    record that is not running, changes nothing. *)
Theorem auto_recover_timeout_idempotent
  (cfg : Config) (env : Env) (w : World) (rs : RunStatus) (started : Z) :
  run_status w = Some rs ->
  phase rs = Some "running"%string ->
  started_epoch rs = Some started ->
  RUN_TIMEOUT_SECONDS cfg <= clock env (time_reads w) - started ->
  let out := _auto_recover_run_status cfg env w in
  out.1 = Ok tt
  /\ run_status out.2 =
       Some {| phase := Some "finished"%string;
               started_epoch := Some started;
               finished_epoch := Some (clock env (S (time_reads w)));
               status_code := Some "interrupted_timeout"%string;
               message := Some "Auto-recovered: run exceeded timeout"%string;
               ok_count := ok_count rs;
               err_count := err_count rs |}
  /\ (forall cfg' env',
        _auto_recover_run_status cfg' env' out.2 = (Ok tt, out.2))
  /\ (forall cfg' env' w0,
        (forall rs0, run_status w0 = Some rs0 ->
                     phase rs0 <> Some "running"%string) ->
        _auto_recover_run_status cfg' env' w0 = (Ok tt, w0)).
Proof.
  intros Hrow Hphase Hstart Hage out.
  assert (Hout : out =
    (Ok tt,
     with_transitions
       (transitions w ++ [(Some "running"%string, Some "finished"%string)])
       (with_run_status
          (Some {| phase := Some "finished"%string;
                   started_epoch := Some started;
                   finished_epoch := Some (clock env (S (time_reads w)));
                   status_code := Some "interrupted_timeout"%string;
                   message :=
                     Some "Auto-recovered: run exceeded timeout"%string;
                   ok_count := ok_count rs;
                   err_count := err_count rs |})
          (with_time_reads (S (S (time_reads w))) w)))).
  { subst out. unfold _auto_recover_run_status, update_run_status, time_time.
    unfold_m. rewrite Hrow.
    apply is_running_true in Hphase as Hrun. rewrite Hrun, Hstart.
    apply Z.leb_le in Hage. cbn. rewrite Hage. cbn.
    rewrite Hrow, Hphase, Hstart. reflexivity. }
  rewrite Hout. cbn [fst snd].
  split; [reflexivity|]. split; [reflexivity|]. split.
  - intros cfg' env'. apply auto_recover_not_running.
    cbn. intros rs0 [= <-]. cbn. discriminate.
  - intros cfg' env' w0. apply auto_recover_not_running.
Qed.

Lemma auto_recover_timeout_idempotent_witness :
  let out :=
    _auto_recover_run_status Demo.config Demo.env
      (running_since (1761572100 - 600)) in
  (run_status out.2 ≫= status_code) = Some "interrupted_timeout"%string
  /\ _auto_recover_run_status Demo.config Demo.env out.2 = (Ok tt, out.2).
Proof.
  pose proof (auto_recover_timeout_idempotent Demo.config Demo.env
                (running_since (1761572100 - 600)) _ (1761572100 - 600)
                eq_refl eq_refl eq_refl) as H.
  cbv zeta in H. destruct H as (_ & Hrow & Hagain & _).
  - vm_compute. discriminate.
  - split; [rewrite Hrow; reflexivity | apply Hagain].
Defined.

(** *** Fallback composition *)

Lemma has_data_price_or_prev_close (d : Quote.t) :
  Quote.price d <> None \/ Quote.prev_close d <> None ->
  Fallback.has_data (Some d) = true.
Proof.
  intros [H | H]; unfold Fallback.has_data; apply orb_true_iff;
    [left | right]; apply bool_decide_eq_true; exact H.
Qed.

(** C3. When the primary answers a payload whose error is null and
    whose price or prev_close is not null, the composer answers that very
    payload and the only call made is the one to the primary: the
    secondary is not invoked, whatever it would have done. *)
Theorem fallback_primary_wins
  (primary secondary : Fallback.QuoteProvider) (symbol : string)
  (d : Quote.t) :
  Fallback.get_full primary symbol = Ok (Some d) ->
  Quote.error d = None ->
  Quote.price d <> None \/ Quote.prev_close d <> None ->
  Fallback.fallback_get_full primary secondary symbol
    = (Some d, [Fallback.Primary])
  /\ (Fallback.Secondary
      ∉ snd (Fallback.fallback_get_full primary secondary symbol))
  /\ Fallback.get_full (Fallback._fallback_provider primary secondary) symbol
     = Ok (Some d).
Proof.
  intros Hp Herr Hdata.
  assert (Hres : Fallback.fallback_get_full primary secondary symbol
                 = (Some d, [Fallback.Primary])).
  { unfold Fallback.fallback_get_full. rewrite Hp.
    rewrite (has_data_price_or_prev_close d Hdata).
    cbn. rewrite Herr. reflexivity. }
  split; [exact Hres|]. split.
  - rewrite Hres. cbn. intros Hin. apply list_elem_of_singleton in Hin.
    discriminate.
  - cbn. rewrite Hres. reflexivity.
Qed.

Lemma fallback_primary_wins_witness :
  Fallback.fallback_get_full
    (constant_provider "gemini_search" (Ok (Some (Demo.ok_quote "A" 101 100))))
    loud_secondary "A"
  = (Some (Demo.ok_quote "A" 101 100), [Fallback.Primary]).
Proof.
  apply (fallback_primary_wins
           (constant_provider "gemini_search"
              (Ok (Some (Demo.ok_quote "A" 101 100))))
           loud_secondary "A" (Demo.ok_quote "A" 101 100)).
  - reflexivity.
  - reflexivity.
  - left. discriminate.
Defined.

(** C7. When the primary raises and the secondary answers without
    raising, the composer answers what the secondary answered, after one
    call to each. *)
Theorem fallback_primary_raises
  (primary secondary : Fallback.QuoteProvider) (symbol : string)
  (e : exn) (r : option Quote.t) :
  Fallback.get_full primary symbol = Raise e ->
  Fallback.get_full secondary symbol = Ok r ->
  Fallback.fallback_get_full primary secondary symbol
    = (r, [Fallback.Primary; Fallback.Secondary])
  /\ Fallback.get_full (Fallback._fallback_provider primary secondary) symbol
     = Ok r.
Proof.
  intros Hp Hs.
  assert (Hres : Fallback.fallback_get_full primary secondary symbol
                 = (r, [Fallback.Primary; Fallback.Secondary])).
  { unfold Fallback.fallback_get_full. rewrite Hp, Hs. cbn.
    destruct (Fallback.has_data r); reflexivity. }
  split; [exact Hres|]. cbn. rewrite Hres. reflexivity.
Qed.

Lemma fallback_primary_raises_witness :
  Fallback.fallback_get_full loud_secondary
    (constant_provider "alpha_vantage"
       (Ok (Some (Demo.ok_quote "A" 101 100)))) "A"
  = (Some (Demo.ok_quote "A" 101 100),
     [Fallback.Primary; Fallback.Secondary]).
Proof.
  apply (fallback_primary_raises loud_secondary
           (constant_provider "alpha_vantage"
              (Ok (Some (Demo.ok_quote "A" 101 100))))
           "A" (Exc "AssertionError") (Some (Demo.ok_quote "A" 101 100))).
  - reflexivity.
  - reflexivity.
Defined.

(** *** Cooldown *)

(** What the notifier does when the webhook is configured. *)
Lemma notify_discord_configured (cfg : Config) (env : Env) (content : string)
  (w : World) :
  DISCORD_WEBHOOK cfg <> ""%string ->
  _notify_discord cfg env content w =
    (Ok match http_post env (length (posts w)) content with
        | Response code => code / 100 =? 2
        | PostRaises _ => false
        end,
     with_posts
       (posts w ++ [(content, http_post env (length (posts w)) content)]) w).
Proof.
  intros Hhook. unfold _notify_discord.
  apply String.eqb_neq in Hhook. rewrite Hhook.
  destruct (http_post env (length (posts w)) content); reflexivity.
Qed.

Lemma notify_discord_unconfigured (cfg : Config) (env : Env)
  (content : string) (w : World) :
  DISCORD_WEBHOOK cfg = ""%string ->
  _notify_discord cfg env content w = (Ok false, w).
Proof.
  intros Hhook. unfold _notify_discord. rewrite Hhook. reflexivity.
Qed.

(** C10. With no suppression record for the rule, the stored
    [last_sent_epoch] reads as [None] and the cooldown check answers
    true, at every time and for every configured window.  A price or
    percent rule that triggers is then evaluated up to the post: with
    the webhook configured the message is posted, and a 2xx answer counts
    one notification and stamps the rule. *)
Theorem cooldown_ok_without_record
  (cfg : Config) (env : Env) (w : World) (a : AlertRow) (now_epoch : Z)
  (ticker : string) (price open_ pct : option float) (next_earn : option string)
  (trigger : string) :
  (alert_state w !! alert_id a ≫= last_sent_epoch) = None ->
  a_type a <> "earnings_days"%string ->
  trigger_of (a_type a) (a_val a) price pct = Some trigger ->
  trigger <> ""%string ->
  DISCORD_WEBHOOK cfg <> ""%string ->
  get_last_sent_epoch (alert_id a) w = (Ok None, w)
  /\ _cooldown_ok cfg None now_epoch = true
  /\ (let out := eval_alert cfg env ticker price open_ pct next_earn
                   now_epoch a w in
      let msg := _build_alert_msg ticker price open_ pct trigger in
      let answer := http_post env (length (posts w)) msg in
      posts out.2 = posts w ++ [(msg, answer)]
      /\ (forall code, answer = Response code -> code / 100 = 2 ->
            out.1 = Ok 1
            /\ (alert_state out.2 !! alert_id a ≫= last_sent_epoch)
               = Some now_epoch)).
Proof.
  intros Hrow Htype Htrig Hne Hhook.
  assert (Hget : get_last_sent_epoch (alert_id a) w = (Ok None, w)).
  { unfold get_last_sent_epoch. unfold_m. rewrite Hrow. reflexivity. }
  split; [exact Hget|]. split; [reflexivity|].
  cbv zeta. unfold eval_alert, eval_alert_body.
  apply String.eqb_neq in Htype. rewrite Htype.
  unfold_m. rewrite Hget. cbn [_cooldown_ok negb].
  rewrite Htrig. cbn [truthy or_empty].
  apply String.eqb_neq in Hne. rewrite Hne. cbn [negb].
  rewrite notify_discord_configured by exact Hhook.
  destruct (http_post env (length (posts w))
              (_build_alert_msg ticker price open_ pct trigger))
    as [code|e] eqn:Hpost.
  - destruct (code / 100 =? 2) eqn:Hcode.
    + cbn. split; [reflexivity|]. intros code' [= <-] _.
      split; [reflexivity|]. rewrite lookup_insert_eq. reflexivity.
    + cbn. split; [reflexivity|]. intros code' [= <-] H2.
      apply Z.eqb_neq in Hcode. contradiction.
  - cbn. split; [reflexivity|]. intros code' [=].
Qed.

Lemma cooldown_ok_without_record_witness :
  (eval_alert Demo.config Demo.env "A" (Some 101%float) (Some 100%float)
     (Some 1%float) None 1761572100 above_rule Demo.world).1 = Ok 1.
Proof.
  pose proof (cooldown_ok_without_record Demo.config Demo.env Demo.world
                above_rule 1761572100 "A" (Some 101%float) (Some 100%float)
                (Some 1%float) None "crossed **above 100.00**") as H.
  destruct H as (_ & _ & _ & Hsent).
  - reflexivity.
  - discriminate.
  - vm_compute. reflexivity.
  - discriminate.
  - discriminate.
  - destruct (Hsent 204) as [Hone _]; [reflexivity | reflexivity | exact Hone].
Defined.

(** *** Snapshot write *)


(** *** Frame rules *)

Section FrameRules.

Context {S : Type} (R : S -> S -> Prop).
Context `{!Reflexive R, !Transitive R}.

Lemma preserves_ret {A} (a : A) : preserves R (mret a : M S A).
Proof. intros s. cbn. reflexivity. Qed.

Lemma preserves_raise {A} (e : exn) : preserves R (raise e : M S A).
Proof. intros s. cbn. reflexivity. Qed.

Lemma preserves_gets {A} (f : S -> A) : preserves R (gets f).
Proof. intros s. cbn. reflexivity. Qed.

Lemma preserves_pure {A} (r : res A) : preserves R (pure r : M S A).
Proof. intros s. cbn. reflexivity. Qed.

Lemma preserves_bind {A B} (m : M S A) (k : A -> M S B) :
  preserves R m -> (forall a, preserves R (k a)) -> preserves R (m ≫= k).
Proof.
  intros Hm Hk s. unfold_m. specialize (Hm s).
  destruct (m s) as [[a|e] s']; cbn in *; [|exact Hm].
  etransitivity; [exact Hm | apply Hk].
Qed.

Lemma preserves_try_except {A} (m : M S A) (h : exn -> M S A) :
  preserves R m -> (forall e, preserves R (h e)) ->
  preserves R (try_except m h).
Proof.
  intros Hm Hh s. unfold_m. specialize (Hm s).
  destruct (m s) as [[a|e] s']; cbn in *; [exact Hm|].
  etransitivity; [exact Hm | apply Hh].
Qed.

End FrameRules.

Lemma total_ret {S A} (a : A) : total (mret a : M S A).
Proof. intros s. exists a. reflexivity. Qed.

Lemma total_bind {S A B} (m : M S A) (k : A -> M S B) :
  total m -> (forall a, total (k a)) -> total (m ≫= k).
Proof.
  intros Hm Hk s. unfold_m. destruct (Hm s) as [a Ha].
  destruct (m s) as [[a'|e] s']; cbn in Ha; [|discriminate].
  apply Hk.
Qed.

Lemma total_try_except {S A} (m : M S A) (h : exn -> M S A) :
  (forall e, total (h e)) -> total (try_except m h).
Proof.
  intros Hh s. unfold_m. destruct (m s) as [[a|e] s']; [eexists; reflexivity|].
  apply Hh.
Qed.

#[global] Instance eval_frame_refl : Reflexive eval_frame.
Proof. intros w. repeat split. Qed.

#[global] Instance eval_frame_trans : Transitive eval_frame.
Proof.
  intros a b c H1 H2. unfold eval_frame in *.
  destruct H1 as (?&?&?&?&?&?&?&?), H2 as (?&?&?&?&?&?&?&?).
  repeat split; congruence.
Qed.

(** One step of a frame proof: the structure of the computation is
    followed, a branch is split on what it tests. *)
Ltac frame_step :=
  first
    [ simple apply preserves_ret; solve [typeclasses eauto]
    | simple apply preserves_raise; solve [typeclasses eauto]
    | simple apply preserves_gets; solve [typeclasses eauto]
    | simple apply preserves_pure; solve [typeclasses eauto]
    | simple apply preserves_bind;
      [solve [typeclasses eauto] | | intros ?]
    | simple apply preserves_try_except;
      [solve [typeclasses eauto] | | intros ?]
    | match goal with
      | |- preserves _ (if ?b then _ else _) => destruct b
      | |- preserves _ (match ?x with _ => _ end) => destruct x
      end ].

Lemma notify_discord_frame (cfg : Config) (env : Env) (content : string) :
  preserves eval_frame (_notify_discord cfg env content).
Proof.
  intros w. unfold _notify_discord.
  destruct (String.eqb (DISCORD_WEBHOOK cfg) ""); [reflexivity|].
  destruct (http_post env (length (posts w)) content); repeat split.
Qed.

Lemma set_last_sent_epoch_frame (id epoch : Z) :
  preserves eval_frame (set_last_sent_epoch id epoch).
Proof. intros w. repeat split. Qed.

Lemma set_last_sent_frame (id epoch : Z) (key : option string) :
  preserves eval_frame (set_last_sent id epoch key).
Proof. intros w. destruct key; repeat split. Qed.

Lemma note_notified_frame (id : Z) :
  preserves eval_frame
    (modify (fun w => with_notified (notified w ++ [id]) w)).
Proof. intros w. repeat split. Qed.

Lemma days_until_earnings_frame (env : Env) (next : option string) :
  preserves eval_frame (_days_until_earnings env next).
Proof.
  intros w. unfold _days_until_earnings.
  destruct (negb (truthy next)); [reflexivity|].
  destruct (strptime_ymd env (prefix 10 (or_empty next))); repeat split.
Qed.

Lemma eval_alert_frame (cfg : Config) (env : Env) (ticker : string)
  (price open_ pct : option float) (next_earn : option string) (now : Z)
  (a : AlertRow) :
  preserves eval_frame
    (eval_alert cfg env ticker price open_ pct next_earn now a).
Proof.
  unfold eval_alert, eval_alert_body, get_last_sent_key, get_last_sent_epoch.
  repeat first
    [ simple apply notify_discord_frame
    | simple apply set_last_sent_epoch_frame
    | simple apply set_last_sent_frame
    | simple apply note_notified_frame
    | simple apply days_until_earnings_frame
    | frame_step ].
Qed.

Lemma eval_alert_total (cfg : Config) (env : Env) (ticker : string)
  (price open_ pct : option float) (next_earn : option string) (now : Z)
  (a : AlertRow) :
  total (eval_alert cfg env ticker price open_ pct next_earn now a).
Proof. apply total_try_except. intros e. apply total_ret. Qed.

Lemma eval_alerts_frame (cfg : Config) (env : Env) (ticker : string)
  (price open_ pct : option float) (next_earn : option string) (now : Z)
  (rows : list AlertRow) (sent : Z) :
  preserves eval_frame
    (eval_alerts cfg env ticker price open_ pct next_earn now rows sent).
Proof.
  revert sent. induction rows as [|a rest IH]; intros sent; cbn [eval_alerts].
  - frame_step.
  - frame_step; [apply eval_alert_frame | apply IH].
Qed.

Lemma eval_alerts_total (cfg : Config) (env : Env) (ticker : string)
  (price open_ pct : option float) (next_earn : option string) (now : Z)
  (rows : list AlertRow) (sent : Z) :
  total (eval_alerts cfg env ticker price open_ pct next_earn now rows sent).
Proof.
  revert sent. induction rows as [|a rest IH]; intros sent; cbn [eval_alerts].
  - apply total_ret.
  - apply total_bind; [apply eval_alert_total | intros n; apply IH].
Qed.

Lemma evaluate_and_notify_frame (cfg : Config) (env : Env) (symbol_id : Z)
  (ticker : string) (quote : option Quote.t) (now : Z) :
  preserves eval_frame (_evaluate_and_notify cfg env symbol_id ticker quote now).
Proof.
  unfold _evaluate_and_notify.
  frame_step; [frame_step|].
  destruct a as [|a rest]; [frame_step|].
  destruct quote as [q|]; [apply eval_alerts_frame | frame_step].
Qed.

(** The evaluator raises only on a payload that is [None]. *)
Lemma evaluate_and_notify_total (cfg : Config) (env : Env) (symbol_id : Z)
  (ticker : string) (q : Quote.t) (now : Z) :
  total (_evaluate_and_notify cfg env symbol_id ticker (Some q) now).
Proof.
  unfold _evaluate_and_notify. apply total_bind.
  - intros w. eexists. reflexivity.
  - intros rows. destruct rows as [|a rest]; [apply total_ret|].
    apply eval_alerts_total.
Qed.

(** *** The bulk routine *)

Lemma bind_run {S A B} (m : M S A) (k : A -> M S B) (s : S) :
  (m ≫= k) s =
    match m s with
    | (Ok a, s') => k a s'
    | (Raise e, s') => (Raise e, s')
    end.
Proof. reflexivity. Qed.

Lemma fetched_payload_error (r : res (option Quote.t)) :
  Quote.get_error (fetched_payload r) = fetch_error r.
Proof. destruct r; reflexivity. Qed.

Lemma bulk_symbol_spec (cfg : Config) (env : Env) (et_now : datetime)
  (window_ok : bool) (row : Z * string) (l : Locals) (w : World) :
  let r := provider_get_full env (length (fetches w)) row.2 in
  let f := (row.2, r) in
  let out := bulk_symbol cfg env et_now window_ok row (l, w) in
  fetches out.2.2 = fetches w ++ [f]
  /\ l_ok_count out.2.1 = l_ok_count l + (if fetch_succeeded f then 1 else 0)
  /\ l_err_count out.2.1 = l_err_count l + (if fetch_failed f then 1 else 0)
  /\ l_rate_limited_seen out.2.1
     = l_rate_limited_seen l || fetch_rate_limited f
  /\ run_status out.2.2 = run_status w
  /\ transitions out.2.2 = transitions w
  /\ symbol_state out.2.2 =
       <[row.1 :=
           upsert_row
             (bookkeeping_columns (clock env (time_reads w))
                (snapshot_note et_now window_ok r) window_ok
              ++ quote_columns (snapshot_data r)
                   (normalize_next_day (snapshot_data r)))
             (symbol_state w !! row.1)]> (symbol_state w)
  /\ (r <> Ok None -> out.1 = Ok tt).
Proof.
  intros r f out. subst f.
  set (w1 := with_fetches (fetches w ++ [(row.2, r)]) w).
  assert (H1 : try_except (lift (provider_call env row.2))
                 (fun _ => mret (Some network_error_dict)) (l, w)
               = (Ok (fetched_payload r), (l, w1))).
  { unfold try_except, lift, provider_call. cbn [fst snd]. fold r.
    destruct r; reflexivity. }
  unfold fetch_succeeded, fetch_rate_limited, fetch_failed, snapshot_note,
    snapshot_data. cbn [snd].
  subst out. unfold bulk_symbol. rewrite bind_run, H1.
  rewrite fetched_payload_error.
  destruct (truthy (fetch_error r)) eqn:Herr; cbn [negb andb].
  - destruct (String.eqb (or_empty (fetch_error r)) "rate_limited");
      unfold_m; unfold update_locals, lift, upsert_symbol_state_full,
        time_time, bookkeeping_columns; unfold_m;
      cbn [fst snd l_ok_count l_err_count l_rate_limited_seen];
      rewrite ?orb_true_r, ?orb_false_r;
      repeat split; try reflexivity; try lia.
  - unfold_m; unfold update_locals, lift, upsert_symbol_state_full,
        time_time, bookkeeping_columns; unfold_m; cbn [fst snd].
    set (w2 := with_symbol_state _ _).
    pose proof (evaluate_and_notify_frame cfg env row.1 row.2
                  (fetched_payload r) (clock env (time_reads w2)) 
                  (with_time_reads (S (time_reads w2)) w2)) as Hfr.
    assert (Htot : r <> Ok None ->
              exists n, (_evaluate_and_notify cfg env row.1 row.2
                           (fetched_payload r) (clock env (time_reads w2))
                           (with_time_reads (S (time_reads w2)) w2)).1
                        = Ok n).
    { intros Hr. destruct r as [[q|]|e]; [| congruence |];
        apply evaluate_and_notify_total. }
    destruct (_evaluate_and_notify cfg env row.1 row.2 (fetched_payload r)
                (clock env (time_reads w2))
                (with_time_reads (S (time_reads w2)) w2)) as [res w3].
    destruct Hfr as (Hrs & _ & Hss & Hfe & Htr & _ & _ & _).
    cbn [fst snd] in *.
    assert (Hw3 : fetches w3 = fetches w ++ [(row.2, r)]
                  /\ run_status w3 = run_status w
                  /\ transitions w3 = transitions w
                  /\ symbol_state w3 = symbol_state w2).
    { rewrite Hfe, Hrs, Htr, Hss. repeat split. }
    destruct Hw3 as (Hf3 & Hr3 & Ht3 & Hs3).
    rewrite orb_false_r.
    destruct res as [n|e]; cbn [fst snd l_ok_count l_err_count
                                 l_rate_limited_seen];
      rewrite Hf3, Hr3, Ht3, Hs3;
      (repeat split; try reflexivity; try lia).
    intros Hr. destruct (Htot Hr) as [n Hn]. discriminate.
Qed.

Lemma bulk_loop_spec (cfg : Config) (env : Env) (et_now : datetime)
  (window_ok : bool) (rows : list (Z * string)) (l : Locals) (w : World) :
  let out := bulk_loop cfg env et_now window_ok rows (l, w) in
  exists new,
    fetches out.2.2 = fetches w ++ new
    /\ (exists k, map fst new = take k (map snd rows))
    /\ (out.1 = Ok tt -> map fst new = map snd rows)
    /\ ((forall n t, provider_get_full env n t <> Ok None) -> out.1 = Ok tt)
    /\ (forall i f, new !! i = Some f ->
          f.2 = provider_get_full env (length (fetches w) + i) f.1)
    /\ l_ok_count out.2.1 = l_ok_count l + count_where fetch_succeeded new
    /\ l_err_count out.2.1 = l_err_count l + count_where fetch_failed new
    /\ l_rate_limited_seen out.2.1
       = l_rate_limited_seen l || existsb fetch_rate_limited new
    /\ run_status out.2.2 = run_status w
    /\ transitions out.2.2 = transitions w.
Proof.
  revert l w. induction rows as [|row rest IH]; intros l w out.
  - exists []. subst out. cbn. rewrite app_nil_r, orb_false_r.
    repeat split; try reflexivity; try lia.
    + exists 0%nat. reflexivity.
    + intros i f Hi. rewrite lookup_nil in Hi. discriminate.
  - subst out. cbn [bulk_loop]. rewrite bind_run.
    pose proof (bulk_symbol_spec cfg env et_now window_ok row l w) as Hs.
    cbv zeta in Hs.
    set (r := provider_get_full env (length (fetches w)) row.2) in *.
    destruct (bulk_symbol cfg env et_now window_ok row (l, w))
      as [res [l1 w1]].
    cbn [fst snd] in Hs.
    destruct Hs as (Hf & Hok & Herr & Hrl & Hrs & Htr & _ & Htot).
    destruct res as [[]|e].
    + specialize (IH l1 w1). cbv zeta in IH.
      destruct (bulk_loop cfg env et_now window_ok rest (l1, w1))
        as [res2 [l2 w2]].
      cbn [fst snd] in *.
      destruct IH as (new & Hf2 & [k Hk] & Hall & Hnever & Hidx & Hok2
                      & Herr2 & Hrl2 & Hrs2 & Htr2).
      exists ((row.2, r) :: new).
      rewrite Hf2, Hf, <- app_assoc. cbn [app map fst snd count_where existsb].
      split; [reflexivity|]. split; [exists (S k); cbn; congruence|].
      split; [intros H; rewrite (Hall H); reflexivity|].
      split; [exact Hnever|].
      split.
      { intros i f Hi. destruct i as [|i]; cbn in Hi.
        - injection Hi as <-. cbn. rewrite Nat.add_0_r. reflexivity.
        - rewrite (Hidx i f Hi), Hf, length_app. cbn.
          f_equal. lia. }
      rewrite Hok2, Herr2, Hrl2, Hok, Herr, Hrl, Hrs2, Htr2, Hrs, Htr.
      rewrite orb_assoc.
      repeat split; try reflexivity; lia.
    + exists [(row.2, r)]. cbn [fst snd app map count_where existsb].
      rewrite Hf, Hok, Herr, Hrl, orb_false_r.
      split; [reflexivity|]. split; [exists 1%nat; destruct rest; reflexivity|].
      split; [discriminate|].
      split.
      { intros Hnone. specialize (Htot (Hnone _ _)). discriminate. }
      split.
      { intros i f Hi. destruct i as [|i]; cbn in Hi; [|discriminate].
        injection Hi as <-. cbn. rewrite Nat.add_0_r. reflexivity. }
      repeat split; try assumption; lia.
Qed.

Lemma accounts_for_nil (env : Env)
  (before : list (string * res (option Quote.t))) (l : Locals) :
  accounts_for env before l l [].
Proof.
  unfold accounts_for. cbn [count_where existsb].
  rewrite orb_false_r.
  split; [intros i f Hi; rewrite lookup_nil in Hi; discriminate|].
  repeat split; lia.
Qed.

(** The [try] block with its handler: it returns, whatever was raised
    inside; the run-status row stays present and keeps its
    [started_epoch]. *)
Lemma check_alerts_try_spec (cfg : Config) (env : Env) (l : Locals)
  (w : World) :
  let out := try_except (check_alerts_try cfg env) (fun _ => mret tt) (l, w) in
  out.1 = Ok tt
  /\ (is_Some (run_status w) -> is_Some (run_status out.2.2))
  /\ (run_status out.2.2 ≫= started_epoch) = (run_status w ≫= started_epoch)
  /\ (exists t, transitions out.2.2 = transitions w ++ t
                /\ Forall (fun tr => tr.2 = Some "finished"%string) t)
  /\ exists new,
       fetches out.2.2 = fetches w ++ new
       /\ accounts_for env (fetches w) l out.2.1 new
       /\ covers env (select_watchlist env (watch_reads w)) new.
Proof.
  intros out.
  assert (Hout : out = try_except (check_alerts_try cfg env)
                         (fun _ => mret tt) (l, w)) by reflexivity.
  clearbody out. unfold try_except, check_alerts_try in Hout.
  rewrite bind_run in Hout. unfold lift at 1, read_watchlist in Hout.
  cbn [fst snd] in Hout.
  destruct (select_watchlist env (watch_reads w)) as [rows|e] eqn:Hsel.
  - destruct rows as [|row rest].
    + unfold_m. unfold lift, time_time, set_run_status, update_run_status in Hout.
      cbn [fst snd run_status with_time_reads with_watch_reads] in Hout.
      destruct (run_status w) as [rs|] eqn:Hrow; rewrite Hout; cbn;
        rewrite ?Hrow;
        (split; [reflexivity|]);
        (split; [first [tauto | intros _; eapply mk_is_Some; reflexivity]|]);
        (split; [reflexivity|]);
        (split;
         [first [ exists []; rewrite app_nil_r; split; [reflexivity|constructor]
                | eexists; split; [reflexivity|];
                  repeat constructor ] |]);
        exists []; rewrite app_nil_r;
        (split; [reflexivity|]);
        (split; [apply accounts_for_nil|]);
        (split; [exists 0%nat; reflexivity | intros _; reflexivity]).
    + rewrite bind_run in Hout. unfold lift at 1, now_et in Hout.
      cbn [fst snd] in Hout.
      set (w1 := with_local_reads _ (with_watch_reads _ w)) in Hout.
      set (et_now := local_clock env (local_reads (with_watch_reads _ w)))
        in Hout.
      pose proof (bulk_loop_spec cfg env et_now (is_trading_window et_now)
                    (row :: rest) l w1) as Hloop.
      cbv zeta in Hloop.
      destruct (bulk_loop cfg env et_now (is_trading_window et_now)
                  (row :: rest) (l, w1)) as [res [l2 w2]].
      cbn [fst snd] in Hloop.
      destruct Hloop as (new & Hf & Hk & Hall & Hnever & Hidx & Hok & Herr
                         & Hrl & Hrs & Htr).
      assert (Hout' : out = (Ok tt, (l2, w2))).
      { rewrite Hout. destruct res as [[]|e]; reflexivity. }
      rewrite Hout'. cbn [fst snd].
      split; [reflexivity|]. rewrite Hrs.
      split; [tauto|]. split; [reflexivity|].
      split; [exists []; rewrite app_nil_r; split; [exact Htr|constructor]|].
      exists new. split; [exact Hf|]. split.
      * unfold accounts_for. repeat split; assumption.
      * split; [exact Hk|]. intros Hnone. apply Hall, Hnever, Hnone.
  - rewrite Hout. cbn [fst snd]. split; [reflexivity|]. split; [tauto|].
    split; [reflexivity|].
    split; [exists []; rewrite app_nil_r; split; [reflexivity|constructor]|].
    exists []. rewrite app_nil_r. split; [reflexivity|].
    split; [apply accounts_for_nil | reflexivity].
Qed.

Lemma final_status_code_of_fetches (l : Locals)
  (new : list (string * res (option Quote.t))) :
  l_err_count l = count_where fetch_failed new ->
  l_rate_limited_seen l = existsb fetch_rate_limited new ->
  final_status_code l = bulk_status_code new.
Proof.
  intros He Hr. unfold final_status_code, bulk_status_code.
  rewrite He, Hr.
  destruct (count_where fetch_failed new =? 0); reflexivity.
Qed.

(** What a bulk run leaves behind, when the run-status row exists: the
    routine returns, and the row is finished, with the counts of the
    fetches made. *)
Lemma check_alerts_spec (cfg : Config) (env : Env) (w : World)
  (rs : RunStatus) :
  run_status w = Some rs ->
  let out := check_alerts cfg env w in
  out.1 = Ok tt
  /\ (exists t, transitions out.2
                = transitions w ++ (phase rs, Some "running"%string) :: t
                /\ Forall (fun tr => tr.2 = Some "finished"%string) t)
  /\ exists new fin n,
       fetches out.2 = fetches w ++ new
       /\ (forall i f, new !! i = Some f ->
             f.2 = provider_get_full env (length (fetches w) + i) f.1)
       /\ covers env (select_watchlist env (watch_reads w)) new
       /\ run_status out.2 =
            Some {| phase := Some "finished"%string;
                    started_epoch := Some (clock env (time_reads w));
                    finished_epoch := Some fin;
                    status_code := Some (bulk_status_code new);
                    message :=
                      Some (prefix 400
                              (bulk_message
                                 (count_where fetch_succeeded new)
                                 (count_where fetch_failed new) n));
                    ok_count := Some (count_where fetch_succeeded new);
                    err_count := Some (count_where fetch_failed new) |}.
Proof.
  intros Hrow out.
  assert (Hout : out = check_alerts cfg env w) by reflexivity.
  clearbody out. unfold check_alerts in Hout.
  rewrite bind_run in Hout. unfold time_time at 1 in Hout.
  rewrite bind_run in Hout.
  unfold set_run_status at 1, update_run_status in Hout.
  cbn [run_status with_time_reads] in Hout. rewrite Hrow in Hout.
  set (rs1 := {| phase := Some "running"%string;
                 started_epoch := Some (clock env (time_reads w));
                 finished_epoch := finished_epoch rs;
                 status_code := status_code rs;
                 message := Some (prefix 400 "Updating quotes…");
                 ok_count := Some 0; err_count := Some 0 |}) in Hout.
  set (w1 := with_transitions _ (with_run_status (Some rs1) _)) in Hout.
  unfold with_locals, try_finally in Hout.
  set (l0 := {| l_ok_count := 0; l_err_count := 0;
                l_rate_limited_seen := false; l_total_notified := 0 |})
    in Hout.
  pose proof (check_alerts_try_spec cfg env l0 w1) as Htry.
  cbv zeta in Htry.
  destruct (try_except (check_alerts_try cfg env) (fun _ => mret tt) (l0, w1))
    as [res [l2 w2]].
  cbn [fst snd] in Htry.
  destruct Htry as (-> & Hsome & Hstart & (t & Ht & Hfin) & new & Hf & Hacc
                    & Hcov).
  destruct (Hsome (mk_is_Some _ _ eq_refl)) as [rs2 Hrow2].
  rewrite Hrow2 in Hstart. cbn in Hstart.
  destruct Hacc as (Hidx & Hok & Herr & Hrl).
  cbn [l_ok_count l_err_count l_rate_limited_seen l0 orb] in Hok, Herr, Hrl.
  rewrite Z.add_0_l in Hok, Herr.
  unfold check_alerts_finally in Hout.
  unfold_m. unfold lift, time_time, set_run_status, update_run_status in Hout.
  cbn [fst snd run_status with_time_reads] in Hout.
  rewrite Hrow2 in Hout. cbn [fst snd] in Hout.
  rewrite Hout. cbn [fst snd run_status with_transitions with_run_status
                     fetches with_time_reads transitions].
  split; [reflexivity|].
  split.
  { exists (t ++ [(phase rs2, Some "finished"%string)]).
    rewrite Ht. unfold w1. cbn [transitions with_transitions].
    rewrite <- !app_assoc. split; [reflexivity|].
    apply Forall_app. split; [exact Hfin | repeat constructor]. }
  exists new, (clock env (time_reads w2)), (l_total_notified l2).
  split; [exact Hf|]. split; [exact Hidx|]. split; [exact Hcov|].
  rewrite (final_status_code_of_fetches l2 new Herr Hrl), Hok, Herr, Hstart.
  reflexivity.
Qed.



(** C8. Whatever is raised inside the [try] of the bulk routine, while
    reading the watchlist or in the loop, the routine returns and the
    run-status row is finished, with a status code, a finish time, both
    counts and a message: it is not left running. *)
Theorem bulk_run_always_finalized (cfg : Config) (env : Env) (w : World)
  (rs : RunStatus) :
  run_status w = Some rs ->
  let out := check_alerts cfg env w in
  out.1 = Ok tt
  /\ exists rs',
       run_status out.2 = Some rs'
       /\ phase rs' = Some "finished"%string
       /\ is_Some (status_code rs')
       /\ is_Some (finished_epoch rs')
       /\ is_Some (ok_count rs')
       /\ is_Some (err_count rs')
       /\ is_Some (message rs').
Proof.
  intros Hrow out.
  destruct (check_alerts_spec cfg env w rs Hrow)
    as (Hret & _ & new & fin & n & _ & _ & _ & Hfinal).
  split; [exact Hret|].
  eexists. split; [exact Hfinal|].
  cbn. repeat split; eapply mk_is_Some; reflexivity.
Qed.

Lemma bulk_run_always_finalized_witness :
  (exists e s, check_alerts_try Demo.config unreadable_env
                 ({| l_ok_count := 0; l_err_count := 0;
                     l_rate_limited_seen := false; l_total_notified := 0 |},
                  Demo.world) = (Raise e, s))
  /\ (run_status (check_alerts Demo.config unreadable_env Demo.world).2
      ≫= phase) = Some "finished"%string.
Proof.
  split.
  - eexists. eexists. vm_compute. reflexivity.
  - destruct (bulk_run_always_finalized Demo.config unreadable_env Demo.world
                seed_run_status eq_refl) as (_ & rs' & Hrow & Hphase & _).
    rewrite Hrow. exact Hphase.
Defined.

(** A run whose loop is cut short by an exception, on the first of
    three symbols: the evaluator raises on the payload [None] of symbol
    1, which has a rule.  The run is finished all the same, with the one
    fetch it made. *)
Example bulk_run_cut_short :
  let out := check_alerts Demo.config none_env world_with_rule in
  out.1 = Ok tt
  /\ map fst (fetches out.2) = ["A"%string]
  /\ (run_status out.2 ≫= phase) = Some "finished"%string
  /\ (run_status out.2 ≫= ok_count) = Some 1
  /\ (run_status out.2 ≫= status_code) = Some "ok"%string.
Proof. vm_compute. repeat split. Qed.

(** *** Snapshot write after a fetch *)





(** *** Starting a bulk run *)

(** C5, as stated, fails on the scheduled start: the job registered for
    09:35 calls [check_alerts] directly, and on a record that is running
    since 100 seconds it writes running over running. *)
Lemma scheduled_start_unguarded : ~ single_flight_on_every_start.
Proof.
  intros H.
  specialize (H Demo.config Demo.env (Scheduled morning_job)
                (running_since (1761572100 - 100))).
  apply H.
  - cbn. apply list_elem_of_here.
  - intros Hin. cbn in Hin. apply elem_of_nil in Hin. exact Hin.
  - vm_compute. apply list_elem_of_here.
Qed.

(** The recovery either leaves the row and the log alone, or finishes a
    row that was running. *)
Lemma auto_recover_effect (cfg : Config) (env : Env) (w : World) :
  let out := _auto_recover_run_status cfg env w in
  out.1 = Ok tt
  /\ workers out.2 = workers w
  /\ ((run_status out.2 = run_status w
       /\ transitions out.2 = transitions w)
      \/ (exists rs rs',
            run_status w = Some rs
            /\ transitions out.2
               = transitions w ++ [(phase rs, Some "finished"%string)]
            /\ run_status out.2 = Some rs'
            /\ phase rs' = Some "finished"%string)).
Proof.
  intros out.
  assert (Hout : out = _auto_recover_run_status cfg env w) by reflexivity.
  clearbody out. unfold _auto_recover_run_status in Hout.
  unfold_m. unfold time_time, update_run_status in Hout.
  destruct (run_status w) as [rs|] eqn:Hrow.
  - destruct (is_running rs) eqn:Hrun.
    + destruct (started_epoch rs) as [started|] eqn:Hstart.
      * cbn [fst snd] in Hout.
        destruct (RUN_TIMEOUT_SECONDS cfg <=? clock env (time_reads w) - started).
        -- cbn [fst snd run_status with_time_reads] in Hout.
           rewrite Hrow in Hout. rewrite Hout. cbn.
           split; [reflexivity|]. split; [reflexivity|]. right.
           eexists. eexists. split; [reflexivity|]. split; [reflexivity|].
           split; reflexivity.
        -- rewrite Hout. cbn. rewrite Hrow. repeat split. left. split; reflexivity.
      * rewrite Hout. cbn. rewrite Hrow. repeat split. left. split; reflexivity.
    + rewrite Hout. cbn. rewrite Hrow. repeat split. left. split; reflexivity.
  - rewrite Hout. cbn. rewrite Hrow. repeat split. left. split; reflexivity.
Qed.

(** The phase writes of a bulk run: at most one to running, from the
    phase the run found, and the others to finished. *)
Lemma check_alerts_transitions (cfg : Config) (env : Env) (w : World) :
  exists t,
    transitions (check_alerts cfg env w).2 = transitions w ++ t
    /\ Forall (fun tr => tr.2 = Some "finished"%string
                         \/ tr = (run_status w ≫= phase,
                                  Some "running"%string)) t.
Proof.
  destruct (run_status w) as [rs|] eqn:Hrow.
  - destruct (check_alerts_spec cfg env w rs Hrow)
      as (_ & (t & Ht & Hfin) & _).
    exists ((phase rs, Some "running"%string) :: t). split; [exact Ht|].
    constructor; [right; reflexivity|].
    eapply Forall_impl; [exact Hfin|]. intros tr Htr. left. exact Htr.
  - set (out := check_alerts cfg env w).
    assert (Hout : out = check_alerts cfg env w) by reflexivity.
    clearbody out. unfold check_alerts in Hout.
    rewrite bind_run in Hout. unfold time_time at 1 in Hout.
    rewrite bind_run in Hout.
    unfold set_run_status at 1, update_run_status in Hout.
    cbn [run_status with_time_reads] in Hout. rewrite Hrow in Hout.
    unfold with_locals, try_finally in Hout.
    set (l0 := {| l_ok_count := 0; l_err_count := 0;
                  l_rate_limited_seen := false; l_total_notified := 0 |})
      in Hout.
    set (w1 := with_time_reads (S (time_reads w)) w) in Hout.
    pose proof (check_alerts_try_spec cfg env l0 w1) as Htry.
    cbv zeta in Htry.
    destruct (try_except (check_alerts_try cfg env) (fun _ => mret tt)
                (l0, w1)) as [res [l2 w2]].
    cbn [fst snd] in Htry.
    destruct Htry as (-> & _ & _ & (t & Ht & Hfin) & _).
    unfold check_alerts_finally in Hout.
    unfold_m. unfold lift, time_time, set_run_status, update_run_status in Hout.
    cbn [fst snd run_status with_time_reads] in Hout.
    destruct (run_status w2) as [rs2|]; cbn [fst snd] in Hout; rewrite Hout;
      cbn [snd transitions with_transitions with_run_status with_time_reads];
      rewrite Ht; unfold w1; cbn [transitions with_time_reads].
    + exists (t ++ [(phase rs2, Some "finished"%string)]).
      rewrite <- app_assoc. split; [reflexivity|].
      apply Forall_app. split.
      * eapply Forall_impl; [exact Hfin|]. intros tr Htr. left. exact Htr.
      * repeat constructor.
    + exists t. split; [reflexivity|].
      eapply Forall_impl; [exact Hfin|]. intros tr Htr. left. exact Htr.
Qed.

(** [api_update_all], step by step. *)
Lemma api_update_all_run (cfg : Config) (env : Env) (w : World) :
  let w1 := (_auto_recover_run_status cfg env w).2 in
  api_update_all cfg env w =
    if match run_status w1 with Some rs => is_running rs | None => false end
    then (Ok "already_running"%string, w1)
    else match thread_start env (length (workers w1)) with
         | Ok _ => (Ok "started"%string, with_workers (workers w1 ++ [true]) w1)
         | Raise _ =>
             (Ok "error"%string, with_workers (workers w1 ++ [false]) w1)
         end.
Proof.
  intros w1. unfold api_update_all. rewrite bind_run.
  destruct (auto_recover_effect cfg env w) as (Hok & _).
  fold w1 in Hok. subst w1.
  destruct (_auto_recover_run_status cfg env w) as [res w1].
  cbn [fst snd] in *. subst res.
  rewrite bind_run. unfold _is_run_already_running, get_run_status.
  unfold_m. cbn [fst snd].
  destruct (match run_status w1 with Some rs => is_running rs | None => false end);
    [reflexivity|].
  unfold start_worker.
  destruct (thread_start env (length (workers w1))); reflexivity.
Qed.

(** C5, amended.  The on-demand trigger runs the stale-run recovery and
    then checks the phase.  On a record that is running and not stale it
    answers already_running, starts no worker and leaves the record and
    the log of phase writes as they were.  When it answers started, one
    worker was started and the phase it left is not running.  With the
    run of the worker taken right after its start, the on-demand start
    writes no running-to-running transition. *)
Theorem on_demand_single_flight (cfg : Config) (env : Env) (w : World) :
  let out := api_update_all cfg env w in
  (forall rs, run_status w = Some rs ->
     phase rs = Some "running"%string ->
     (forall started, started_epoch rs = Some started ->
        clock env (time_reads w) - started < RUN_TIMEOUT_SECONDS cfg) ->
     out.1 = Ok "already_running"%string
     /\ run_status out.2 = run_status w
     /\ workers out.2 = workers w
     /\ transitions out.2 = transitions w)
  /\ (out.1 = Ok "started"%string ->
      workers out.2 = workers w ++ [true]
      /\ forall rs', run_status out.2 = Some rs' ->
                     phase rs' <> Some "running"%string)
  /\ (no_running_to_running w ->
      no_running_to_running (start_bulk cfg env OnDemand w).2).
Proof.
  intros out.
  assert (Hout : out = api_update_all cfg env w) by reflexivity.
  clearbody out. rewrite api_update_all_run in Hout. cbv zeta in Hout.
  pose proof (auto_recover_effect cfg env w) as (Hret & Hwork & Heff).
  split; [|split].
  - intros rs Hrow Hphase Hfresh.
    assert (Hrec : run_status (_auto_recover_run_status cfg env w).2
                   = run_status w
                   /\ transitions (_auto_recover_run_status cfg env w).2
                      = transitions w).
    { unfold _auto_recover_run_status. unfold_m. rewrite Hrow.
      apply is_running_true in Hphase as Hrun. rewrite Hrun.
      destruct (started_epoch rs) as [started|] eqn:Hstart.
      - specialize (Hfresh started eq_refl).
        apply Z.leb_gt in Hfresh. unfold time_time. cbn [fst snd].
        rewrite Hfresh. cbn. rewrite Hrow. split; reflexivity.
      - cbn. rewrite Hrow. split; reflexivity. }
    destruct Hrec as [Hrs Htr]. rewrite Hrs, Hrow in Hout.
    apply is_running_true in Hphase. rewrite Hphase in Hout.
    rewrite Hout. cbn [fst snd]. rewrite Hrs, Htr, Hwork, Hrow.
    repeat split.
  - intros Hstarted.
    destruct (match run_status (_auto_recover_run_status cfg env w).2 with
              | Some rs => is_running rs
              | None => false
              end) eqn:Hguard;
      [rewrite Hout in Hstarted; discriminate|].
    destruct (thread_start env
                (length (workers (_auto_recover_run_status cfg env w).2)));
      [|rewrite Hout in Hstarted; discriminate].
    rewrite Hout. cbn [fst snd workers with_workers run_status].
    rewrite Hwork. split; [reflexivity|].
    intros rs' Hrs'. rewrite Hrs' in Hguard.
    apply is_running_false. exact Hguard.
  - intros Hno. unfold start_bulk. rewrite bind_run.
    fold (api_update_all cfg env w). rewrite api_update_all_run. cbv zeta.
    set (w1 := (_auto_recover_run_status cfg env w).2) in *.
    assert (Hno1 : no_running_to_running w1).
    { destruct Heff as [[_ Htr] | (rs & rs' & _ & Htr & _)];
        unfold no_running_to_running; rewrite Htr; [exact Hno|].
      intros Hin. apply elem_of_app in Hin as [Hin | Hin]; [exact (Hno Hin)|].
      apply list_elem_of_singleton in Hin. discriminate. }
    destruct (match run_status w1 with
              | Some rs => is_running rs
              | None => false
              end) eqn:Hguard; [exact Hno1|].
    destruct (thread_start env (length (workers w1))); [|exact Hno1].
    cbn [String.eqb Ascii.eqb Bool.eqb].
    set (w2 := with_workers (workers w1 ++ [true]) w1).
    destruct (check_alerts_transitions cfg env w2) as (t & Ht & Hall).
    unfold no_running_to_running. rewrite Ht.
    intros Hin. apply elem_of_app in Hin as [Hin | Hin]; [exact (Hno1 Hin)|].
    rewrite Forall_forall in Hall. specialize (Hall _ Hin).
    destruct Hall as [Hfin | Hrun]; [discriminate|].
    injection Hrun as Hphase.
    change (run_status w2) with (run_status w1) in Hphase.
    destruct (run_status w1) as [rs1|]; [|discriminate].
    cbn in Hphase. symmetry in Hphase. apply is_running_true in Hphase.
    congruence.
Qed.

Lemma on_demand_single_flight_witness :
  let out := api_update_all Demo.config Demo.env
               (running_since (1761572100 - 100)) in
  out.1 = Ok "already_running"%string
  /\ workers out.2 = []
  /\ transitions out.2 = [].
Proof.
  destruct (on_demand_single_flight Demo.config Demo.env
              (running_since (1761572100 - 100))) as (Hrefuse & _ & _).
  destruct (Hrefuse _ eq_refl eq_refl) as (Hans & _ & Hwork & Htr).
  - intros started [= <-]. vm_compute. reflexivity.
  - split; [exact Hans|]. split; [exact Hwork | exact Htr].
Defined.

(** *** Cooldown suppression *)

Lemma cooldown_kind_not_earnings (kind : string) :
  cooldown_kind kind -> String.eqb kind "earnings_days" = false.
Proof.
  unfold cooldown_kind. intros H. apply String.eqb_neq. intros ->.
  repeat (apply elem_of_cons in H as [H | H]; [discriminate|]).
  apply elem_of_nil in H. exact H.
Qed.

(** The post of the notifier: the outcome, and the world it leaves. *)
Lemma notify_discord_run (cfg : Config) (env : Env) (content : string)
  (w : World) :
  exists ok w',
    _notify_discord cfg env content w = (Ok ok, w')
    /\ alert_state w' = alert_state w
    /\ notified w' = notified w
    /\ local_reads w' = local_reads w
    /\ (ok = true -> last_post_accepted w')
    /\ (ok = false -> DISCORD_WEBHOOK cfg <> ""%string ->
        posts w' = posts w
                   ++ [(content, http_post env (length (posts w)) content)])
    /\ (DISCORD_WEBHOOK cfg <> ""%string ->
        forall code, http_post env (length (posts w)) content = Response code ->
                     code / 100 = 2 -> ok = true).
Proof.
  unfold _notify_discord.
  destruct (String.eqb (DISCORD_WEBHOOK cfg) "") eqn:Hhook.
  - exists false, w. apply String.eqb_eq in Hhook.
    repeat split; try discriminate; congruence.
  - destruct (http_post env (length (posts w)) content) as [code|e] eqn:Hpost.
    + eexists. eexists. split; [reflexivity|].
      cbn [alert_state notified local_reads posts with_posts].
      repeat split; try reflexivity.
      * intros Hok. apply Z.eqb_eq in Hok. exists content, code.
        cbn [posts with_posts]. rewrite last_snoc. split; [reflexivity | exact Hok].
      * intros _ code' [= <-] Hcode. apply Z.eqb_eq. exact Hcode.
    + eexists. eexists. split; [reflexivity|].
      cbn [alert_state notified local_reads posts with_posts].
      repeat split; try reflexivity; try discriminate.
Qed.

(** An evaluation of a rule that is not an earnings rule, step by
    step. *)
Lemma eval_alert_cooldown_run (cfg : Config) (env : Env) (ticker : string)
  (price open_ pct : option float) (next_earn : option string) (now : Z)
  (a : AlertRow) (w : World) :
  String.eqb (a_type a) "earnings_days" = false ->
  eval_alert cfg env ticker price open_ pct next_earn now a w =
    if negb (_cooldown_ok cfg (stored_epoch w (alert_id a)) now)
    then (Ok 0, w)
    else
      let trigger := trigger_of (a_type a) (a_val a) price pct in
      if truthy trigger then
        match _notify_discord cfg env
                (_build_alert_msg ticker price open_ pct (or_empty trigger)) w
        with
        | (Ok true, w') =>
            (Ok 1,
             with_notified (notified w' ++ [alert_id a])
               (with_alert_state
                  (<[alert_id a :=
                       {| last_sent_epoch := Some now;
                          last_sent_key := stored_key w' (alert_id a) |}]>
                     (alert_state w')) w'))
        | (Ok false, w') => (Ok 0, w')
        | (Raise _, w') => (Ok 0, w')
        end
      else (Ok 0, w).
Proof.
  intros Hkind. unfold eval_alert, eval_alert_body. rewrite Hkind.
  unfold get_last_sent_epoch, set_last_sent_epoch, stored_epoch, stored_key.
  unfold_m. cbv zeta.
  destruct (negb (_cooldown_ok cfg _ now)); [reflexivity|].
  destruct (truthy (trigger_of (a_type a) (a_val a) price pct));
    [|reflexivity].
  destruct (_notify_discord cfg env _ w) as [[[]|e] w']; reflexivity.
Qed.

(** A rule of a cooldown kind evaluated within its window: the turn
    answers 0 and the store is as before. *)
Lemma cooldown_skip (cfg : Config) (env : Env) (a : AlertRow) :
  cooldown_kind (a_type a) ->
  forall ticker price open_ pct next_earn now w last,
    stored_epoch w (alert_id a) = Some last ->
    now - last < COOLDOWN_MINUTES cfg * 60 ->
    eval_alert cfg env ticker price open_ pct next_earn now a w = (Ok 0, w).
Proof.
  intros Hcool ticker price open_ pct next_earn now w last Hlast Hfresh.
  rewrite eval_alert_cooldown_run
    by (apply cooldown_kind_not_earnings; exact Hcool).
  rewrite Hlast. cbn [_cooldown_ok].
  apply Z.leb_gt in Hfresh. rewrite Hfresh. reflexivity.
Qed.

(** *** Keyed suppression of earnings reminders *)

(** An evaluation of an earnings rule, step by step. *)
Lemma eval_alert_earnings_run (cfg : Config) (env : Env) (ticker : string)
  (price open_ pct : option float) (next_earn : option string) (now : Z)
  (a : AlertRow) (w : World) :
  a_type a = "earnings_days"%string ->
  eval_alert cfg env ticker price open_ pct next_earn now a w =
    if negb (truthy next_earn) then (Ok 0, w)
    else
      match strptime_ymd env (prefix 10 (or_empty next_earn)) with
      | None => (Ok 0, w)
      | Some earn_date =>
          let w1 := with_local_reads (S (local_reads w)) w in
          match int_of_float (a_val a) with
          | Raise _ => (Ok 0, w1)
          | Ok value =>
              if earn_date - today_of env w =? value then
                if negb (bool_decide (stored_key w1 (alert_id a)
                                      = Some (or_empty next_earn)))
                then
                  match _notify_discord cfg env
                          (earnings_msg ticker value (or_empty next_earn)) w1
                  with
                  | (Ok true, w') =>
                      (Ok 1,
                       with_notified (notified w' ++ [alert_id a])
                         (with_alert_state
                            (<[alert_id a :=
                                 {| last_sent_epoch := Some now;
                                    last_sent_key :=
                                      Some (or_empty next_earn) |}]>
                               (alert_state w')) w'))
                  | (Ok false, w') => (Ok 0, w')
                  | (Raise _, w') => (Ok 0, w')
                  end
                else (Ok 0, w1)
              else (Ok 0, w1)
          end
      end.
Proof.
  intros Hkind. unfold eval_alert, eval_alert_body. rewrite Hkind.
  cbn [String.eqb Ascii.eqb Bool.eqb].
  unfold _days_until_earnings, get_last_sent_key, set_last_sent, now_et,
    stored_key, today_of, earnings_msg, pure.
  unfold_m. cbv zeta.
  destruct (negb (truthy next_earn)); [reflexivity|].
  destruct (strptime_ymd env (prefix 10 (or_empty next_earn)));
    [|reflexivity].
  destruct (int_of_float (a_val a)) as [value|e]; [|reflexivity].
  destruct (_ =? value); [|reflexivity].
  cbn [alert_state with_local_reads].
  destruct (negb (bool_decide _)); [|reflexivity].
  destruct (_notify_discord cfg env _ _) as [[[]|e] w']; reflexivity.
Qed.

Lemma truthy_some (o : option string) :
  truthy o = true -> exists key, o = Some key /\ key <> ""%string.
Proof.
  destruct o as [key|]; [|discriminate]. cbn. intros H.
  exists key. split; [reflexivity|].
  apply String.eqb_neq. destruct (String.eqb key ""); [discriminate|reflexivity].
Qed.

(** An evaluation of an earnings rule counts nothing and leaves the
    suppression state alone, or everything the reminder needs held and
    the row is stamped with the time and the date string. *)
Lemma eval_alert_earnings_cases (cfg : Config) (env : Env) (ticker : string)
  (price open_ pct : option float) (next_earn : option string) (now : Z)
  (a : AlertRow) (w : World) :
  a_type a = "earnings_days"%string ->
  let out := eval_alert cfg env ticker price open_ pct next_earn now a w in
  (out.1 = Ok 0
   /\ alert_state out.2 = alert_state w
   /\ notified out.2 = notified w)
  \/ (exists key earn_date,
        next_earn = Some key /\ key <> ""%string
        /\ strptime_ymd env (prefix 10 key) = Some earn_date
        /\ int_of_float (a_val a) = Ok (earn_date - today_of env w)
        /\ stored_key w (alert_id a) <> Some key
        /\ out.1 = Ok 1
        /\ last_post_accepted out.2
        /\ notified out.2 = notified w ++ [alert_id a]
        /\ alert_state out.2 !! alert_id a
           = Some {| last_sent_epoch := Some now; last_sent_key := Some key |}
        /\ forall other, other <> alert_id a ->
             alert_state out.2 !! other = alert_state w !! other).
Proof.
  intros Hkind out. subst out.
  rewrite eval_alert_earnings_run by exact Hkind.
  destruct (truthy next_earn) eqn:Htruthy; cbn [negb];
    [|left; repeat split].
  destruct (truthy_some _ Htruthy) as (key & -> & Hne). cbn [or_empty].
  destruct (strptime_ymd env (prefix 10 key)) as [earn_date|] eqn:Hparse;
    [|left; repeat split].
  cbv zeta.
  destruct (int_of_float (a_val a)) as [value|exc] eqn:Hval;
    [|left; repeat split].
  destruct (earn_date - today_of env w =? value) eqn:Hdays;
    [|left; repeat split].
  apply Z.eqb_eq in Hdays.
  destruct (bool_decide (stored_key (with_local_reads (S (local_reads w)) w)
                           (alert_id a) = Some key)) eqn:Hkey; cbn [negb];
    [left; repeat split|].
  apply bool_decide_eq_false in Hkey.
  destruct (notify_discord_run cfg env (earnings_msg ticker value key)
              (with_local_reads (S (local_reads w)) w))
    as (ok & w' & Hrun & Hst & Hnot & _ & Hacc & _).
  rewrite Hrun. destruct ok.
  - right. exists key, earn_date. cbn [fst snd].
    split; [reflexivity|]. split; [exact Hne|]. split; [exact Hparse|].
    split; [congruence|]. split; [exact Hkey|]. split; [reflexivity|].
    split; [exact (Hacc eq_refl)|].
    split; [cbn; rewrite Hnot; reflexivity|].
    split; [cbn; apply lookup_insert_eq|].
    intros other Hother. cbn. rewrite lookup_insert_ne by congruence.
    rewrite Hst. reflexivity.
  - left. cbn [fst snd]. repeat split; assumption.
Qed.








(** The reminder of the examples arms again when the date moves to
    2025-10-31 and the day to 2025-10-28. *)
Example earnings_rearms :
  let w1 := (visit_out Demo.config Demo.env earnings_rule first_visit).2 in
  let tuesday : Env :=
    {| clock := clock Demo.env;
       local_clock := fun _ =>
         {| weekday := 1; hour := 9; minute := 35; second := 0;
            microsecond := 0; ordinal := Demo.to_ordinal 2025 10 28;
            stamp := "2025-10-28 09:35:00 EDT" |};
       strptime_ymd := strptime_ymd Demo.env;
       int_of_str := int_of_str Demo.env; http_post := http_post Demo.env;
       provider_get_full := provider_get_full Demo.env;
       select_watchlist := select_watchlist Demo.env;
       thread_start := thread_start Demo.env |} in
  stored_key w1 8 = Some "2025-10-30"%string
  /\ (eval_alert Demo.config tuesday "A" None None None
        (Some "2025-10-31"%string) (1761572100 + 60) earnings_rule w1).1
     = Ok 1.
Proof. vm_compute. split; reflexivity. Qed.

(** *** A whole call of the evaluator *)

(** The call is the loop over the rules of the symbol. *)
Lemma evaluate_and_notify_loop (cfg : Config) (env : Env) (symbol_id : Z)
  (ticker : string) (q : Quote.t) (now : Z) (w : World) :
  _evaluate_and_notify cfg env symbol_id ticker (Some q) now w =
    eval_alerts cfg env ticker (Quote.price q) (Quote.open_ q)
      (pct_from_open_of (Quote.price q) (Quote.open_ q)) (next_earn_of q) now
      (select_alerts symbol_id w) 0 w.
Proof.
  unfold _evaluate_and_notify. rewrite bind_run. unfold_m. cbn [fst snd].
  destruct (select_alerts symbol_id w); reflexivity.
Qed.

(** What a turn of the loop does to the suppression state and to the
    count, whatever the kind of the rule. *)
Lemma eval_alert_effect (cfg : Config) (env : Env) (ticker : string)
  (price open_ pct : option float) (next_earn : option string) (now : Z)
  (a : AlertRow) (w : World) :
  let out := eval_alert cfg env ticker price open_ pct next_earn now a w in
  (out.1 = Ok 0
   /\ alert_state out.2 = alert_state w
   /\ notified out.2 = notified w)
  \/ (out.1 = Ok 1
      /\ notified out.2 = notified w ++ [alert_id a]
      /\ stored_epoch out.2 (alert_id a) = Some now
      /\ forall other, other <> alert_id a ->
           alert_state out.2 !! other = alert_state w !! other).
Proof.
  intros out. subst out.
  destruct (String.eqb (a_type a) "earnings_days") eqn:Hkind.
  - apply String.eqb_eq in Hkind.
    destruct (eval_alert_earnings_cases cfg env ticker price open_ pct
                next_earn now a w Hkind)
      as [H | (key & e & _ & _ & _ & _ & _ & Hout & _ & Hnot & Hrow & Hother)].
    + left. exact H.
    + right. split; [exact Hout|]. split; [exact Hnot|].
      split; [|exact Hother]. unfold stored_epoch. rewrite Hrow. reflexivity.
  - rewrite eval_alert_cooldown_run by exact Hkind.
    destruct (negb (_cooldown_ok cfg (stored_epoch w (alert_id a)) now));
      [left; repeat split|].
    cbv zeta.
    destruct (truthy (trigger_of (a_type a) (a_val a) price pct));
      [|left; repeat split].
    destruct (notify_discord_run cfg env
                (_build_alert_msg ticker price open_ pct
                   (or_empty (trigger_of (a_type a) (a_val a) price pct))) w)
      as (ok & w' & Hrun & Hst & Hnot & _).
    rewrite Hrun. destruct ok.
    + right. cbn [fst snd]. split; [reflexivity|].
      split; [cbn; rewrite Hnot; reflexivity|].
      split.
      * unfold stored_epoch. cbn. rewrite lookup_insert_eq. reflexivity.
      * intros other Hne. cbn. rewrite lookup_insert_ne by congruence.
        rewrite Hst. reflexivity.
    + left. cbn [fst snd]. repeat split; assumption.
Qed.

Lemma count_where_app {A} (p : A -> bool) (l1 l2 : list A) :
  count_where p (l1 ++ l2) = count_where p l1 + count_where p l2.
Proof. induction l1 as [|x l1 IH]; cbn; [reflexivity|]. rewrite IH. lia. Qed.

(** The rules with another id leave the row and the count of a rule
    alone. *)
Lemma eval_alerts_other_rules (cfg : Config) (env : Env) (ticker : string)
  (price open_ pct : option float) (next_earn : option string) (now : Z)
  (id : Z) (rows : list AlertRow) (sent : Z) (w : World) :
  id ∉ map alert_id rows ->
  let out := eval_alerts cfg env ticker price open_ pct next_earn now rows
               sent w in
  alert_state out.2 !! id = alert_state w !! id
  /\ count_where (Z.eqb id) (notified out.2)
     = count_where (Z.eqb id) (notified w).
Proof.
  revert sent w. induction rows as [|a rest IH]; intros sent w Hnot out;
    subst out; [split; reflexivity|].
  cbn [map] in Hnot. apply not_elem_of_cons in Hnot as [Hne Hrest].
  cbn [eval_alerts]. rewrite bind_run.
  pose proof (eval_alert_effect cfg env ticker price open_ pct next_earn now a w)
    as Heff. cbv zeta in Heff.
  destruct (eval_alert cfg env ticker price open_ pct next_earn now a w)
    as [res w1]. cbn [fst snd] in Heff.
  destruct Heff as [(-> & Hst & Hn) | (-> & Hn & _ & Hother)].
  - destruct (IH (sent + 0) w1 Hrest) as [IH1 IH2]. rewrite IH1, IH2.
    rewrite Hst, Hn. split; reflexivity.
  - destruct (IH (sent + 1) w1 Hrest) as [IH1 IH2]. rewrite IH1, IH2.
    rewrite (Hother id Hne), Hn, count_where_app. cbn [count_where].
    apply Z.eqb_neq in Hne. rewrite Hne. split; [reflexivity | lia].
Qed.

(** A rule in its cooldown window stays silent through the whole
    loop, whatever the other rules do. *)
Lemma eval_alerts_silent (cfg : Config) (env : Env) (ticker : string)
  (price open_ pct : option float) (next_earn : option string) (now : Z)
  (id last : Z) (rows : list AlertRow) (sent : Z) (w : World) :
  (forall a, a ∈ rows -> alert_id a = id -> cooldown_kind (a_type a)) ->
  stored_epoch w id = Some last ->
  now - last < COOLDOWN_MINUTES cfg * 60 ->
  let out := eval_alerts cfg env ticker price open_ pct next_earn now rows
               sent w in
  stored_epoch out.2 id = Some last
  /\ count_where (Z.eqb id) (notified out.2)
     = count_where (Z.eqb id) (notified w).
Proof.
  revert sent w. induction rows as [|a rest IH];
    intros sent w Hkinds Hlast Hfresh out; subst out;
    [split; [exact Hlast | reflexivity]|].
  assert (Hkinds' : forall b, b ∈ rest -> alert_id b = id ->
                              cooldown_kind (a_type b)).
  { intros b Hb. apply Hkinds. apply list_elem_of_further. exact Hb. }
  cbn [eval_alerts]. rewrite bind_run.
  destruct (decide (alert_id a = id)) as [Hid | Hid].
  - pose proof (Hkinds a (list_elem_of_here _ _) Hid) as Hcool.
    rewrite (cooldown_skip cfg env a Hcool ticker price open_ pct next_earn
               now w last) by (rewrite ?Hid; assumption).
    apply IH; assumption.
  - pose proof (eval_alert_effect cfg env ticker price open_ pct next_earn
                  now a w) as Heff. cbv zeta in Heff.
    destruct (eval_alert cfg env ticker price open_ pct next_earn now a w)
      as [res w1]. cbn [fst snd] in Heff.
    destruct Heff as [(-> & Hst & Hn) | (-> & Hn & _ & Hother)].
    + destruct (IH (sent + 0) w1 Hkinds') as [IH1 IH2];
        [unfold stored_epoch; rewrite Hst; exact Hlast | exact Hfresh |].
      rewrite IH1, IH2, Hn. split; reflexivity.
    + destruct (IH (sent + 1) w1 Hkinds') as [IH1 IH2];
        [unfold stored_epoch; rewrite (Hother id) by congruence; exact Hlast
        | exact Hfresh |].
      rewrite IH1, IH2, Hn, count_where_app. cbn [count_where].
      assert (Hne : (id =? alert_id a) = false) by (apply Z.eqb_neq; congruence).
      rewrite Hne. split; [reflexivity | lia].
Qed.

(** With rule ids that are distinct, the loop counts at most one
    notification for a rule id, and one only with the row stamped. *)
Lemma eval_alerts_once (cfg : Config) (env : Env) (ticker : string)
  (price open_ pct : option float) (next_earn : option string) (now : Z)
  (id : Z) (rows : list AlertRow) (sent : Z) (w : World) :
  NoDup (map alert_id rows) ->
  let out := eval_alerts cfg env ticker price open_ pct next_earn now rows
               sent w in
  (count_where (Z.eqb id) (notified out.2)
   = count_where (Z.eqb id) (notified w))
  \/ (count_where (Z.eqb id) (notified out.2)
      = count_where (Z.eqb id) (notified w) + 1
      /\ stored_epoch out.2 id = Some now).
Proof.
  revert sent w. induction rows as [|a rest IH]; intros sent w Hnodup out;
    subst out; [left; reflexivity|].
  cbn [map] in Hnodup. apply NoDup_cons in Hnodup as [Hfresh Hnodup].
  cbn [eval_alerts]. rewrite bind_run.
  pose proof (eval_alert_effect cfg env ticker price open_ pct next_earn now a w)
    as Heff. cbv zeta in Heff.
  destruct (eval_alert cfg env ticker price open_ pct next_earn now a w)
    as [res w1]. cbn [fst snd] in Heff.
  destruct (decide (alert_id a = id)) as [Hid | Hid].
  - rewrite Hid in Hfresh.
    destruct Heff as [(-> & Hst & Hn) | (-> & Hn & Hstamp & _)].
    + destruct (eval_alerts_other_rules cfg env ticker price open_ pct
                  next_earn now id rest (sent + 0) w1 Hfresh) as [_ Hc].
      left. rewrite Hc, Hn. reflexivity.
    + destruct (eval_alerts_other_rules cfg env ticker price open_ pct
                  next_earn now id rest (sent + 1) w1 Hfresh) as [Hrow Hc].
      right. rewrite Hc, Hn, count_where_app. cbn [count_where].
      rewrite Hid, Z.eqb_refl. split; [lia|].
      unfold stored_epoch in *. rewrite Hrow, <- Hid. exact Hstamp.
  - assert (Hne : (id =? alert_id a) = false) by (apply Z.eqb_neq; congruence).
    destruct Heff as [(-> & Hst & Hn) | (-> & Hn & _ & _)].
    + destruct (IH (sent + 0) w1 Hnodup) as [Hc | [Hc Hs]];
        [left | right; split; [|exact Hs]]; rewrite Hc, Hn; reflexivity.
    + destruct (IH (sent + 1) w1 Hnodup) as [Hc | [Hc Hs]];
        [left | right; split; [|exact Hs]];
        rewrite Hc, Hn, count_where_app; cbn [count_where]; rewrite Hne; lia.
Qed.

Lemma select_alerts_elem (symbol_id : Z) (w : World) (a : AlertRow) :
  a ∈ select_alerts symbol_id w -> a ∈ alerts w.
Proof.
  unfold select_alerts. intros H. apply list_elem_of_filter in H. tauto.
Qed.

Lemma select_alerts_nodup (symbol_id : Z) (w : World) :
  NoDup (map alert_id (alerts w)) ->
  NoDup (map alert_id (select_alerts symbol_id w)).
Proof.
  unfold select_alerts. induction (alerts w) as [|a rest IH]; intros Hnodup;
    [constructor|].
  cbn [map] in Hnodup. apply NoDup_cons in Hnodup as [Hfresh Hnodup].
  rewrite filter_cons. destruct (decide (alert_symbol a = symbol_id)).
  - cbn [map]. apply NoDup_cons. split; [|apply IH; exact Hnodup].
    intros Hin. apply Hfresh.
    apply list_elem_of_fmap in Hin as (b & Hb & Hin).
    apply list_elem_of_filter in Hin as [_ Hin].
    apply list_elem_of_fmap. exists b. split; assumption.
  - apply IH. exact Hnodup.
Qed.

(** Two calls of [_evaluate_and_notify], the second less than the
    cooldown window after the first and from the stored epoch the first
    left for the rule: over both calls at most one notification is
    counted for a rule id whose rules are of a cooldown kind, whatever
    the other rules of the symbols. *)
Lemma evaluate_and_notify_cooldown (cfg : Config) (env : Env) (id : Z)
  (symbol1 symbol2 : Z) (ticker1 ticker2 : string) (q1 q2 : Quote.t)
  (now1 now2 : Z) (w1 w2 : World) :
  NoDup (map alert_id (alerts w1)) ->
  NoDup (map alert_id (alerts w2)) ->
  (forall a, a ∈ alerts w2 -> alert_id a = id -> cooldown_kind (a_type a)) ->
  let out1 := _evaluate_and_notify cfg env symbol1 ticker1 (Some q1) now1 w1 in
  let out2 := _evaluate_and_notify cfg env symbol2 ticker2 (Some q2) now2 w2 in
  stored_epoch w2 id = stored_epoch out1.2 id ->
  now2 - now1 < COOLDOWN_MINUTES cfg * 60 ->
  (count_where (Z.eqb id) (notified out1.2)
   - count_where (Z.eqb id) (notified w1))
  + (count_where (Z.eqb id) (notified out2.2)
     - count_where (Z.eqb id) (notified w2)) <= 1.
Proof.
  intros Hnd1 Hnd2 Hkinds out1 out2 Hlink Hfresh. subst out1 out2.
  rewrite !evaluate_and_notify_loop in *.
  destruct (eval_alerts_once cfg env ticker1 (Quote.price q1) (Quote.open_ q1)
              (pct_from_open_of (Quote.price q1) (Quote.open_ q1))
              (next_earn_of q1) now1 id (select_alerts symbol1 w1) 0 w1
              (select_alerts_nodup symbol1 w1 Hnd1)) as [Hc1 | [Hc1 Hstamp]].
  - destruct (eval_alerts_once cfg env ticker2 (Quote.price q2)
                (Quote.open_ q2)
                (pct_from_open_of (Quote.price q2) (Quote.open_ q2))
                (next_earn_of q2) now2 id (select_alerts symbol2 w2) 0 w2
                (select_alerts_nodup symbol2 w2 Hnd2)) as [Hc2 | [Hc2 _]];
      lia.
  - rewrite Hstamp in Hlink.
    destruct (eval_alerts_silent cfg env ticker2 (Quote.price q2)
                (Quote.open_ q2)
                (pct_from_open_of (Quote.price q2) (Quote.open_ q2))
                (next_earn_of q2) now2 id now1 (select_alerts symbol2 w2) 0 w2)
      as [_ Hc2]; [| exact Hlink | exact Hfresh | lia].
    intros a Ha. apply Hkinds. apply select_alerts_elem in Ha. exact Ha.
Qed.

(** *** Cooldown: the claim *)

(** C1. For a rule of a cooldown kind:
    - an evaluation less than the cooldown window after the stored
      [last_sent_epoch] is skipped: nothing is posted, nothing is counted
      and the store is as before;
    - an evaluation counts no notification and leaves the suppression
      state alone, or counts one, after a post the webhook accepted, and
      stamps [last_sent_epoch] with the time of the evaluation;
    - of two evaluations of the rule, the second less than the window
      after the first and from the stored epoch the first left, at most
      one counts a notification;
    - the same over two whole calls of [_evaluate_and_notify], among the
      other rules of the symbols, when rule ids are distinct. *)
Theorem cooldown_at_most_one (cfg : Config) (env : Env) (a : AlertRow) :
  cooldown_kind (a_type a) ->
  (forall ticker price open_ pct next_earn now w last,
     stored_epoch w (alert_id a) = Some last ->
     now - last < COOLDOWN_MINUTES cfg * 60 ->
     eval_alert cfg env ticker price open_ pct next_earn now a w = (Ok 0, w))
  /\ (forall ticker price open_ pct next_earn now w,
        let out := eval_alert cfg env ticker price open_ pct next_earn now a w in
        (out.1 = Ok 0
         /\ alert_state out.2 = alert_state w
         /\ notified out.2 = notified w)
        \/ (out.1 = Ok 1
            /\ last_post_accepted out.2
            /\ notified out.2 = notified w ++ [alert_id a]
            /\ stored_epoch out.2 (alert_id a) = Some now
            /\ forall other, other <> alert_id a ->
                 alert_state out.2 !! other = alert_state w !! other))
  /\ (forall ticker price1 open1 pct1 next1 now1 w1
             price2 open2 pct2 next2 now2 w2,
        let out1 :=
          eval_alert cfg env ticker price1 open1 pct1 next1 now1 a w1 in
        let out2 :=
          eval_alert cfg env ticker price2 open2 pct2 next2 now2 a w2 in
        stored_epoch w2 (alert_id a) = stored_epoch out1.2 (alert_id a) ->
        now2 - now1 < COOLDOWN_MINUTES cfg * 60 ->
        exists n1 n2,
          out1.1 = Ok n1 /\ out2.1 = Ok n2
          /\ 0 <= n1 /\ 0 <= n2 /\ n1 + n2 <= 1)
  /\ (forall symbol1 symbol2 ticker1 ticker2 q1 q2 now1 now2 w1 w2,
        NoDup (map alert_id (alerts w1)) ->
        NoDup (map alert_id (alerts w2)) ->
        (forall b, b ∈ alerts w2 -> alert_id b = alert_id a ->
                   cooldown_kind (a_type b)) ->
        let out1 :=
          _evaluate_and_notify cfg env symbol1 ticker1 (Some q1) now1 w1 in
        let out2 :=
          _evaluate_and_notify cfg env symbol2 ticker2 (Some q2) now2 w2 in
        stored_epoch w2 (alert_id a) = stored_epoch out1.2 (alert_id a) ->
        now2 - now1 < COOLDOWN_MINUTES cfg * 60 ->
        (count_where (Z.eqb (alert_id a)) (notified out1.2)
         - count_where (Z.eqb (alert_id a)) (notified w1))
        + (count_where (Z.eqb (alert_id a)) (notified out2.2)
           - count_where (Z.eqb (alert_id a)) (notified w2)) <= 1).
Proof.
  intros Hcool.
  pose proof (cooldown_kind_not_earnings _ Hcool) as Hkind.
  assert (Hskip : forall ticker price open_ pct next_earn now w last,
     stored_epoch w (alert_id a) = Some last ->
     now - last < COOLDOWN_MINUTES cfg * 60 ->
     eval_alert cfg env ticker price open_ pct next_earn now a w = (Ok 0, w)).
  { apply cooldown_skip. exact Hcool. }
  assert (Hone : forall ticker price open_ pct next_earn now w,
        let out := eval_alert cfg env ticker price open_ pct next_earn now a w in
        (out.1 = Ok 0
         /\ alert_state out.2 = alert_state w
         /\ notified out.2 = notified w)
        \/ (out.1 = Ok 1
            /\ last_post_accepted out.2
            /\ notified out.2 = notified w ++ [alert_id a]
            /\ stored_epoch out.2 (alert_id a) = Some now
            /\ forall other, other <> alert_id a ->
                 alert_state out.2 !! other = alert_state w !! other)).
  { intros ticker price open_ pct next_earn now w out. subst out.
    rewrite eval_alert_cooldown_run by exact Hkind.
    destruct (negb (_cooldown_ok cfg (stored_epoch w (alert_id a)) now));
      [left; repeat split|].
    cbv zeta.
    destruct (truthy (trigger_of (a_type a) (a_val a) price pct));
      [|left; repeat split].
    destruct (notify_discord_run cfg env
                (_build_alert_msg ticker price open_ pct
                   (or_empty (trigger_of (a_type a) (a_val a) price pct))) w)
      as (ok & w' & Hrun & Hst & Hnot & _ & Hacc & _).
    rewrite Hrun. destruct ok.
    - right. cbn [fst snd]. split; [reflexivity|].
      split; [exact (Hacc eq_refl)|].
      split; [cbn; rewrite Hnot; reflexivity|].
      split.
      + unfold stored_epoch. cbn. rewrite lookup_insert_eq. reflexivity.
      + intros other Hne. cbn. rewrite lookup_insert_ne by congruence.
        rewrite Hst. reflexivity.
    - left. cbn [fst snd]. repeat split; assumption. }
  split; [exact Hskip|]. split; [exact Hone|].
  split; [|intros; apply evaluate_and_notify_cooldown; assumption].
  intros ticker price1 open1 pct1 next1 now1 w1 price2 open2 pct2 next2 now2
    w2 out1 out2 Hlink Hfresh.
  destruct (Hone ticker price1 open1 pct1 next1 now1 w1)
    as [(H1 & _) | (H1 & _ & _ & Hstamp & _)]; fold out1 in H1.
  - destruct (Hone ticker price2 open2 pct2 next2 now2 w2)
      as [(H2 & _) | (H2 & _)]; fold out2 in H2.
    + exists 0, 0. repeat split; try assumption; lia.
    + exists 0, 1. repeat split; try assumption; lia.
  - fold out1 in Hstamp. rewrite Hstamp in Hlink.
    exists 1, 0. split; [exact H1|]. split.
    + subst out2.
      rewrite (Hskip ticker price2 open2 pct2 next2 now2 w2 now1 Hlink Hfresh).
      reflexivity.
    + repeat split; lia.
Qed.

Lemma cooldown_at_most_one_witness :
  let out1 :=
    eval_alert Demo.config Demo.env "A" (Some 101%float) (Some 100%float)
      (Some 1%float) None 1761572100 above_rule Demo.world in
  let out2 :=
    eval_alert Demo.config Demo.env "A" (Some 102%float) (Some 100%float)
      (Some 2%float) None (1761572100 + 60) above_rule out1.2 in
  out1.1 = Ok 1 /\ out2 = (Ok 0, out1.2).
Proof.
  destruct (cooldown_at_most_one Demo.config Demo.env above_rule)
    as (Hskip & _ & _).
  - apply list_elem_of_here.
  - split; [vm_compute; reflexivity|].
    apply (Hskip "A"%string (Some 102%float) (Some 100%float) (Some 2%float)
             None (1761572100 + 60) _ 1761572100).
    + vm_compute. reflexivity.
    + vm_compute. reflexivity.
Defined.

(* ===================================================================== *)
(** ** Further properties of the code *)
(* ===================================================================== *)

(** *** Startup recovery and manual reset *)

(** The on-demand trigger on a record that is not running: the guard
    lets it through and the answer follows the start of the thread. *)
Lemma update_all_not_running (cfg : Config) (env : Env) (w : World) :
  (forall rs, run_status w = Some rs -> phase rs <> Some "running"%string) ->
  api_update_all cfg env w =
    match thread_start env (length (workers w)) with
    | Ok _ => (Ok "started"%string, with_workers (workers w ++ [true]) w)
    | Raise _ => (Ok "error"%string, with_workers (workers w ++ [false]) w)
    end.
Proof.
  intros Hnot. rewrite api_update_all_run. cbv zeta.
  rewrite (auto_recover_not_running cfg env w Hnot). cbn [snd].
  destruct (run_status w) as [rs|] eqn:Hrow; [|reflexivity].
  specialize (Hnot rs eq_refl). apply is_running_false in Hnot.
  rewrite Hnot. reflexivity.
Qed.

(** X1.  The recovery run at startup finishes a record left running,
    whatever its age and also when it has no start time: the phase
    becomes finished, the status code interrupted, the finish time is
    the clock reading, and the start time and the counts stay.  A record
    that is not running is left as it is.  Run again on its own result
    the recovery changes nothing, and after it the on-demand trigger is
    never answered already_running. *)
Theorem startup_recovery (cfg : Config) (env : Env) (w : World) :
  let out := _recover_stuck_run_status env w in
  out.1 = Ok tt
  /\ (forall rs, run_status w = Some rs -> is_running rs = true ->
        run_status out.2 =
          Some {| phase := Some "finished"%string;
                  started_epoch := started_epoch rs;
                  finished_epoch := Some (clock env (time_reads w));
                  status_code := Some "interrupted"%string;
                  message :=
                    Some ("Previous run did not finish "
                          +:+ "(server restarted).")%string;
                  ok_count := ok_count rs;
                  err_count := err_count rs |})
  /\ ((forall rs, run_status w = Some rs -> is_running rs = false) ->
        out.2 = w)
  /\ _recover_stuck_run_status env out.2 = (Ok tt, out.2)
  /\ (api_update_all cfg env out.2).1 <> Ok "already_running"%string.
Proof.
  intros out.
  assert (Hout : out = _recover_stuck_run_status env w) by reflexivity.
  clearbody out. unfold _recover_stuck_run_status in Hout. unfold_m.
  unfold time_time, update_run_status in Hout.
  cbn [run_status with_time_reads] in Hout.
  assert (Hstop : forall w' : World,
            (forall rs, run_status w' = Some rs -> is_running rs = false) ->
            _recover_stuck_run_status env w' = (Ok tt, w')
            /\ (api_update_all cfg env w').1 <> Ok "already_running"%string).
  { intros w' Hnot. split.
    - unfold _recover_stuck_run_status. unfold_m.
      destruct (run_status w') as [rs'|] eqn:Hrow'; [|reflexivity].
      rewrite (Hnot rs' eq_refl). reflexivity.
    - rewrite update_all_not_running.
      + destruct (thread_start env (length (workers w'))); cbn; discriminate.
      + intros rs' Hrow'. apply is_running_false, Hnot, Hrow'. }
  destruct (run_status w) as [rs|] eqn:Hrow.
  - destruct (is_running rs) eqn:Hrun; cbv beta iota in Hout.
    + rewrite Hrow in Hout. subst out. cbn [fst snd].
      split; [reflexivity|]. split; [intros rs' [= <-] _; reflexivity|].
      split; [intros Hnot; specialize (Hnot rs eq_refl); congruence|].
      apply Hstop. intros rs' [= <-]. reflexivity.
    + subst out. cbn [fst snd]. split; [reflexivity|].
      split; [intros rs' [= <-]; congruence|]. split; [reflexivity|].
      apply Hstop. intros rs' Hrs'.
      pose proof (eq_trans (eq_sym Hrow) Hrs') as Heq.
      injection Heq as <-. exact Hrun.
  - subst out. cbn [fst snd]. split; [reflexivity|].
    split; [discriminate|].
    split; [reflexivity|]. apply Hstop.
    intros rs' Hrs'. pose proof (eq_trans (eq_sym Hrow) Hrs'). discriminate.
Qed.

(** X2.  The manual reset finishes the record from any phase, a running
    one included: status code manual_reset, the finish time read from
    the clock, start time and counts kept.  It starts and stops no
    worker, and the on-demand trigger that follows is not refused: its
    answer is started, or error when the thread cannot start. *)
Theorem manual_reset_unlocks (cfg : Config) (env : Env) (w : World) :
  let out := api_run_status_reset env w in
  out.1 = Ok "ok"%string
  /\ (forall rs, run_status w = Some rs ->
        run_status out.2 =
          Some {| phase := Some "finished"%string;
                  started_epoch := started_epoch rs;
                  finished_epoch := Some (clock env (time_reads w));
                  status_code := Some "manual_reset"%string;
                  message := Some "Manually reset by user"%string;
                  ok_count := ok_count rs;
                  err_count := err_count rs |})
  /\ workers out.2 = workers w
  /\ api_update_all cfg env out.2 =
       match thread_start env (length (workers w)) with
       | Ok _ =>
           (Ok "started"%string, with_workers (workers w ++ [true]) out.2)
       | Raise _ =>
           (Ok "error"%string, with_workers (workers w ++ [false]) out.2)
       end.
Proof.
  intros out.
  assert (Hout : out = api_run_status_reset env w) by reflexivity.
  clearbody out.
  unfold api_run_status_reset, _force_finish_run_status, set_run_status,
    update_run_status, time_time in Hout.
  unfold_m. cbn [run_status with_time_reads] in Hout.
  assert (Hw : workers out.2 = workers w).
  { subst out. destruct (run_status w); reflexivity. }
  assert (Hnot : forall rs, run_status out.2 = Some rs ->
                            phase rs <> Some "running"%string).
  { subst out. destruct (run_status w) as [rs|] eqn:Hrow; cbn.
    - intros rs' [= <-]. cbn. discriminate.
    - intros rs' Hrs'. pose proof (eq_trans (eq_sym Hrow) Hrs'). discriminate. }
  split; [subst out; destruct (run_status w); reflexivity|].
  split.
  { intros rs Hrow. rewrite Hrow in Hout. subst out. reflexivity. }
  split; [exact Hw|].
  rewrite (update_all_not_running cfg env out.2 Hnot), Hw. reflexivity.
Qed.

(** *** Frames of the bulk routine *)

Lemma preserves_lift (R : World -> World -> Prop) {A} (m : M World A) :
  preserves R m -> preserves (on_world R) (lift m).
Proof.
  intros Hm [l w]. unfold on_world, lift. cbn [fst snd].
  specialize (Hm w). destruct (m w) as [r w']. exact Hm.
Qed.

Lemma preserves_update_locals (R : World -> World -> Prop) `{!Reflexive R}
  (f : Locals -> Locals) :
  preserves (on_world R) (update_locals f).
Proof. intros [l w]. unfold on_world. cbn. reflexivity. Qed.

#[global] Instance on_world_refl (R : World -> World -> Prop) `{!Reflexive R} :
  Reflexive (on_world R).
Proof. intros s. unfold on_world. reflexivity. Qed.

#[global] Instance on_world_trans (R : World -> World -> Prop)
  `{!Transitive R} : Transitive (on_world R).
Proof. intros a b c. unfold on_world. apply transitivity. Qed.

(** A relation between stores that every step of [check_alerts] keeps
    is kept by the whole routine.  The snapshot writes are those of the
    symbols of the watchlist: [ids]. *)
Section BulkFrame.

Context (cfg : Config) (env : Env).
Context (R : World -> World -> Prop) `{!Reflexive R, !Transitive R}.
Context (ids : Z -> Prop).

Hypothesis R_time : preserves R (time_time env).
Hypothesis R_local : preserves R (now_et env).
Hypothesis R_watch : preserves R (read_watchlist env).
Hypothesis R_fetch : forall t, preserves R (provider_call env t).
Hypothesis R_status : forall phase_ started finished code msg ok err,
  preserves R (set_run_status phase_ started finished code msg ok err).
Hypothesis R_eval : forall id t q now,
  preserves R (_evaluate_and_notify cfg env id t q now).
Hypothesis R_upsert : forall id win note d,
  ids id -> preserves R (upsert_symbol_state_full env id win note d).

Lemma bulk_symbol_keeps (et_now : datetime) (window_ok : bool)
  (row : Z * string) :
  ids row.1 ->
  preserves (on_world R) (bulk_symbol cfg env et_now window_ok row).
Proof.
  intros Hid. unfold bulk_symbol.
  repeat first
    [ simple apply preserves_lift
    | simple apply preserves_update_locals; solve [typeclasses eauto]
    | simple apply R_time
    | simple apply R_fetch
    | simple apply R_eval
    | simple apply R_upsert; exact Hid
    | frame_step ].
Qed.

Lemma bulk_loop_keeps (et_now : datetime) (window_ok : bool)
  (rows : list (Z * string)) :
  Forall (fun row => ids row.1) rows ->
  preserves (on_world R) (bulk_loop cfg env et_now window_ok rows).
Proof.
  induction rows as [|row rest IH]; intros Hids; cbn [bulk_loop].
  - frame_step.
  - apply Forall_cons in Hids as [Hid Hids].
    frame_step; [apply bulk_symbol_keeps; exact Hid | apply IH; exact Hids].
Qed.

Lemma check_alerts_try_keeps (l : Locals) (w : World) :
  (forall rows, select_watchlist env (watch_reads w) = Ok rows ->
                Forall (fun row => ids row.1) rows) ->
  R w (try_except (check_alerts_try cfg env) (fun _ => mret tt) (l, w)).2.2.
Proof.
  intros Hrows. pose proof (R_watch w) as Hw.
  unfold try_except, check_alerts_try. rewrite bind_run.
  unfold lift at 1. unfold read_watchlist in *. cbn [fst snd] in *.
  destruct (select_watchlist env (watch_reads w)) as [rows|e];
    [|exact Hw].
  specialize (Hrows rows eq_refl).
  set (w' := with_watch_reads (S (watch_reads w)) w) in *.
  assert (Hrest : forall m : M Frame unit,
            preserves (on_world R) m ->
            R w (match m (l, w') with
                 | (Ok a, s') => (Ok a, s')
                 | (Raise _, s') => (Ok tt, s')
                 end).2.2).
  { intros m Hm. specialize (Hm (l, w')). unfold on_world in Hm.
    cbn [snd] in Hm.
    destruct (m (l, w')) as [[a|e] s']; cbn [snd] in *;
      (etransitivity; [exact Hw | exact Hm]). }
  destruct rows as [|row rest]; apply Hrest.
  - repeat first [ simple apply preserves_lift | simple apply R_time
                 | simple apply R_status | frame_step ].
  - frame_step; [apply preserves_lift, R_local|].
    apply bulk_loop_keeps. exact Hrows.
Qed.

Lemma check_alerts_keeps (w : World) :
  (forall rows, select_watchlist env (watch_reads w) = Ok rows ->
                Forall (fun row => ids row.1) rows) ->
  R w (check_alerts cfg env w).2.
Proof.
  intros Hrows. unfold check_alerts. rewrite bind_run.
  pose proof (R_time w) as H0.
  destruct (time_time env w) as [[started|e] w0] eqn:Htime;
    [|exact H0]. cbn [snd] in H0.
  assert (Hreads0 : watch_reads w0 = watch_reads w).
  { unfold time_time in Htime. injection Htime as _ <-. reflexivity. }
  rewrite bind_run.
  pose proof (R_status "running"%string (Some started) None None
                (Some "Updating quotes…"%string) (Some 0) (Some 0) w0) as H1.
  assert (Hreads1 :
            watch_reads
              (set_run_status "running" (Some started) None None
                 (Some "Updating quotes…") (Some 0) (Some 0) w0).2
            = watch_reads w0).
  { unfold set_run_status, update_run_status.
    destruct (run_status w0); reflexivity. }
  assert (Hok :
            (set_run_status "running" (Some started) None None
               (Some "Updating quotes…") (Some 0) (Some 0) w0).1 = Ok tt).
  { unfold set_run_status, update_run_status.
    destruct (run_status w0); reflexivity. }
  destruct (set_run_status "running" (Some started) None None
              (Some "Updating quotes…") (Some 0) (Some 0) w0) as [r1 w1].
  cbn [fst snd] in *.
  subst r1. unfold with_locals, try_finally.
  set (l0 := {| l_ok_count := 0; l_err_count := 0;
                l_rate_limited_seen := false; l_total_notified := 0 |}).
  pose proof (check_alerts_try_keeps l0 w1) as H2.
  rewrite Hreads1, Hreads0 in H2. specialize (H2 Hrows).
  destruct (try_except (check_alerts_try cfg env) (fun _ => mret tt) (l0, w1))
    as [res [l2 w2]]. cbn [snd] in H2.
  assert (Hfin : preserves (on_world R) (check_alerts_finally env)).
  { unfold check_alerts_finally.
    repeat first [ simple apply preserves_lift | simple apply R_time
                 | simple apply R_status | frame_step ]. }
  specialize (Hfin (l2, w2)). unfold on_world in Hfin. cbn [snd] in Hfin.
  destruct (check_alerts_finally env (l2, w2)) as [[[]|e] [l3 w3]];
    cbn [snd] in *;
    (etransitivity; [exact H0|]); (etransitivity; [exact H1|]);
    (etransitivity; [exact H2 | exact Hfin]).
Qed.

End BulkFrame.

(** *** No webhook, no notification *)

#[global] Instance quiet_refl : Reflexive quiet.
Proof. intros w. repeat split. Qed.

#[global] Instance quiet_trans : Transitive quiet.
Proof.
  intros a b c (?&?&?) (?&?&?). unfold quiet. repeat split; congruence.
Qed.

Lemma eval_alert_unconfigured (cfg : Config) (env : Env) (ticker : string)
  (price open_ pct : option float) (next_earn : option string) (now : Z)
  (a : AlertRow) (w : World) :
  DISCORD_WEBHOOK cfg = ""%string ->
  let out := eval_alert cfg env ticker price open_ pct next_earn now a w in
  out.1 = Ok 0 /\ quiet w out.2.
Proof.
  intros Hhook out. subst out.
  destruct (String.eqb (a_type a) "earnings_days") eqn:Hkind.
  - apply String.eqb_eq in Hkind.
    rewrite eval_alert_earnings_run by exact Hkind.
    destruct (negb (truthy next_earn)); [repeat split|].
    destruct (strptime_ymd env _); [|repeat split].
    cbv zeta.
    destruct (int_of_float (a_val a)); [|repeat split].
    destruct (_ =? _); [|repeat split].
    destruct (negb _); [|repeat split].
    rewrite notify_discord_unconfigured by exact Hhook. repeat split.
  - rewrite eval_alert_cooldown_run by exact Hkind.
    destruct (negb _); [repeat split|]. cbv zeta.
    destruct (truthy _); [|repeat split].
    rewrite notify_discord_unconfigured by exact Hhook. repeat split.
Qed.

Lemma eval_alerts_unconfigured (cfg : Config) (env : Env) (ticker : string)
  (price open_ pct : option float) (next_earn : option string) (now : Z)
  (rows : list AlertRow) (sent : Z) (w : World) :
  DISCORD_WEBHOOK cfg = ""%string ->
  let out := eval_alerts cfg env ticker price open_ pct next_earn now rows
               sent w in
  out.1 = Ok sent /\ quiet w out.2.
Proof.
  intros Hhook. revert sent w.
  induction rows as [|a rest IH]; intros sent w out; subst out;
    [split; reflexivity|].
  cbn [eval_alerts]. rewrite bind_run.
  destruct (eval_alert_unconfigured cfg env ticker price open_ pct next_earn
              now a w Hhook) as [Hr Hq].
  destruct (eval_alert cfg env ticker price open_ pct next_earn now a w)
    as [r w1]. cbn [fst snd] in Hr, Hq. subst r.
  destruct (IH (sent + 0) w1) as [Hr' Hq'].
  split; [rewrite Hr'; f_equal; lia | etransitivity; eassumption].
Qed.

Lemma evaluate_and_notify_unconfigured (cfg : Config) (env : Env)
  (symbol_id : Z) (ticker : string) (quote : option Quote.t) (now : Z) :
  DISCORD_WEBHOOK cfg = ""%string ->
  preserves quiet (_evaluate_and_notify cfg env symbol_id ticker quote now).
Proof.
  intros Hhook w. destruct quote as [q|].
  - rewrite evaluate_and_notify_loop.
    apply (eval_alerts_unconfigured cfg env ticker _ _ _ _ now _ 0 w Hhook).
  - unfold _evaluate_and_notify. rewrite bind_run. unfold_m. cbn [fst snd].
    destruct (select_alerts symbol_id w); reflexivity.
Qed.

(** X3.  With no webhook configured the evaluator counts nothing
    and a whole bulk run is quiet: nothing is posted, no suppression row
    is written or changed, and no notification is counted, whatever the
    rules and the quotes. *)
Theorem unconfigured_webhook_quiet (cfg : Config) (env : Env) :
  DISCORD_WEBHOOK cfg = ""%string ->
  (forall symbol_id ticker q now w,
     let out := _evaluate_and_notify cfg env symbol_id ticker (Some q) now w in
     out.1 = Ok 0 /\ quiet w out.2)
  /\ (forall w, quiet w (check_alerts cfg env w).2).
Proof.
  intros Hhook. split.
  - intros symbol_id ticker q now w out. subst out.
    rewrite evaluate_and_notify_loop.
    apply (eval_alerts_unconfigured cfg env ticker _ _ _ _ now _ 0 w Hhook).
  - intros w.
    apply (check_alerts_keeps cfg env quiet (fun _ => True)).
    + intros w'. repeat split.
    + intros w'. repeat split.
    + intros w'. repeat split.
    + intros t w'. repeat split.
    + intros ? ? ? ? ? ? ? w'. unfold set_run_status, update_run_status.
      destruct (run_status w'); repeat split.
    + intros id t q now. apply evaluate_and_notify_unconfigured, Hhook.
    + intros id win note d _ w'. repeat split.
    + intros rows _. apply Forall_forall. intros ? _. exact I.
Qed.

Lemma unconfigured_webhook_quiet_witness :
  quiet Demo.world (check_alerts default_config Demo.env Demo.world).2.
Proof.
  apply (unconfigured_webhook_quiet default_config Demo.env).
  reflexivity.
Defined.

(** *** What a bulk run leaves alone *)

(** X4.  A bulk run never edits the rules and starts no worker,
    and the only snapshots it writes are those of the symbols the
    watchlist query answered: the row of every other symbol, archived or
    unknown, is as before; all rows are when the watchlist is empty or
    cannot be read. *)
Theorem bulk_run_footprint (cfg : Config) (env : Env) (w : World) :
  let out := check_alerts cfg env w in
  alerts out.2 = alerts w
  /\ workers out.2 = workers w
  /\ forall id,
       (forall rows, select_watchlist env (watch_reads w) = Ok rows ->
                     id ∉ map fst rows) ->
       symbol_state out.2 !! id = symbol_state w !! id.
Proof.
  intros out. subst out.
  set (ids := fun id : Z =>
                exists rows, select_watchlist env (watch_reads w) = Ok rows
                             /\ id ∈ map fst rows).
  set (R := fun w1 w2 : World =>
              alerts w2 = alerts w1 /\ workers w2 = workers w1
              /\ same_outside ids w1 w2).
  assert (Hrefl : Reflexive R) by (intros x; repeat split).
  assert (Htrans : Transitive R).
  { intros a b c (?&?&H1) (?&?&H2). repeat split; try congruence.
    intros id Hid. rewrite (H2 id Hid). apply H1, Hid. }
  assert (HR : R w (check_alerts cfg env w).2).
  { apply (check_alerts_keeps cfg env R ids).
    - intros w'. repeat split.
    - intros w'. repeat split.
    - intros w'. repeat split.
    - intros t w'. repeat split.
    - intros ? ? ? ? ? ? ? w'. unfold set_run_status, update_run_status.
      destruct (run_status w'); repeat split.
    - intros id t q now w'.
      destruct (evaluate_and_notify_frame cfg env id t q now w')
        as (_ & Ha & Hs & _ & _ & _ & Hw & _).
      split; [exact Ha|]. split; [exact Hw|].
      intros id' _. rewrite Hs. reflexivity.
    - intros id win note d Hid w'. split; [reflexivity|].
      split; [reflexivity|]. intros id' Hid'. cbn.
      apply lookup_insert_ne. intros ->. exact (Hid' Hid).
    - intros rows Hsel. apply Forall_forall. intros row Hrow.
      exists rows. split; [exact Hsel|].
      apply list_elem_of_fmap. exists row. split; [reflexivity | exact Hrow]. }
  destruct HR as (Ha & Hw & Hs).
  split; [exact Ha|]. split; [exact Hw|].
  intros id Hid. apply Hs. intros (rows & Hsel & Hin).
  exact (Hid rows Hsel Hin).
Qed.

(** X5.  A bulk run whose watchlist is empty, or whose watchlist
    query raises, still ends finished with status code ok and counts 0
    and 0.  The message left is the summary of the final block; the text
    "No symbols in watchlist" written on the way is overwritten by it.
    No provider is called, no snapshot is written, nothing is
    posted. *)
Theorem bulk_run_without_symbols (cfg : Config) (env : Env) (w : World)
  (rs : RunStatus) :
  run_status w = Some rs ->
  (select_watchlist env (watch_reads w) = Ok []
   \/ exists e, select_watchlist env (watch_reads w) = Raise e) ->
  let out := check_alerts cfg env w in
  exists fin,
    run_status out.2 =
      Some {| phase := Some "finished"%string;
              started_epoch := Some (clock env (time_reads w));
              finished_epoch := Some fin;
              status_code := Some "ok"%string;
              message :=
                Some "Updated 0 symbol(s), 0 error(s); notified 0"%string;
              ok_count := Some 0;
              err_count := Some 0 |}
    /\ fetches out.2 = fetches w
    /\ symbol_state out.2 = symbol_state w
    /\ quiet w out.2.
Proof.
  intros Hrow Hsel out.
  assert (Hout : out = check_alerts cfg env w) by reflexivity.
  clearbody out.
  unfold check_alerts, with_locals, try_finally, try_except, check_alerts_try,
    check_alerts_finally, set_run_status, update_run_status, lift,
    read_watchlist, time_time in Hout.
  unfold_m.
  cbn [fst snd run_status with_time_reads with_watch_reads
       with_transitions with_run_status watch_reads] in Hout.
  rewrite Hrow in Hout.
  cbn [fst snd run_status with_time_reads with_watch_reads
       with_transitions with_run_status watch_reads] in Hout.
  destruct Hsel as [Hsel | [e Hsel]]; rewrite Hsel in Hout;
    cbn [fst snd run_status with_time_reads with_watch_reads
         with_transitions with_run_status watch_reads] in Hout;
    subst out; eexists; (split; [reflexivity|]); repeat split.
Qed.

Lemma bulk_run_without_symbols_witness :
  exists fin,
    run_status (check_alerts Demo.config unreadable_env Demo.world).2 =
      Some {| phase := Some "finished"%string;
              started_epoch := Some 1761572100;
              finished_epoch := Some fin;
              status_code := Some "ok"%string;
              message :=
                Some "Updated 0 symbol(s), 0 error(s); notified 0"%string;
              ok_count := Some 0;
              err_count := Some 0 |}.
Proof.
  destruct (bulk_run_without_symbols Demo.config unreadable_env Demo.world
              seed_run_status) as (fin & Hrow & _).
  - reflexivity.
  - right. eexists. reflexivity.
  - exists fin. exact Hrow.
Defined.

(** *** The count the evaluator answers *)

(** The loop over the rules: the count grows by one for each id it
    appends to the notifications, and these ids are stamped. *)
Lemma eval_alerts_count (cfg : Config) (env : Env) (ticker : string)
  (price open_ pct : option float) (next_earn : option string) (now : Z)
  (rows : list AlertRow) (sent : Z) (w : World) :
  let out := eval_alerts cfg env ticker price open_ pct next_earn now rows
               sent w in
  exists new,
    out.1 = Ok (sent + Z.of_nat (length new))
    /\ notified out.2 = notified w ++ new
    /\ sublist new (map alert_id rows)
    /\ forall id, id ∈ new \/ stored_epoch w id = Some now ->
                  stored_epoch out.2 id = Some now.
Proof.
  revert sent w. induction rows as [|a rest IH]; intros sent w out; subst out.
  - exists []. cbn. rewrite app_nil_r, Z.add_0_r.
    split; [reflexivity|]. split; [reflexivity|]. split; [constructor|].
    intros id [Hin | H]; [inversion Hin | exact H].
  - cbn [eval_alerts]. rewrite bind_run.
    pose proof (eval_alert_effect cfg env ticker price open_ pct next_earn
                  now a w) as Heff. cbv zeta in Heff.
    destruct (eval_alert cfg env ticker price open_ pct next_earn now a w)
      as [res w1]. cbn [fst snd] in Heff.
    destruct Heff as [(-> & Hst & Hn) | (-> & Hn & Hstamp & Hother)].
    + destruct (IH (sent + 0) w1) as (new & Hr & Hnot & Hsub & Hkeep).
      exists new. rewrite Hr, Hnot, Hn.
      split; [f_equal; lia|]. split; [reflexivity|].
      split; [cbn [map]; apply sublist_cons_r; left; exact Hsub|].
      intros id H. apply Hkeep. destruct H as [H | H]; [left; exact H|].
      right. unfold stored_epoch in *. rewrite Hst. exact H.
    + destruct (IH (sent + 1) w1) as (new & Hr & Hnot & Hsub & Hkeep).
      exists (alert_id a :: new). rewrite Hr, Hnot, Hn, <- app_assoc.
      split; [f_equal; cbn [length]; lia|]. split; [reflexivity|].
      split; [cbn [map]; apply sublist_skip; exact Hsub|].
      intros id H. apply Hkeep.
      destruct (decide (id = alert_id a)) as [-> | Hne];
        [right; exact Hstamp|].
      destruct H as [H | H].
      * apply elem_of_cons in H as [H | H]; [congruence | left; exact H].
      * right. unfold stored_epoch in *. rewrite (Hother id Hne). exact H.
Qed.

(** X6.  The number [_evaluate_and_notify] answers is the number
    of rule ids it counted as notified in that call.  Those ids are rules
    of the symbol, taken in the order of the query, so the number is at
    most the number of rules of the symbol; and every rule counted is
    left stamped with the time of the call. *)
Theorem evaluation_counts_notified (cfg : Config) (env : Env)
  (symbol_id : Z) (ticker : string) (q : Quote.t) (now : Z) (w : World) :
  let out := _evaluate_and_notify cfg env symbol_id ticker (Some q) now w in
  exists new,
    out.1 = Ok (Z.of_nat (length new))
    /\ notified out.2 = notified w ++ new
    /\ sublist new (map alert_id (select_alerts symbol_id w))
    /\ (length new <= length (select_alerts symbol_id w))%nat
    /\ forall id, id ∈ new -> stored_epoch out.2 id = Some now.
Proof.
  intros out. subst out. rewrite evaluate_and_notify_loop.
  destruct (eval_alerts_count cfg env ticker (Quote.price q) (Quote.open_ q)
              (pct_from_open_of (Quote.price q) (Quote.open_ q))
              (next_earn_of q) now (select_alerts symbol_id w) 0 w)
    as (new & Hr & Hnot & Hsub & Hkeep).
  exists new. split; [exact Hr|]. split; [exact Hnot|].
  split; [exact Hsub|]. split.
  - apply sublist_length in Hsub. rewrite length_map in Hsub. exact Hsub.
  - intros id Hin. apply Hkeep. left. exact Hin.
Qed.

(** *** The total of a bulk run *)

#[global] Instance tallies_refl : Reflexive tallies.
Proof.
  intros s. exists []. rewrite app_nil_r. cbn. split; [reflexivity | lia].
Qed.

#[global] Instance tallies_trans : Transitive tallies.
Proof.
  intros a b c (n1 & H1 & T1) (n2 & H2 & T2). exists (n1 ++ n2).
  rewrite H2, H1, <- app_assoc, T2, T1, length_app.
  split; [reflexivity | lia].
Qed.

Lemma tallies_lift {A} (m : M World A) :
  (forall w, notified (m w).2 = notified w) -> preserves tallies (lift m).
Proof.
  intros Hm [l w]. unfold lift. cbn [fst snd]. specialize (Hm w).
  destruct (m w) as [r w']. cbn [fst snd] in *. exists [].
  rewrite app_nil_r. cbn. split; [exact Hm | lia].
Qed.

Lemma tallies_update_locals (f : Locals -> Locals) :
  (forall l, l_total_notified (f l) = l_total_notified l) ->
  preserves tallies (update_locals f).
Proof.
  intros Hf [l w]. exists []. cbn. rewrite app_nil_r, Hf.
  split; [reflexivity | lia].
Qed.

Lemma tallies_evaluate (cfg : Config) (env : Env) (symbol_id : Z)
  (ticker : string) (quote : option Quote.t) (now : Z) :
  preserves tallies
    (n ← lift (_evaluate_and_notify cfg env symbol_id ticker quote now);
     update_locals (fun l =>
       {| l_ok_count := l_ok_count l; l_err_count := l_err_count l;
          l_rate_limited_seen := l_rate_limited_seen l;
          l_total_notified := l_total_notified l + n |})).
Proof.
  intros [l w]. rewrite bind_run. unfold lift. cbn [fst snd].
  destruct quote as [q|].
  - rewrite evaluate_and_notify_loop.
    destruct (eval_alerts_count cfg env ticker (Quote.price q)
                (Quote.open_ q)
                (pct_from_open_of (Quote.price q) (Quote.open_ q))
                (next_earn_of q) now (select_alerts symbol_id w) 0 w)
      as (new & Hr & Hnot & _).
    destruct (eval_alerts cfg env ticker (Quote.price q) (Quote.open_ q)
                (pct_from_open_of (Quote.price q) (Quote.open_ q))
                (next_earn_of q) now (select_alerts symbol_id w) 0 w)
      as [r w']. cbn [fst snd] in Hr, Hnot. subst r.
    exists new. cbn. split; [exact Hnot | reflexivity].
  - unfold _evaluate_and_notify. rewrite bind_run. unfold_m. cbn [fst snd].
    destruct (select_alerts symbol_id w); cbn; exists [];
      rewrite app_nil_r; cbn; split; try reflexivity; lia.
Qed.

Lemma tallies_bulk_symbol (cfg : Config) (env : Env) (et_now : datetime)
  (window_ok : bool) (row : Z * string) :
  preserves tallies (bulk_symbol cfg env et_now window_ok row).
Proof.
  unfold bulk_symbol.
  simple apply preserves_bind; [solve [typeclasses eauto] | |intros full].
  { simple apply preserves_try_except; [solve [typeclasses eauto] | |intros e].
    - apply tallies_lift. intros w. reflexivity.
    - frame_step. }
  destruct (truthy (Quote.get_error full)).
  - simple apply preserves_bind; [solve [typeclasses eauto] | |intros []].
    { destruct (String.eqb _ _); [|frame_step].
      apply tallies_update_locals. reflexivity. }
    simple apply preserves_bind; [solve [typeclasses eauto] | |intros []].
    { apply tallies_update_locals. reflexivity. }
    apply tallies_lift. intros w. reflexivity.
  - simple apply preserves_bind; [solve [typeclasses eauto] | |intros []].
    { apply tallies_update_locals. reflexivity. }
    simple apply preserves_bind; [solve [typeclasses eauto] | |intros []].
    { apply tallies_lift. intros w. reflexivity. }
    simple apply preserves_bind; [solve [typeclasses eauto] | |intros now].
    { apply tallies_lift. intros w. reflexivity. }
    apply tallies_evaluate.
Qed.

Lemma tallies_bulk_loop (cfg : Config) (env : Env) (et_now : datetime)
  (window_ok : bool) (rows : list (Z * string)) :
  preserves tallies (bulk_loop cfg env et_now window_ok rows).
Proof.
  induction rows as [|row rest IH]; cbn [bulk_loop]; [frame_step|].
  frame_step; [apply tallies_bulk_symbol | exact IH].
Qed.

Lemma tallies_try (cfg : Config) (env : Env) :
  preserves tallies
    (try_except (check_alerts_try cfg env) (fun _ => mret tt)).
Proof.
  unfold check_alerts_try.
  simple apply preserves_try_except;
    [solve [typeclasses eauto] | |intros e; frame_step].
  simple apply preserves_bind; [solve [typeclasses eauto] | |intros rows].
  { apply tallies_lift. intros w. unfold read_watchlist. cbn.
    destruct (select_watchlist env (watch_reads w)); reflexivity. }
  destruct rows as [|row rest].
  - simple apply preserves_bind; [solve [typeclasses eauto] | |intros fin].
    { apply tallies_lift. intros w. reflexivity. }
    apply tallies_lift. intros w. unfold set_run_status, update_run_status.
    destruct (run_status w); reflexivity.
  - simple apply preserves_bind; [solve [typeclasses eauto] | |intros et].
    { apply tallies_lift. intros w. reflexivity. }
    apply tallies_bulk_loop.
Qed.

(** X7.  The total in the summary of a bulk run is the number of
    notifications counted during the run: the message left in the
    run-status row is "Updated ok symbol(s), err error(s); notified n"
    with the two counts of the row and n the number of rule ids counted
    since the start (cut to 400 characters). *)
Theorem bulk_run_notified_total (cfg : Config) (env : Env) (w : World)
  (rs : RunStatus) :
  run_status w = Some rs ->
  let out := check_alerts cfg env w in
  exists new rs' ok err,
    notified out.2 = notified w ++ new
    /\ run_status out.2 = Some rs'
    /\ ok_count rs' = Some ok
    /\ err_count rs' = Some err
    /\ message rs'
       = Some (prefix 400 (bulk_message ok err (Z.of_nat (length new)))).
Proof.
  intros Hrow out.
  assert (Hout : out = check_alerts cfg env w) by reflexivity.
  clearbody out. unfold check_alerts in Hout.
  rewrite bind_run in Hout. unfold time_time at 1 in Hout.
  rewrite bind_run in Hout.
  unfold set_run_status at 1, update_run_status in Hout.
  cbn [run_status with_time_reads] in Hout. rewrite Hrow in Hout.
  set (w1 := with_transitions _ (with_run_status _ _)) in Hout.
  unfold with_locals, try_finally in Hout.
  set (l0 := {| l_ok_count := 0; l_err_count := 0;
                l_rate_limited_seen := false; l_total_notified := 0 |})
    in Hout.
  pose proof (tallies_try cfg env (l0, w1)) as (new & Hnot & Htot).
  pose proof (check_alerts_try_spec cfg env l0 w1) as Htry.
  cbv zeta in Htry.
  destruct (try_except (check_alerts_try cfg env) (fun _ => mret tt) (l0, w1))
    as [res [l2 w2]].
  cbn [fst snd] in Htry, Hnot, Htot.
  destruct Htry as (-> & Hsome & _).
  destruct (Hsome (mk_is_Some _ _ eq_refl)) as [rs2 Hrow2].
  unfold check_alerts_finally in Hout.
  unfold_m. unfold lift, time_time, set_run_status, update_run_status in Hout.
  cbn [fst snd run_status with_time_reads] in Hout.
  rewrite Hrow2 in Hout. cbn [fst snd] in Hout.
  exists new. eexists. exists (l_ok_count l2), (l_err_count l2).
  rewrite Hout. cbn [fst snd run_status with_transitions with_run_status
                     notified with_time_reads].
  split; [exact Hnot|]. split; [reflexivity|].
  cbn [ok_count err_count message]. split; [reflexivity|].
  split; [reflexivity|].
  rewrite Htot. reflexivity.
Qed.

Lemma bulk_run_notified_total_witness :
  exists new rs' ok err,
    notified (check_alerts Demo.config Demo.env world_with_rule).2
    = notified world_with_rule ++ new
    /\ run_status (check_alerts Demo.config Demo.env world_with_rule).2
       = Some rs'
    /\ ok_count rs' = Some ok
    /\ err_count rs' = Some err
    /\ message rs'
       = Some (prefix 400 (bulk_message ok err (Z.of_nat (length new)))).
Proof.
  apply (bulk_run_notified_total Demo.config Demo.env world_with_rule
           seed_run_status).
  reflexivity.
Defined.

(** *** Rules that cannot be judged, rules that fail *)

(** X8.  A rule the quote cannot judge is skipped without a post
    and without a write: a rule of a kind the evaluator does not know; a
    price rule when the quote has no price; a percent rule when the
    quote has no price, no open, or an open of zero, where the change
    from the open is not computed. *)
Theorem rule_not_judged_is_skipped (cfg : Config) (env : Env)
  (ticker : string) (price open_ : option float) (next_earn : option string)
  (now : Z) (a : AlertRow) (w : World) :
  a_type a ∉ known_kinds
  \/ ((a_type a = "above"%string \/ a_type a = "below"%string)
      /\ price = None)
  \/ ((a_type a = "pct_drop"%string \/ a_type a = "pct_jump"%string)
      /\ (price = None \/ open_ = None
          \/ exists o, open_ = Some o /\ PrimFloat.eqb o 0 = true)) ->
  eval_alert cfg env ticker price open_ (pct_from_open_of price open_)
    next_earn now a w = (Ok 0, w).
Proof.
  intros Hcase.
  assert (Hkind : String.eqb (a_type a) "earnings_days" = false).
  { apply String.eqb_neq. intros Heq. unfold known_kinds in Hcase.
    destruct Hcase as [H | [[[H | H] _] | [[H | H] _]]];
      try (rewrite Heq in H; discriminate).
    apply H. rewrite Heq. repeat constructor. }
  assert (Hnone : trigger_of (a_type a) (a_val a) price
                    (pct_from_open_of price open_) = None).
  { unfold trigger_of.
    destruct Hcase as [H | [[[H | H] ->] | [[H | H] Hopen]]].
    - unfold known_kinds in H.
      repeat (apply not_elem_of_cons in H as [?%String.eqb_neq H]).
      repeat match goal with
             | E : String.eqb _ _ = false |- _ => rewrite E; clear E
             end.
      reflexivity.
    - rewrite H. reflexivity.
    - rewrite H. reflexivity.
    - rewrite H. cbn [String.eqb Ascii.eqb Bool.eqb andb].
      assert (Hp : pct_from_open_of price open_ = None).
      { unfold pct_from_open_of.
        destruct Hopen as [-> | [-> | (o & -> & Ho)]];
          [destruct open_; reflexivity | reflexivity |].
        rewrite Ho. destruct price; reflexivity. }
      rewrite Hp. reflexivity.
    - rewrite H. cbn [String.eqb Ascii.eqb Bool.eqb andb].
      assert (Hp : pct_from_open_of price open_ = None).
      { unfold pct_from_open_of.
        destruct Hopen as [-> | [-> | (o & -> & Ho)]];
          [destruct open_; reflexivity | reflexivity |].
        rewrite Ho. destruct price; reflexivity. }
      rewrite Hp. reflexivity. }
  rewrite eval_alert_cooldown_run by exact Hkind.
  cbv zeta. rewrite Hnone. cbn [truthy].
  destruct (negb _); reflexivity.
Qed.

Lemma rule_not_judged_is_skipped_witness :
  eval_alert Demo.config Demo.env "A" (Some 95%float) (Some 0%float)
    (pct_from_open_of (Some 95%float) (Some 0%float)) None 1761572100
    {| alert_id := 9; alert_symbol := 1; a_type := "pct_drop"; a_val := 5 |}
    Demo.world
  = (Ok 0, Demo.world).
Proof.
  apply rule_not_judged_is_skipped.
  right. right. split; [left; reflexivity|].
  right. right. exists 0%float. split; reflexivity.
Defined.

(** X9.  An earnings rule whose threshold has no integer value
    (an infinity: [int] raises) fails inside the loop once the date has
    parsed.  The failure is caught: the turn counts nothing, posts
    nothing and stamps nothing, and the loop goes on with the rules that
    follow exactly as if the rule were not there, but for the calendar
    reading it made. *)
Theorem failing_rule_is_isolated (cfg : Config) (env : Env)
  (ticker : string) (price open_ pct : option float)
  (next_earn : option string) (now : Z) (a : AlertRow)
  (rest : list AlertRow) (sent : Z) (w : World) (e : exn) :
  a_type a = "earnings_days"%string ->
  int_of_float (a_val a) = Raise e ->
  exists w1,
    eval_alert cfg env ticker price open_ pct next_earn now a w = (Ok 0, w1)
    /\ quiet w w1
    /\ eval_frame w w1
    /\ eval_alerts cfg env ticker price open_ pct next_earn now (a :: rest)
         sent w
       = eval_alerts cfg env ticker price open_ pct next_earn now rest sent w1.
Proof.
  intros Hkind Hint.
  assert (Hrun : exists w1,
             eval_alert cfg env ticker price open_ pct next_earn now a w
             = (Ok 0, w1) /\ quiet w w1).
  { rewrite eval_alert_earnings_run by exact Hkind.
    destruct (negb (truthy next_earn)); [exists w; repeat split|].
    destruct (strptime_ymd env _); [|exists w; repeat split].
    cbv zeta. rewrite Hint. eexists. repeat split. }
  destruct Hrun as (w1 & Hrun & Hq). exists w1.
  split; [exact Hrun|]. split; [exact Hq|]. split.
  - pose proof (eval_alert_frame cfg env ticker price open_ pct next_earn
                  now a w) as Hf.
    rewrite Hrun in Hf. exact Hf.
  - cbn [eval_alerts]. rewrite bind_run, Hrun, Z.add_0_r. reflexivity.
Qed.

Lemma failing_rule_is_isolated_witness :
  exists w1,
    eval_alert Demo.config Demo.env "A" (Some 101%float) (Some 100%float)
      (Some 1%float) (Some "2025-10-30"%string) 1761572100
      {| alert_id := 8; alert_symbol := 1; a_type := "earnings_days";
         a_val := infinity |} Demo.world
    = (Ok 0, w1)
    /\ quiet Demo.world w1.
Proof.
  destruct (failing_rule_is_isolated Demo.config Demo.env "A"
              (Some 101%float) (Some 100%float) (Some 1%float)
              (Some "2025-10-30"%string) 1761572100
              {| alert_id := 8; alert_symbol := 1; a_type := "earnings_days";
                 a_val := infinity |} [] 0 Demo.world (Exc "OverflowError"))
    as (w1 & Hrun & Hq & _).
  - reflexivity.
  - reflexivity.
  - exists w1. split; assumption.
Defined.

(** *** The single-symbol update *)

(** The update of a known symbol, as the turn of the bulk loop it
    copies: the recovery, a reading of the market clock, then the fetch,
    the snapshot write and the evaluation. *)
Lemma api_update_symbol_run (cfg : Config) (env : Env) (symbols : Symbols)
  (symbol_id : Z) (row : SymbolRow) (l : Locals) (w : World) :
  symbols !! symbol_id = Some row ->
  let w1 := (_auto_recover_run_status cfg env w).2 in
  let et_now := local_clock env (local_reads w1) in
  let w2 := with_local_reads (S (local_reads w1)) w1 in
  let r := provider_get_full env (length (fetches w2)) (sym_ticker row) in
  let turn :=
    bulk_symbol cfg env et_now (is_trading_window et_now)
      (symbol_id, sym_ticker row) (l, w2) in
  api_update_symbol cfg env symbols symbol_id w =
    (match turn.1 with
     | Raise e => Raise e
     | Ok _ =>
         Ok (if truthy (fetch_error r)
             then UpdateError (or_empty (fetch_error r))
             else UpdateOk (l_total_notified turn.2.1 - l_total_notified l))
     end, turn.2.2).
Proof.
  intros Hsym w1 et_now w2 r turn.
  unfold api_update_symbol. rewrite bind_run.
  destruct (auto_recover_effect cfg env w) as (Hok & _). fold w1 in Hok.
  destruct (_auto_recover_run_status cfg env w) as [r0 w1'] eqn:Hrec.
  cbn [fst snd] in *. subst r0 w1. rewrite Hsym.
  rewrite bind_run. unfold now_et at 1. fold et_now. fold w2.
  subst turn. unfold bulk_symbol. rewrite !bind_run.
  unfold try_except, lift, provider_call. cbn [fst snd]. fold r.
  destruct r as [full|e]; cbn [fetch_error].
  - destruct (truthy (Quote.get_error full)) eqn:Herr.
    + unfold_m. unfold update_locals, upsert_symbol_state_full, time_time.
      unfold_m. cbn [fst snd].
      destruct (String.eqb (or_empty (Quote.get_error full)) "rate_limited");
        reflexivity.
    + unfold_m. unfold update_locals, upsert_symbol_state_full, time_time.
      unfold_m. cbn [fst snd].
      destruct (_evaluate_and_notify cfg env symbol_id (sym_ticker row) full
                  _ _) as [[n|e] w3]; cbn [fst snd l_total_notified];
        [|reflexivity].
      do 3 f_equal. lia.
  - unfold_m. unfold update_locals, upsert_symbol_state_full, time_time.
    unfold_m. cbn. reflexivity.
Qed.

(** The timeout recovery touches the run-status row and the clock
    only. *)
Lemma auto_recover_keeps (cfg : Config) (env : Env) (w : World) :
  let w1 := (_auto_recover_run_status cfg env w).2 in
  fetches w1 = fetches w /\ local_reads w1 = local_reads w
  /\ symbol_state w1 = symbol_state w /\ quiet w w1.
Proof.
  intros w1. subst w1. unfold _auto_recover_run_status. unfold_m.
  unfold time_time, update_run_status. cbn [run_status with_time_reads].
  destruct (run_status w) as [rs|] eqn:Hrow; [|repeat split].
  destruct (is_running rs); [|repeat split].
  destruct (started_epoch rs); [|repeat split].
  destruct (_ <=? _); [|repeat split].
  cbn [run_status with_time_reads fst snd]. rewrite Hrow. repeat split.
Qed.

(** X10.  The on-demand update of a known symbol does to the store
    exactly what one turn of the bulk loop does for that symbol, after
    the timeout recovery and one reading of the market clock: the same
    fetch, the same snapshot write, the same evaluation.  Its answer is
    error where the turn counts an error, ok with the number the turn
    adds to the total of notifications where it counts a success, and it
    raises where the turn raises; not_found is not answered. *)
Theorem single_update_is_bulk_turn (cfg : Config) (env : Env)
  (symbols : Symbols) (symbol_id : Z) (row : SymbolRow) (l : Locals)
  (w : World) :
  symbols !! symbol_id = Some row ->
  let w1 := (_auto_recover_run_status cfg env w).2 in
  let et_now := local_clock env (local_reads w1) in
  let w2 := with_local_reads (S (local_reads w1)) w1 in
  let turn :=
    bulk_symbol cfg env et_now (is_trading_window et_now)
      (symbol_id, sym_ticker row) (l, w2) in
  let out := api_update_symbol cfg env symbols symbol_id w in
  out.2 = turn.2.2
  /\ match out.1 with
     | Ok NotFound => False
     | Ok (UpdateError _) =>
         turn.1 = Ok tt
         /\ l_err_count turn.2.1 = l_err_count l + 1
         /\ l_ok_count turn.2.1 = l_ok_count l
     | Ok (UpdateOk n) =>
         turn.1 = Ok tt
         /\ l_ok_count turn.2.1 = l_ok_count l + 1
         /\ l_err_count turn.2.1 = l_err_count l
         /\ l_total_notified turn.2.1 = l_total_notified l + n
     | Raise e => turn.1 = Raise e
     end.
Proof.
  intros Hsym w1 et_now w2 turn out. subst out.
  rewrite (api_update_symbol_run cfg env symbols symbol_id row l w Hsym).
  cbv zeta. fold w1 et_now w2 turn. cbn [fst snd].
  split; [reflexivity|].
  pose proof (bulk_symbol_spec cfg env et_now (is_trading_window et_now)
                (symbol_id, sym_ticker row) l w2) as Hs.
  cbv zeta in Hs. fold turn in Hs. cbn [fst snd] in Hs.
  destruct Hs as (_ & Hok & Herr & _).
  unfold fetch_succeeded, fetch_failed in Hok, Herr. cbn [snd] in Hok, Herr.
  destruct (turn.1) as [[]|e]; [|reflexivity].
  destruct (truthy (fetch_error _)); cbn [negb] in Hok.
  - split; [reflexivity|]. split; [exact Herr | lia].
  - split; [reflexivity|]. split; [exact Hok|]. split; lia.
Qed.

Lemma single_update_is_bulk_turn_witness :
  (api_update_symbol Demo.config Demo.env symbols_with_a 1 world_with_rule).2
  = (bulk_symbol Demo.config Demo.env Demo.monday_morning true
       (1, "A"%string)
       ({| l_ok_count := 0; l_err_count := 0; l_rate_limited_seen := false;
           l_total_notified := 0 |},
        with_local_reads 1 world_with_rule)).2.2.
Proof.
  apply (single_update_is_bulk_turn Demo.config Demo.env symbols_with_a 1
           {| sym_ticker := "A"; sym_group := Some 1; sym_note := None;
              sym_rating := 0; sym_last_edit := None |}
           {| l_ok_count := 0; l_err_count := 0;
              l_rate_limited_seen := false; l_total_notified := 0 |}
           world_with_rule).
  reflexivity.
Defined.

(** X11.  The on-demand update of a single symbol is not subject
    to the single-flight guard: whatever the phase of the run status,
    also running, a known symbol is fetched, once.  The route never
    writes the run-status row beyond the timeout recovery it starts
    with, and starts no worker.  An unknown id is answered not_found
    with no fetch and no write. *)
Theorem single_update_unguarded (cfg : Config) (env : Env)
  (symbols : Symbols) (symbol_id : Z) (w : World) :
  let w1 := (_auto_recover_run_status cfg env w).2 in
  let out := api_update_symbol cfg env symbols symbol_id w in
  run_status out.2 = run_status w1
  /\ transitions out.2 = transitions w1
  /\ workers out.2 = workers w
  /\ match symbols !! symbol_id with
     | None => out = (Ok NotFound, w1)
     | Some row =>
         fetches out.2 =
           fetches w
           ++ [(sym_ticker row,
                provider_get_full env (length (fetches w)) (sym_ticker row))]
     end.
Proof.
  intros w1 out. subst out.
  destruct (auto_recover_effect cfg env w) as (Hok & Hworkers & _).
  destruct (auto_recover_keeps cfg env w) as (Hfetch & _).
  fold w1 in Hok, Hworkers, Hfetch.
  destruct (symbols !! symbol_id) as [row|] eqn:Hsym.
  - rewrite (api_update_symbol_run cfg env symbols symbol_id row
               {| l_ok_count := 0; l_err_count := 0;
                  l_rate_limited_seen := false; l_total_notified := 0 |}
               w Hsym).
    cbv zeta. fold w1. cbn [fst snd].
    set (et_now := local_clock env (local_reads w1)).
    set (w2 := with_local_reads (S (local_reads w1)) w1).
    pose proof (bulk_symbol_spec cfg env et_now (is_trading_window et_now)
                  (symbol_id, sym_ticker row)
                  {| l_ok_count := 0; l_err_count := 0;
                     l_rate_limited_seen := false; l_total_notified := 0 |}
                  w2) as Hs.
    cbv zeta in Hs. cbn [fst snd] in Hs.
    destruct Hs as (Hf & _ & _ & _ & Hrs & Htr & _).
    rewrite Hrs, Htr, Hf.
    split; [reflexivity|]. split; [reflexivity|].
    assert (Hw : workers
                   (bulk_symbol cfg env et_now (is_trading_window et_now)
                      (symbol_id, sym_ticker row)
                      ({| l_ok_count := 0; l_err_count := 0;
                          l_rate_limited_seen := false;
                          l_total_notified := 0 |}, w2)).2.2
                 = workers w2).
    { refine (bulk_symbol_keeps cfg env
                (fun a b : World => workers b = workers a) (fun _ => True)
                _ _ _ _ et_now (is_trading_window et_now)
                (symbol_id, sym_ticker row) _ (_, w2)).
      - intros ?. reflexivity.
      - intros ? ? ? H1 H2. congruence.
      - intros ?. reflexivity.
      - intros ? ?. reflexivity.
      - intros id t q now w'.
        destruct (evaluate_and_notify_frame cfg env id t q now w')
          as (_ & _ & _ & _ & _ & _ & H & _). exact H.
      - intros ? ? ? ? _ ?. reflexivity.
      - exact I. }
    split; [rewrite Hw; exact Hworkers|].
    subst w2. cbn [fetches with_local_reads]. rewrite Hfetch. reflexivity.
  - unfold api_update_symbol. rewrite bind_run.
    destruct (_auto_recover_run_status cfg env w) as [r0 w1'].
    cbn [fst snd] in *. subst r0 w1. rewrite Hsym.
    repeat split; assumption.
Qed.

(** *** Deleting a symbol *)

Lemma select_alerts_after_delete (symbol_id other : Z) (l : list AlertRow) :
  other <> symbol_id ->
  filter (fun a => alert_symbol a = other)
    (filter (fun a => alert_symbol a ≠ symbol_id) l)
  = filter (fun a => alert_symbol a = other) l.
Proof.
  intros Hne. induction l as [|a rest IH]; [reflexivity|].
  rewrite !filter_cons.
  destruct (decide (alert_symbol a ≠ symbol_id)) as [Hk | Hk].
  - rewrite filter_cons. destruct (decide (alert_symbol a = other));
      rewrite IH; reflexivity.
  - destruct (decide (alert_symbol a = other)) as [Ho | Ho]; [|exact IH].
    exfalso. apply Hk. congruence.
Qed.

Lemma select_alerts_of_deleted (symbol_id : Z) (l : list AlertRow) :
  filter (fun a => alert_symbol a = symbol_id)
    (filter (fun a => alert_symbol a ≠ symbol_id) l) = [].
Proof.
  induction l as [|a rest IH]; [reflexivity|].
  rewrite filter_cons.
  destruct (decide (alert_symbol a ≠ symbol_id)) as [Hk | Hk]; [|exact IH].
  rewrite filter_cons. destruct (decide (alert_symbol a = symbol_id));
    [contradiction | exact IH].
Qed.

(** X12.  Deleting a symbol leaves nothing of it: no row in the
    table of symbols, no rule, no snapshot, and no suppression row for
    any of its rules.  The rows, rules and snapshots of every other
    symbol are as before, and so is every suppression row whose id is
    not the id of a deleted rule.  If every suppression row belonged to
    a rule before, every one does after. *)
Theorem delete_symbol_leaves_nothing (symbol_id : Z) (db : Db) :
  let out := delete_symbol symbol_id db in
  out.1 = Ok "deleted"%string
  /\ out.2.1 !! symbol_id = None
  /\ select_alerts symbol_id out.2.2 = []
  /\ symbol_state out.2.2 !! symbol_id = None
  /\ (forall a, a ∈ alerts db.2 -> alert_symbol a = symbol_id ->
        alert_state out.2.2 !! alert_id a = None)
  /\ (forall other, other <> symbol_id ->
        out.2.1 !! other = db.1 !! other
        /\ select_alerts other out.2.2 = select_alerts other db.2
        /\ symbol_state out.2.2 !! other = symbol_state db.2 !! other)
  /\ (forall id, id ∉ map alert_id (select_alerts symbol_id db.2) ->
        alert_state out.2.2 !! id = alert_state db.2 !! id)
  /\ (no_orphan_state db.2 -> no_orphan_state out.2.2).
Proof.
  destruct db as [symbols w]. intros out. subst out.
  unfold delete_symbol. unfold_m.
  cbn [fst snd alerts alert_state symbol_state with_alerts with_alert_state
       with_symbol_state].
  set (rule_ids := map alert_id (select_alerts symbol_id w)).
  assert (Hin : forall a, a ∈ alerts w -> alert_symbol a = symbol_id ->
                          alert_id a ∈ rule_ids).
  { intros a Ha Hs. apply list_elem_of_fmap. exists a.
    split; [reflexivity|]. apply list_elem_of_filter. split; assumption. }
  assert (Hkeep : forall id, id ∉ rule_ids ->
            filter (fun kv : Z * AlertState => kv.1 ∉ rule_ids)
              (alert_state w) !! id = alert_state w !! id).
  { intros id Hid. destruct (alert_state w !! id) as [st|] eqn:Hst.
    - apply map_lookup_filter_Some. split; [exact Hst | exact Hid].
    - apply map_lookup_filter_None. left. exact Hst. }
  split; [reflexivity|].
  split; [apply lookup_delete_eq|].
  split.
  { unfold select_alerts. cbn [alerts]. apply select_alerts_of_deleted. }
  split; [apply lookup_delete_eq|].
  split.
  { intros a Ha Hs. apply map_lookup_filter_None. right.
    intros st _ Hnot. apply Hnot. cbn. apply Hin; assumption. }
  split.
  { intros other Hne. split; [apply lookup_delete_ne; congruence|].
    split; [|apply lookup_delete_ne; congruence].
    unfold select_alerts. cbn [alerts].
    apply select_alerts_after_delete. exact Hne. }
  split; [exact Hkeep|].
  intros Horph id [st Hst]. unfold no_orphan_state in Horph.
  cbn [alert_state alerts] in *.
  apply map_lookup_filter_Some in Hst as [Hst Hid]. cbn in Hid.
  specialize (Horph id (mk_is_Some _ _ Hst)).
  apply list_elem_of_fmap in Horph as (a & -> & Ha).
  apply list_elem_of_fmap. exists a. split; [reflexivity|].
  apply list_elem_of_filter. split; [|exact Ha].
  intros Hs. apply Hid. apply Hin; assumption.
Qed.

(** *** Suppression rows belong to rules *)

#[global] Instance within_rules_refl : Reflexive within_rules.
Proof. intros w. split; [reflexivity|]. intros id H. left. exact H. Qed.

#[global] Instance within_rules_trans : Transitive within_rules.
Proof.
  intros a b c [Ha1 Hs1] [Ha2 Hs2]. split; [congruence|].
  intros id H. destruct (Hs2 id H) as [H' | H'].
  - apply Hs1, H'.
  - right. rewrite <- Ha1. exact H'.
Qed.

Lemma within_rules_same (w w' : World) :
  alerts w' = alerts w -> alert_state w' = alert_state w ->
  within_rules w w'.
Proof.
  intros Ha Hs. split; [exact Ha|]. intros id H. left. rewrite <- Hs. exact H.
Qed.

Lemma eval_alerts_within_rules (cfg : Config) (env : Env) (ticker : string)
  (price open_ pct : option float) (next_earn : option string) (now : Z)
  (rows : list AlertRow) (sent : Z) (w : World) :
  (forall a, a ∈ rows -> a ∈ alerts w) ->
  within_rules w
    (eval_alerts cfg env ticker price open_ pct next_earn now rows sent w).2.
Proof.
  revert sent w. induction rows as [|a rest IH]; intros sent w Hrows;
    [reflexivity|].
  cbn [eval_alerts]. rewrite bind_run.
  pose proof (eval_alert_effect cfg env ticker price open_ pct next_earn now
                a w) as Heff.
  pose proof (eval_alert_frame cfg env ticker price open_ pct next_earn now a w)
    as (_ & Hal & _).
  cbv zeta in Heff.
  destruct (eval_alert cfg env ticker price open_ pct next_earn now a w)
    as [res w1]. cbn [fst snd] in Heff, Hal.
  assert (Hstep : within_rules w w1).
  { destruct Heff as [(_ & Hst & _) | (_ & _ & _ & Hother)].
    - apply within_rules_same; assumption.
    - split; [exact Hal|]. intros id H.
      destruct (decide (id = alert_id a)) as [-> | Hne].
      + right. apply list_elem_of_fmap. exists a. split; [reflexivity|].
        apply Hrows. apply list_elem_of_here.
      + left. rewrite <- (Hother id Hne). exact H. }
  assert (Hrest : forall b, b ∈ rest -> b ∈ alerts w1).
  { intros b Hb. rewrite Hal. apply Hrows. apply list_elem_of_further.
    exact Hb. }
  destruct Heff as [(-> & _) | (-> & _)];
    (etransitivity; [exact Hstep | apply IH; exact Hrest]).
Qed.

Lemma evaluate_within_rules (cfg : Config) (env : Env) (symbol_id : Z)
  (ticker : string) (quote : option Quote.t) (now : Z) :
  preserves within_rules
    (_evaluate_and_notify cfg env symbol_id ticker quote now).
Proof.
  intros w. destruct quote as [q|].
  - rewrite evaluate_and_notify_loop. apply eval_alerts_within_rules.
    apply select_alerts_elem.
  - unfold _evaluate_and_notify. rewrite bind_run. unfold_m. cbn [fst snd].
    destruct (select_alerts symbol_id w); reflexivity.
Qed.

Lemma within_rules_no_orphan (w w' : World) :
  within_rules w w' -> no_orphan_state w -> no_orphan_state w'.
Proof.
  intros [Ha Hs] Horph id H. rewrite Ha.
  destruct (Hs id H) as [H' | H']; [apply Horph, H' | exact H'].
Qed.

(** X13.  The engine writes suppression rows only for rules of the
    table: from a store where every suppression row belongs to a rule,
    an evaluation, a whole bulk run and an on-demand update of a symbol
    all end in a store where every suppression row belongs to a rule. *)
Theorem suppression_rows_belong_to_rules (cfg : Config) (env : Env)
  (w : World) :
  no_orphan_state w ->
  (forall symbol_id ticker quote now,
     no_orphan_state
       (_evaluate_and_notify cfg env symbol_id ticker quote now w).2)
  /\ no_orphan_state (check_alerts cfg env w).2
  /\ (forall symbols symbol_id,
        no_orphan_state (api_update_symbol cfg env symbols symbol_id w).2).
Proof.
  intros Horph.
  assert (Htime : preserves within_rules (time_time env))
    by (intros w'; apply within_rules_same; reflexivity).
  assert (Hfetch : forall t, preserves within_rules (provider_call env t))
    by (intros t w'; apply within_rules_same; reflexivity).
  assert (Hupsert : forall id win note d, True ->
            preserves within_rules (upsert_symbol_state_full env id win note d))
    by (intros id win note d _ w'; apply within_rules_same; reflexivity).
  split; [|split].
  - intros symbol_id ticker quote now.
    eapply within_rules_no_orphan; [|exact Horph].
    apply evaluate_within_rules.
  - eapply within_rules_no_orphan; [|exact Horph].
    apply (check_alerts_keeps cfg env within_rules (fun _ => True)).
    + exact Htime.
    + intros w'. apply within_rules_same; reflexivity.
    + intros w'. apply within_rules_same; unfold read_watchlist; cbn;
        reflexivity.
    + exact Hfetch.
    + intros ? ? ? ? ? ? ? w'. unfold set_run_status, update_run_status.
      destruct (run_status w'); apply within_rules_same; reflexivity.
    + apply evaluate_within_rules.
    + exact Hupsert.
    + intros rows _. apply Forall_forall. intros ? _. exact I.
  - intros symbols symbol_id.
    eapply within_rules_no_orphan; [|exact Horph].
    destruct (auto_recover_keeps cfg env w) as (_ & _ & _ & _ & Hst & _).
    assert (Hal : alerts (_auto_recover_run_status cfg env w).2 = alerts w).
    { unfold _auto_recover_run_status. unfold_m.
      unfold time_time, update_run_status. cbn [run_status with_time_reads].
      destruct (run_status w) as [rs|] eqn:Hrow; [|reflexivity].
      destruct (is_running rs); [|reflexivity].
      destruct (started_epoch rs); [|reflexivity].
      destruct (_ <=? _); [|reflexivity].
      cbn [run_status with_time_reads fst snd]. rewrite Hrow. reflexivity. }
    destruct (symbols !! symbol_id) as [row|] eqn:Hsym.
    + rewrite (api_update_symbol_run cfg env symbols symbol_id row
                 {| l_ok_count := 0; l_err_count := 0;
                    l_rate_limited_seen := false; l_total_notified := 0 |}
                 w Hsym).
      cbv zeta. cbn [fst snd].
      set (w1 := (_auto_recover_run_status cfg env w).2) in *.
      etransitivity; [apply (within_rules_same w w1); assumption|].
      set (w2 := with_local_reads (S (local_reads w1)) w1).
      etransitivity; [apply (within_rules_same w1 w2); reflexivity|].
      refine (bulk_symbol_keeps cfg env within_rules (fun _ => True)
                Htime Hfetch (evaluate_within_rules cfg env) Hupsert
                _ _ (symbol_id, sym_ticker row) I (_, w2)).
    + unfold api_update_symbol. rewrite bind_run.
      destruct (_auto_recover_run_status cfg env w) as [[[]|e] w1];
        cbn [fst snd] in *; rewrite ?Hsym;
        apply within_rules_same; assumption.
Qed.

Lemma suppression_rows_belong_to_rules_witness :
  no_orphan_state (check_alerts Demo.config Demo.env world_with_stamp).2.
Proof.
  destruct (suppression_rows_belong_to_rules Demo.config Demo.env
              world_with_stamp) as (_ & Hrun & _); [|exact Hrun].
  intros id [st Hst]. unfold world_with_stamp in Hst.
  cbn [alert_state with_alert_state] in Hst.
  apply lookup_singleton_Some in Hst as [<- _].
  apply list_elem_of_here.
Defined.

(** *** The composer keeps the data it was given *)

(** X14.  The composite [get_full] answers one of the two payloads
    it got (a raise counts as a network_error payload without data), the
    primary is always called first and the secondary is consulted
    exactly when the primary's payload has an error or no data.  No data
    is dropped: the answer has a price or a previous close whenever the
    payload of a provider that was called has one.  When both payloads
    have data, or neither has, the primary's is answered only if it has
    no error and the secondary's has one. *)
Theorem fallback_full_keeps_data
  (primary secondary : Fallback.QuoteProvider) (symbol : string) :
  let d := payload_of primary "primary" symbol in
  let d2 := payload_of secondary "secondary" symbol in
  let out := Fallback.fallback_get_full primary secondary symbol in
  (out = (d, [Fallback.Primary])
   \/ out = (d, [Fallback.Primary; Fallback.Secondary])
   \/ out = (d2, [Fallback.Primary; Fallback.Secondary]))
  /\ Fallback.has_data out.1
     = Fallback.has_data d || (consulted out.2 && Fallback.has_data d2)
  /\ (consulted out.2 = false <->
      truthy (Quote.get_error d) = false /\ Fallback.has_data d = true)
  /\ (consulted out.2 = true ->
      Fallback.has_data d = Fallback.has_data d2 ->
      out.1 = if negb (truthy (Quote.get_error d))
                 && truthy (Quote.get_error d2)
              then d else d2).
Proof.
  intros d d2 out. subst out. unfold Fallback.fallback_get_full.
  fold (payload_of primary "primary" symbol).
  fold (payload_of secondary "secondary" symbol). fold d d2.
  destruct (truthy (Quote.get_error d)) eqn:E1,
    (Fallback.has_data d) eqn:E2,
    (truthy (Quote.get_error d2)) eqn:E3,
    (Fallback.has_data d2) eqn:E4;
    cbn; rewrite ?E1, ?E2, ?E3, ?E4; cbn;
    repeat split; auto; try discriminate;
    try (intros [? ?]; discriminate); try (intros; discriminate).
Qed.

(** X15.  The composite [get_price_prev_close] answers one of the
    two triples it got (a raise counts as the network_error triple), and
    consults the secondary exactly when the primary's triple has an
    error or no number.  A number is never dropped.  A secondary with a
    number wins; without one it still wins when the primary reported no
    error and the secondary reports one; otherwise the primary's triple
    is answered. *)
Theorem fallback_price_keeps_data
  (primary secondary : Fallback.QuoteProvider) (symbol : string) :
  let r1 := triple_of primary symbol in
  let r2 := triple_of secondary symbol in
  let out :=
    Fallback.fallback_get_price_prev_close primary secondary symbol in
  (out = (r1, [Fallback.Primary])
   \/ out = (r1, [Fallback.Primary; Fallback.Secondary])
   \/ out = (r2, [Fallback.Primary; Fallback.Secondary]))
  /\ triple_has_data out.1
     = triple_has_data r1 || (consulted out.2 && triple_has_data r2)
  /\ (consulted out.2 = false <->
      truthy r1.2 = false /\ triple_has_data r1 = true)
  /\ (consulted out.2 = true -> triple_has_data r2 = true -> out.1 = r2)
  /\ (consulted out.2 = true -> triple_has_data r2 = false ->
      out.1 = if negb (truthy r1.2) && truthy r2.2 then r2 else r1).
Proof.
  intros r1 r2 out. subst out.
  unfold Fallback.fallback_get_price_prev_close.
  fold (triple_of primary symbol). fold (triple_of secondary symbol).
  fold r1 r2. clearbody r1 r2.
  destruct r1 as [[p1 c1] e1], r2 as [[p2 c2] e2].
  unfold triple_has_data. cbn [fst snd].
  destruct (truthy e1), (truthy e2), p1, c1, p2, c2;
    cbn; repeat split; auto; try discriminate;
    try (intros [? ?]; discriminate); try (intros; discriminate).
Qed.

(** X16.  When every call to the two wrapped providers raises,
    the composite raises nothing: [get_full] answers the network_error
    payload made up for the secondary (its name as source, the symbol in
    upper case and stripped, no data), [get_price_prev_close] answers
    the network_error triple, each after one call to each provider. *)
Theorem fallback_both_raise
  (primary secondary : Fallback.QuoteProvider) (symbol : string)
  (e1 e2 e3 e4 : exn) :
  Fallback.get_full primary symbol = Raise e1 ->
  Fallback.get_full secondary symbol = Raise e2 ->
  Fallback.get_price_prev_close primary symbol = Raise e3 ->
  Fallback.get_price_prev_close secondary symbol = Raise e4 ->
  Fallback.get_full (Fallback._fallback_provider primary secondary) symbol
  = Ok (Some (Quote.blank (Some (strip (upper symbol)))
                (Some (Fallback.getattr_name secondary "secondary"))
                (Some "network_error"%string)))
  /\ Fallback.get_price_prev_close
       (Fallback._fallback_provider primary secondary) symbol
     = Ok (None, None, Some "network_error"%string)
  /\ (Fallback.fallback_get_full primary secondary symbol).2
     = [Fallback.Primary; Fallback.Secondary]
  /\ (Fallback.fallback_get_price_prev_close primary secondary symbol).2
     = [Fallback.Primary; Fallback.Secondary].
Proof.
  intros H1 H2 H3 H4.
  unfold Fallback._fallback_provider, Fallback.fallback_get_full,
    Fallback.fallback_get_price_prev_close.
  cbn [Fallback.get_full Fallback.get_price_prev_close].
  rewrite H1, H2, H3, H4. cbn. repeat split.
Qed.

Lemma fallback_both_raise_witness :
  Fallback.get_full (Fallback._fallback_provider loud_secondary loud_secondary)
    " abc"
  = Ok (Some (Quote.blank (Some "ABC"%string) (Some "secondary"%string)
                (Some "network_error"%string))).
Proof.
  apply (fallback_both_raise loud_secondary loud_secondary " abc"
           (Exc "AssertionError") (Exc "AssertionError")
           (Exc "AssertionError") (Exc "AssertionError"));
    reflexivity.
Defined.

(** *** A provider name that selects nothing *)

Lemma fetches_of_answers (ans : string -> res (option Quote.t))
  (before : nat) (env : Env)
  (new : list (string * res (option Quote.t))) :
  (forall n t, provider_get_full env n t = ans t) ->
  (forall i f, new !! i = Some f ->
               f.2 = provider_get_full env (before + i) f.1) ->
  new = map (fun t => (t, ans t)) (map fst new).
Proof.
  intros Hans. revert before.
  induction new as [|[t r] rest IH]; intros before Hidx; [reflexivity|].
  cbn [map fst]. f_equal.
  - specialize (Hidx 0%nat (t, r) eq_refl). cbn in Hidx.
    rewrite Hidx, Hans. reflexivity.
  - apply (IH (S before)). intros i f Hi.
    rewrite (Hidx (S i) f Hi). f_equal. lia.
Qed.

Lemma count_unconfigured (name_ : string) (tickers : list string) :
  let new := map (fun t => (t, unconfigured_answer name_ t)) tickers in
  count_where fetch_failed new = Z.of_nat (length tickers)
  /\ count_where fetch_succeeded new = 0
  /\ existsb fetch_rate_limited new = false.
Proof.
  induction tickers as [|t rest (IH1 & IH2 & IH3)]; [repeat split|].
  cbn [map count_where existsb length].
  rewrite IH1, IH2, IH3. repeat split; cbn; lia.
Qed.

(** X17.  With QUOTE_PROVIDER set to a name that selects no
    adapter, the provider is never ready and answers the error
    unconfigured for every ticker.  A bulk run then fetches every symbol
    of the watchlist, counts each as an error and none as a success, and
    ends with status code partial (ok on an empty watchlist). *)
Theorem unknown_provider_fails_every_symbol (cfg : Config) (env : Env)
  (QUOTE_PROVIDER : option string)
  (alpha gemini openai PROVIDER : Fallback.QuoteProvider)
  (w : World) (rs : RunStatus) (rows : list (Z * string)) :
  QuoteSources.provider_name QUOTE_PROVIDER ∉ provider_names ->
  QuoteSources.get_provider QUOTE_PROVIDER alpha gemini openai = Ok PROVIDER ->
  (forall n t, provider_get_full env n t = Fallback.get_full PROVIDER t) ->
  run_status w = Some rs ->
  select_watchlist env (watch_reads w) = Ok rows ->
  let out := check_alerts cfg env w in
  Fallback.is_ready PROVIDER = Ok false
  /\ fetches out.2
     = fetches w
       ++ map (fun row =>
                 (row.2,
                  unconfigured_answer
                    (QuoteSources.provider_name QUOTE_PROVIDER) row.2)) rows
  /\ exists rs',
       run_status out.2 = Some rs'
       /\ ok_count rs' = Some 0
       /\ err_count rs' = Some (Z.of_nat (length rows))
       /\ status_code rs'
          = Some (match rows with [] => "ok" | _ :: _ => "partial" end)%string.
Proof.
  intros Hname Hget Henv Hrow Hsel out.
  set (name_ := QuoteSources.provider_name QUOTE_PROVIDER) in *.
  assert (HP : PROVIDER = QuoteSources._Dummy name_).
  { unfold QuoteSources.get_provider in Hget. fold name_ in Hget.
    unfold provider_names in Hname.
    repeat (apply not_elem_of_cons in Hname as [?%String.eqb_neq Hname]).
    assert (Hg : bool_decide
                   (name_ ∈ ["gemini"; "google"; "gemini_search"]%string)
                 = false).
    { apply bool_decide_eq_false. intros Hin.
      repeat (apply elem_of_cons in Hin as [-> | Hin]; [discriminate|]).
      inversion Hin. }
    assert (Hc : bool_decide (name_ ∈ ["chatgpt"; "openai"]%string) = false).
    { apply bool_decide_eq_false. intros Hin.
      repeat (apply elem_of_cons in Hin as [-> | Hin]; [discriminate|]).
      inversion Hin. }
    rewrite Hg, Hc in Hget.
    match goal with E : String.eqb name_ "alpha_vantage" = false |- _ =>
      rewrite E in Hget end.
    congruence. }
  assert (Hans : forall n t,
            provider_get_full env n t = unconfigured_answer name_ t).
  { intros n t. rewrite Henv, HP. reflexivity. }
  split; [rewrite HP; reflexivity|].
  destruct (check_alerts_spec cfg env w rs Hrow)
    as (_ & _ & new & fin & n & Hf & Hidx & Hcov & Hrs).
  fold out in Hf, Hrs. rewrite Hsel in Hcov. destruct Hcov as [_ Hall].
  assert (Hfst : map fst new = map snd rows).
  { apply Hall. intros k t. rewrite Hans. discriminate. }
  assert (Hnew : new = map (fun row => (row.2, unconfigured_answer name_ row.2))
                         rows).
  { rewrite (fetches_of_answers (unconfigured_answer name_)
               (length (fetches w)) env new Hans Hidx).
    rewrite Hfst, map_map. reflexivity. }
  split; [rewrite Hf, Hnew; reflexivity|].
  eexists. split; [exact Hrs|]. cbn [ok_count err_count status_code].
  assert (Hnew' : new = map (fun t => (t, unconfigured_answer name_ t))
                          (map snd rows)).
  { rewrite Hnew, map_map. reflexivity. }
  destruct (count_unconfigured name_ (map snd rows)) as (Hc1 & Hc2 & Hc3).
  cbv zeta in Hc1, Hc2, Hc3. rewrite <- Hnew' in Hc1, Hc2, Hc3.
  rewrite length_map in Hc1.
  unfold bulk_status_code. rewrite Hc1, Hc2, Hc3.
  split; [reflexivity|]. split; [reflexivity|].
  destruct rows; reflexivity.
Qed.

Lemma unknown_provider_fails_every_symbol_witness :
  exists rs',
    run_status (check_alerts Demo.config yahoo_env Demo.world).2 = Some rs'
    /\ ok_count rs' = Some 0
    /\ err_count rs' = Some 3
    /\ status_code rs' = Some "partial"%string.
Proof.
  destruct (unknown_provider_fails_every_symbol Demo.config yahoo_env
              (Some " Yahoo "%string)
              (constant_provider "alpha_vantage" (Ok None))
              (constant_provider "gemini_search" (Ok None))
              (constant_provider "chatgpt" (Ok None))
              (QuoteSources._Dummy "yahoo") Demo.world seed_run_status
              [(1, "A"%string); (2, "B"%string); (3, "C"%string)])
    as (_ & _ & rs' & H).
  - vm_compute. intros Hin.
    repeat (apply elem_of_cons in Hin as [Hin | Hin]; [discriminate|]).
    inversion Hin.
  - reflexivity.
  - reflexivity.
  - reflexivity.
  - reflexivity.
  - exists rs'. exact H.
Defined.

(** *** Helpers of the Gemini adapter *)

Lemma lower_char_idempotent (c : ascii) :
  lower_char (lower_char c) = lower_char c.
Proof. destruct c as [[] [] [] [] [] [] [] []]; reflexivity. Qed.

Lemma lower_idempotent (s : string) : lower (lower s) = lower s.
Proof.
  induction s as [|c r IH]; [reflexivity|].
  cbn [lower]. rewrite lower_char_idempotent, IH. reflexivity.
Qed.

Lemma lower_empty (s : string) : lower s = ""%string -> s = ""%string.
Proof. destruct s; [reflexivity | discriminate]. Qed.

(** X18.  The error normalizer of the Gemini adapter is idempotent:
    normalizing its own answer changes nothing.  It answers no error
    exactly for an error that is missing or empty, and otherwise one of
    the five codes it folds into, or the text itself in lower case. *)
Theorem normalize_err_idempotent (e : option string) :
  Gemini._normalize_err (Gemini._normalize_err e) = Gemini._normalize_err e
  /\ (Gemini._normalize_err e = None <-> truthy e = false)
  /\ (forall code, Gemini._normalize_err e = Some code ->
        code ∈ ["rate_limited"; "key_missing"; "invalid_symbol";
                "parse_error"; "empty_quote"]%string
        \/ code = lower (or_empty e)).
Proof.
  unfold Gemini._normalize_err at 2 3 4 5. cbv zeta.
  destruct (truthy e) eqn:Htruthy; cbn [negb];
    [|split; [reflexivity|]; split; [tauto | intros code [=]]].
  assert (Hne : lower (or_empty e) <> ""%string).
  { intros H. apply lower_empty in H. destruct e as [s|]; [|discriminate].
    cbn in H. subst s. discriminate. }
  remember (lower (or_empty e)) as s eqn:Hs.
  assert (Hlow : lower s = s) by (subst s; apply lower_idempotent).
  clear Hs.
  assert (Hsame :
    (if contains "rate" s && contains "limit" s then Some "rate_limited"%string
     else if contains "api key" s || contains "unauth" s
             || contains "key_missing" s
     then Some "key_missing"%string
     else if contains "invalid_symbol" s then Some "invalid_symbol"%string
     else if contains "parse" s then Some "parse_error"%string
     else if contains "empty" s || contains "not found" s
     then Some "empty_quote"%string
     else Some s) = Gemini._normalize_err (Some s)).
  { unfold Gemini._normalize_err. cbv zeta. cbn [truthy or_empty negb].
    apply String.eqb_neq in Hne. rewrite Hne, Hlow. reflexivity. }
  split; [|split].
  - repeat match goal with
           | |- context [if ?b then _ else _] =>
               let E := fresh "E" in destruct b eqn:E; [reflexivity|]
           end.
    rewrite <- Hsame.
    repeat match goal with
           | E : _ = false |- _ => rewrite E; clear E
           end.
    reflexivity.
  - split; [|discriminate].
    repeat match goal with
           | |- context [if ?b then _ else _] => destruct b
           end; discriminate.
  - intros code.
    repeat match goal with
           | |- context [if ?b then _ else _] => destruct b
           end; intros [= <-];
      first [ right; reflexivity
            | left; repeat first [ apply list_elem_of_here
                                 | apply list_elem_of_further ] ].
Qed.

(** What the scan answers is the text scanned up to a closing brace,
    and scanning the answer again gives the answer. *)
Lemma scan_object_answer (s : string) :
  forall (depth : Z) (in_str esc : bool) (t : string),
    Gemini.scan_object s depth in_str esc = Some t ->
    (exists body rest, t = body +:+ "}" /\ s = t +:+ rest)
    /\ Gemini.scan_object t depth in_str esc = Some t.
Proof.
  induction s as [|ch r IH]; intros depth in_str esc t Hscan;
    [discriminate|].
  cbn [Gemini.scan_object] in Hscan. cbv zeta in Hscan.
  assert (Hkeep : forall d i e',
            option_map (String ch) (Gemini.scan_object r d i e') = Some t ->
            (exists body rest, t = body +:+ "}" /\ String ch r = t +:+ rest)
            /\ option_map (String ch)
                 (Gemini.scan_object (match t with
                                      | String _ t' => t'
                                      | EmptyString => EmptyString
                                      end) d i e') = Some t).
  { intros d i e' H.
    destruct (Gemini.scan_object r d i e') as [t'|] eqn:E; [|discriminate].
    cbn in H. injection H as <-.
    destruct (IH d i e' t' E) as ((body & rest & Hb & Hr) & Hidem).
    split.
    - exists (String ch body), rest.
      split; [rewrite Hb | rewrite Hr]; reflexivity.
    - rewrite Hidem. reflexivity. }
  destruct in_str.
  - destruct esc.
    + destruct (Hkeep _ _ _ Hscan) as [Hshape Hidem]. split; [exact Hshape|].
      destruct t as [|c t']; [discriminate|].
      assert (c = ch) by (destruct Hshape as (? & ? & _ & [= ->]); reflexivity).
      subst c. cbn [Gemini.scan_object]. exact Hidem.
    + destruct (Ascii.eqb ch "\") eqn:E1;
        [|destruct (Ascii.eqb ch Gemini.dquote) eqn:E2];
        destruct (Hkeep _ _ _ Hscan) as [Hshape Hidem];
        (split; [exact Hshape|]);
        destruct t as [|c t']; try discriminate;
        assert (c = ch)
          by (destruct Hshape as (? & ? & _ & [= ->]); reflexivity);
        subst c; cbn [Gemini.scan_object]; rewrite ?E1, ?E2; exact Hidem.
  - destruct (Ascii.eqb ch Gemini.dquote) eqn:E1;
      [|destruct (Ascii.eqb ch "{") eqn:E2;
        [|destruct (Ascii.eqb ch "}") eqn:E3;
          [destruct (depth - 1 =? 0) eqn:E4|]]].
    all: try (destruct (Hkeep _ _ _ Hscan) as [Hshape Hidem];
              (split; [exact Hshape|]);
              destruct t as [|c t']; try discriminate;
              assert (c = ch)
                by (destruct Hshape as (? & ? & _ & [= ->]); reflexivity);
              subst c; cbn [Gemini.scan_object];
              rewrite ?E1, ?E2, ?E3, ?E4; exact Hidem).
    injection Hscan as <-. apply Ascii.eqb_eq in E3. subst ch. split.
    + exists ""%string, r. split; reflexivity.
    + cbn [Gemini.scan_object]. rewrite E1, E2, E4. reflexivity.
Qed.

Lemma contains_brace_cons (c : ascii) (r : string) :
  contains "{" (String c r) = Ascii.eqb c "{" || contains "{" r.
Proof.
  cbn [contains String.prefix].
  destruct (ascii_dec "{" c) as [<- | Hne].
  - destruct r; reflexivity.
  - assert (Ascii.eqb c "{" = false) as ->; [|reflexivity].
    apply Ascii.eqb_neq. congruence.
Qed.

(** X19.  [_first_json_object] answers nothing for a text without an
    opening brace.  What it answers is a piece of the text: it starts at
    the first opening brace of the text, begins with that brace and ends
    with a closing brace; and extracting again from the answer gives the
    answer. *)
Theorem first_json_object_sound (s : string) :
  (contains "{" s = false -> Gemini._first_json_object s = None)
  /\ forall t,
       Gemini._first_json_object s = Some t ->
       exists before body rest,
         s = before +:+ t +:+ rest
         /\ contains "{" before = false
         /\ t = "{" +:+ body +:+ "}"
         /\ Gemini._first_json_object t = Some t.
Proof.
  induction s as [|c r [IHnone IHsome]].
  - split; [reflexivity | discriminate].
  - rewrite contains_brace_cons. cbn [Gemini._first_json_object].
    destruct (Ascii.eqb c "{") eqn:Ec; cbn [orb].
    + apply Ascii.eqb_eq in Ec. subst c. split; [discriminate|].
      intros t Hscan.
      destruct (scan_object_answer _ _ _ _ _ Hscan)
        as ((body & rest & Hb & Hr) & Hidem).
      assert (Hhead : exists t', t = String "{" t').
      { destruct t as [|c t']; [destruct body; discriminate|].
        injection Hr as -> _. exists t'. reflexivity. }
      destruct Hhead as [t' ->].
      assert (Hbody : exists body', t' = body' +:+ "}").
      { destruct body as [|b body'].
        - exfalso. cbn in Hb. injection Hb as Hc _. discriminate.
        - cbn in Hb. injection Hb as _ ->. exists body'. reflexivity. }
      destruct Hbody as [body' ->].
      exists ""%string, body', rest.
      split; [exact Hr|]. split; [reflexivity|]. split; [reflexivity|].
      cbn [Gemini._first_json_object]. exact Hidem.
    + split; [exact IHnone|].
      intros t Hfirst.
      destruct (IHsome t Hfirst)
        as (before & body & rest & Hs & Hno & Ht & Hid).
      exists (String c before), body, rest.
      split; [rewrite Hs; reflexivity|].
      split; [|split; assumption].
      rewrite contains_brace_cons, Ec. exact Hno.
Qed.

(** *** The migration of the snapshot table *)






(** *** The notify window *)

(** X21.  For a time of day in its ranges, the notify window is
    open exactly Monday to Friday from 08:30:00 up to and including
    17:00:00.000000: one microsecond past 17:00 it is closed, and so it
    is on Saturday and Sunday at any time. *)
Theorem trading_window_bounds (d : datetime) :
  0 <= hour d < 24 -> 0 <= minute d < 60 -> 0 <= second d < 60 ->
  0 <= microsecond d < 1000000 ->
  is_trading_window d = true <->
    weekday d <= 4
    /\ ((hour d = 8 /\ 30 <= minute d)
        \/ 9 <= hour d <= 16
        \/ (hour d = 17 /\ minute d = 0 /\ second d = 0
            /\ microsecond d = 0)).
Proof.
  intros Hh Hm Hs Hu. unfold is_trading_window, time_of_day.
  destruct (5 <=? weekday d) eqn:Hday.
  - apply Z.leb_le in Hday. split; [discriminate | lia].
  - apply Z.leb_gt in Hday. cbv zeta.
    rewrite andb_true_iff, !Z.leb_le. lia.
Qed.

Lemma trading_window_bounds_witness :
  is_trading_window Demo.monday_morning = true.
Proof.
  apply (trading_window_bounds Demo.monday_morning); cbn; lia.
Defined.

(** *** Fire times *)

Lemma contains_char_cons (x c : ascii) (r : string) :
  contains (String x "") (String c r)
  = Ascii.eqb c x || contains (String x "") r.
Proof.
  cbn [contains String.prefix].
  destruct (ascii_dec x c) as [<- | Hne].
  - rewrite Ascii.eqb_refl. destruct r; reflexivity.
  - assert (Ascii.eqb c x = false) as ->; [|reflexivity].
    apply Ascii.eqb_neq. congruence.
Qed.

Lemma split_nonempty (sep : ascii) (s : string) : split sep s <> [].
Proof.
  destruct s as [|c r]; cbn; [discriminate|].
  destruct (Ascii.eqb c sep); [discriminate|].
  destruct (split sep r); discriminate.
Qed.

(** [split] cuts at every separator and nowhere else. *)
Lemma split_without (sep : ascii) (s : string) :
  contains (String sep "") s = false -> split sep s = [s].
Proof.
  induction s as [|c r IH]; [reflexivity|].
  rewrite contains_char_cons. intros H.
  apply orb_false_iff in H as [Hc Hr].
  cbn [split]. rewrite Hc, (IH Hr). reflexivity.
Qed.

Lemma split_at (sep : ascii) (a b : string) :
  contains (String sep "") a = false ->
  split sep (a +:+ String sep b) = a :: split sep b.
Proof.
  induction a as [|c r IH]; intros H.
  - change (split sep (String sep b) = ""%string :: split sep b).
    cbn [split]. rewrite Ascii.eqb_refl. reflexivity.
  - rewrite contains_char_cons in H.
    apply orb_false_iff in H as [Hc Hr].
    change (String c r +:+ String sep b)
      with (String c (r +:+ String sep b)).
    cbn [split]. rewrite Hc, (IH Hr). reflexivity.
Qed.

Lemma split_head (sep : ascii) (s a : string) (rest : list string) :
  split sep s = a :: rest ->
  contains (String sep "") a = false
  /\ match rest with
     | [] => s = a
     | _ :: _ => exists b, s = a +:+ String sep b /\ split sep b = rest
     end.
Proof.
  revert a rest. induction s as [|c r IH]; intros a rest Hsplit.
  - cbn in Hsplit. injection Hsplit as <- <-. split; reflexivity.
  - cbn [split] in Hsplit. destruct (Ascii.eqb c sep) eqn:Hc.
    + injection Hsplit as <- <-. apply Ascii.eqb_eq in Hc. subst c.
      split; [reflexivity|].
      destruct (split sep r) as [|h t] eqn:Hr;
        [exfalso; exact (split_nonempty sep r Hr)|].
      exists r. split; [reflexivity | exact Hr].
    + destruct (split sep r) as [|h t] eqn:Hr;
        [exfalso; exact (split_nonempty sep r Hr)|].
      injection Hsplit as <- <-.
      destruct (IH h t eq_refl) as [Hno Hrest].
      split; [rewrite contains_char_cons, Hc; exact Hno|].
      destruct t as [|h' t'].
      * rewrite Hrest. reflexivity.
      * destruct Hrest as (b & -> & Hb). exists b.
        split; [reflexivity | exact Hb].
Qed.

(** X22.  A fire time is accepted exactly when it has one colon
    and [int] accepts the text before it and the text after it; the
    answer is the two integers.  No range is checked: any hour and
    minute [int] yields are answered. *)
Theorem parse_fire_time_accepts (env : Env) (hhmm : string) (h m : Z) :
  _parse_fire_time env hhmm = Some (h, m) <->
  exists hh mm,
    hhmm = hh +:+ ":" +:+ mm
    /\ contains ":" hh = false
    /\ contains ":" mm = false
    /\ int_of_str env hh = Some h
    /\ int_of_str env mm = Some m.
Proof.
  unfold _parse_fire_time. split.
  - destruct (split ":" hhmm) as [|hh [|mm [|x rest]]] eqn:Hsplit;
      try discriminate.
    destruct (int_of_str env hh) as [h'|] eqn:Hh; [|discriminate].
    destruct (int_of_str env mm) as [m'|] eqn:Hm; [|discriminate].
    intros [= <- <-].
    destruct (split_head _ _ _ _ Hsplit) as [Hno (b & -> & Hb)].
    destruct (split_head _ _ _ _ Hb) as [Hno' ->].
    exists hh, mm. repeat split; assumption.
  - intros (hh & mm & -> & Hno & Hno' & Hh & Hm).
    change (hh +:+ ":" +:+ mm) with (hh +:+ String ":" mm).
    rewrite (split_at ":" hh mm Hno), (split_without ":" mm Hno'), Hh, Hm.
    reflexivity.
Qed.

(** *** The message of the run status stays short *)

Lemma prefix_length (n : nat) (s : string) :
  (String.length (prefix n s) <= n)%nat.
Proof.
  unfold prefix. revert s. induction n as [|n IH]; intros s.
  - destruct s; cbn; lia.
  - destruct s as [|c r]; cbn; [lia|]. specialize (IH r). lia.
Qed.

#[global] Instance keeps_bound_refl : Reflexive keeps_bound.
Proof. intros w H. exact H. Qed.

#[global] Instance keeps_bound_trans : Transitive keeps_bound.
Proof. intros a b c H1 H2 H. apply H2, H1, H. Qed.

Lemma keeps_bound_same (w w' : World) :
  run_status w' = run_status w -> keeps_bound w w'.
Proof. intros Hrs Hb rs m. rewrite Hrs. apply Hb. Qed.

Lemma set_run_status_keeps_bound (phase_ : string)
  (started finished : option Z) (code msg : option string)
  (ok err : option Z) :
  preserves keeps_bound
    (set_run_status phase_ started finished code msg ok err).
Proof.
  intros w Hb. unfold set_run_status, update_run_status.
  destruct (run_status w) as [rs|] eqn:Hrow; [|exact Hb].
  intros rs' m [= <-]. cbn [message].
  destruct msg as [v|].
  - intros [= <-]. apply prefix_length.
  - apply (Hb rs m Hrow).
Qed.

(** X23.  The message of the run-status row never grows past 400
    characters: if it is within 400 before, it is within 400 after any
    call of [set_run_status], after a whole bulk run, after either
    recovery and after a manual reset. *)
Theorem run_status_message_bounded (cfg : Config) (env : Env) (w : World) :
  message_bounded w ->
  (forall phase_ started finished code msg ok err,
     message_bounded
       (set_run_status phase_ started finished code msg ok err w).2)
  /\ message_bounded (check_alerts cfg env w).2
  /\ message_bounded (_auto_recover_run_status cfg env w).2
  /\ message_bounded (_recover_stuck_run_status env w).2
  /\ message_bounded (api_run_status_reset env w).2.
Proof.
  intros Hb.
  assert (Hlit : forall (w' : World) (f : RunStatus -> RunStatus),
            (forall rs, exists m, message (f rs) = Some m
                                  /\ (String.length m <= 400)%nat) ->
            message_bounded w' ->
            message_bounded (update_run_status f w').2).
  { intros w' f Hf Hb'. unfold update_run_status.
    destruct (run_status w') as [rs|] eqn:Hrow; [|exact Hb'].
    intros rs' m [= <-] Hm. destruct (Hf rs) as (m' & Hm' & Hlen).
    congruence. }
  assert (Htime : forall w' : World,
            message_bounded w' ->
            message_bounded (with_time_reads (S (time_reads w')) w')).
  { intros w' Hb'. exact Hb'. }
  split; [|split; [|split; [|split]]].
  - intros. apply set_run_status_keeps_bound. exact Hb.
  - apply (check_alerts_keeps cfg env keeps_bound (fun _ => True)).
    + intros w'. apply keeps_bound_same. reflexivity.
    + intros w'. apply keeps_bound_same. reflexivity.
    + intros w'. apply keeps_bound_same. unfold read_watchlist. reflexivity.
    + intros t w'. apply keeps_bound_same. reflexivity.
    + apply set_run_status_keeps_bound.
    + intros id t q now w'. apply keeps_bound_same.
      apply (evaluate_and_notify_frame cfg env id t q now w').
    + intros id win note d _ w'. apply keeps_bound_same. reflexivity.
    + intros rows _. apply Forall_forall. intros ? _. exact I.
    + exact Hb.
  - unfold _auto_recover_run_status. unfold_m. unfold time_time.
    destruct (run_status w) as [rs|]; [|exact Hb].
    destruct (is_running rs); [|exact Hb].
    destruct (started_epoch rs); [|exact Hb].
    destruct (_ <=? _); [|exact Hb].
    cbn [fst snd]. apply Hlit; [|exact Hb].
    intros rs'. eexists. split; [reflexivity|]. cbn. lia.
  - unfold _recover_stuck_run_status. unfold_m. unfold time_time.
    destruct (run_status w) as [rs|]; [|exact Hb].
    destruct (is_running rs); [|exact Hb].
    cbn [fst snd]. apply Hlit; [|exact Hb].
    intros rs'. eexists. split; [reflexivity|]. cbn. lia.
  - unfold api_run_status_reset, _force_finish_run_status. unfold_m.
    unfold time_time. cbn [fst snd].
    pose proof (set_run_status_keeps_bound "finished" None
                  (Some (clock env (time_reads w)))
                  (Some "manual_reset"%string)
                  (Some "Manually reset by user"%string) None None
                  (with_time_reads (S (time_reads w)) w) Hb) as H.
    destruct (set_run_status _ _ _ _ _ _ _ _) as [[[]|e] w1]; exact H.
Qed.

Lemma run_status_message_bounded_witness :
  message_bounded (check_alerts Demo.config Demo.env Demo.world).2.
Proof.
  destruct (run_status_message_bounded Demo.config Demo.env Demo.world)
    as (_ & Hrun & _); [|exact Hrun].
  intros rs m [= <-] [= <-]. cbn. lia.
Defined.

(** *** A delivery that fails *)

Lemma notify_discord_refused (cfg : Config) (env : Env) (content : string)
  (w : World) :
  post_refused env (length (posts w)) ->
  exists w',
    _notify_discord cfg env content w = (Ok false, w')
    /\ alert_state w' = alert_state w
    /\ notified w' = notified w.
Proof.
  intros Href. specialize (Href content). unfold _notify_discord.
  destruct (String.eqb (DISCORD_WEBHOOK cfg) ""); [exists w; repeat split|].
  destruct (http_post env (length (posts w)) content) as [code|e].
  - apply Z.eqb_neq in Href. rewrite Href. eexists. repeat split.
  - eexists. repeat split.
Qed.

(** X24.  A delivery the webhook does not accept, by answering
    outside 2xx or by failing, starts no suppression: the evaluation of
    the rule, of any kind, counts nothing and leaves every suppression
    row as it was, so the rule is due again at the next evaluation. *)
Theorem failed_delivery_not_stamped (cfg : Config) (env : Env)
  (ticker : string) (price open_ pct : option float)
  (next_earn : option string) (now : Z) (a : AlertRow) (w : World) :
  post_refused env (length (posts w)) ->
  let out := eval_alert cfg env ticker price open_ pct next_earn now a w in
  out.1 = Ok 0
  /\ alert_state out.2 = alert_state w
  /\ notified out.2 = notified w.
Proof.
  intros Href out. subst out.
  destruct (String.eqb (a_type a) "earnings_days") eqn:Hkind.
  - apply String.eqb_eq in Hkind.
    rewrite eval_alert_earnings_run by exact Hkind.
    destruct (negb (truthy next_earn)); [repeat split|].
    destruct (strptime_ymd env _); [|repeat split].
    cbv zeta.
    destruct (int_of_float (a_val a)) as [value|e]; [|repeat split].
    destruct (_ =? _); [|repeat split].
    destruct (negb _); [|repeat split].
    destruct (notify_discord_refused cfg env
                (earnings_msg ticker value (or_empty next_earn))
                (with_local_reads (S (local_reads w)) w) Href)
      as (w' & -> & Hst & Hnot).
    repeat split; assumption.
  - rewrite eval_alert_cooldown_run by exact Hkind.
    destruct (negb _); [repeat split|]. cbv zeta.
    destruct (truthy _); [|repeat split].
    destruct (notify_discord_refused cfg env
                (_build_alert_msg ticker price open_ pct
                   (or_empty (trigger_of (a_type a) (a_val a) price pct)))
                w Href)
      as (w' & -> & Hst & Hnot).
    repeat split; assumption.
Qed.

Lemma failed_delivery_not_stamped_witness :
  let out :=
    eval_alert Demo.config refusing_env "A" (Some 101%float)
      (Some 100%float) (Some 1%float) None 1761572100 above_rule
      world_with_rule in
  out.1 = Ok 0
  /\ alert_state out.2 = alert_state world_with_rule
  /\ notified out.2 = notified world_with_rule.
Proof.
  apply (failed_delivery_not_stamped Demo.config refusing_env).
  intros content. vm_compute. discriminate.
Defined.

(** *** The earnings date, stored and evaluated *)





(** *** The window flag is informational *)






